(** * Installation orchestrator of the vnstock distribution

    A shallow embedding of the two installer scripts
    [.build_cli_package/vnstock-installer.py] (module [Installer]) and
    [.build_cli_package/vnstock_cli.py] (module [Cli]), followed by the
    properties of the specification that concern them.

    Conventions of the embedding:
    - Python [str] is [string]: the bytes of the text in UTF-8. White space
      ([str.strip]) is the white space of Unicode, by its bytes. Lower-casing
      is done on the ASCII letters where the code looks for an ASCII text in
      the result, and it is left to a parameter that stands for [str.lower]
      where a property speaks about every key ([Installer.sensitive]).
    - A call that can raise returns a [result]; what is raised is either an
      instance of [Exception] ([Exc], with its class) or one of the two
      [BaseException]s that [except Exception] lets through.
    - The outcome of every network call, subprocess and file-system probe is
      read from an explicit environment record, so that the functions stay
      executable.
    - [print] and the installer's console output are a list of lines threaded
      through the state. *)

From Stdlib Require Import String Ascii ZArith Lia Bool.
From stdpp Require Import base tactics option list sorting strings pretty gmap.

#[local] Set Warnings "-register-all".

Local Open Scope string_scope.
Local Open Scope list_scope.

(* ===================================================================== *)
(** ** Python strings *)
(* ===================================================================== *)

(** The line feed. *)
Definition nl : string := String (ascii_of_nat 10) EmptyString.

Module PyStr.

(** [c.lower()] on one ASCII character. *)
Definition lower_ascii (c : ascii) : ascii :=
  let n := nat_of_ascii c in
  if (65 <=? n)%nat && (n <=? 90)%nat then ascii_of_nat (n + 32) else c.

(** [s.lower()] *)
Fixpoint lower (s : string) : string :=
  match s with
  | EmptyString => EmptyString
  | String c s' => String (lower_ascii c) (lower s')
  end.

(** [s.startswith(p)] *)
Fixpoint startswith (p s : string) : bool :=
  match p, s with
  | EmptyString, _ => true
  | String a p', String b s' => Ascii.eqb a b && startswith p' s'
  | String _ _, EmptyString => false
  end.

(** [p in s] for two strings: [p] occurs in [s] as a substring. *)
Fixpoint contains (p s : string) : bool :=
  startswith p s ||
  match s with
  | EmptyString => false
  | String _ s' => contains p s'
  end.

(** [s.split('\n')]: never empty, the separators are dropped. *)
Fixpoint split_lines (s : string) : list string :=
  match s with
  | EmptyString => [EmptyString]
  | String c s' =>
      if Ascii.eqb c "010"%char then EmptyString :: split_lines s'
      else match split_lines s' with
           | [] => [String c EmptyString]
           | l :: ls => String c l :: ls
           end
  end.

(** ['\n'.join(lines)] *)
Fixpoint join_lines (ls : list string) : string :=
  match ls with
  | [] => EmptyString
  | [l] => l
  | l :: ls' => l ++ String "010"%char (join_lines ls')
  end.

(** The white space of [str.strip] that is one byte: the space, U+0009 to
    U+000D and U+001C to U+001F. *)
Definition is_space (c : ascii) : bool :=
  let n := nat_of_ascii c in
  (n =? 32)%nat || ((9 <=? n)%nat && (n <=? 13)%nat)
  || ((28 <=? n)%nat && (n <=? 31)%nat).

(** The white space of two bytes: U+0085 and U+00A0. *)
Definition is_space2 (a b : ascii) : bool :=
  (nat_of_ascii a =? 194)%nat
  && ((nat_of_ascii b =? 133)%nat || (nat_of_ascii b =? 160)%nat).

(** The white space of three bytes: U+1680, U+2000 to U+200A, U+2028,
    U+2029, U+202F, U+205F and U+3000. *)
Definition is_space3 (a b c : ascii) : bool :=
  let x := nat_of_ascii a in
  let y := nat_of_ascii b in
  let z := nat_of_ascii c in
  ((x =? 225)%nat && (y =? 154)%nat && (z =? 128)%nat)
  || ((x =? 226)%nat && (y =? 128)%nat
      && (((128 <=? z)%nat && (z <=? 138)%nat)
          || (z =? 168)%nat || (z =? 169)%nat || (z =? 175)%nat))
  || ((x =? 226)%nat && (y =? 129)%nat && (z =? 159)%nat)
  || ((x =? 227)%nat && (y =? 128)%nat && (z =? 128)%nat).

(** [s.lstrip()] *)
Fixpoint lstrip (s : string) : string :=
  match s with
  | EmptyString => EmptyString
  | String a s1 =>
      if is_space a then lstrip s1
      else
        match s1 with
        | EmptyString => s
        | String b s2 =>
            if is_space2 a b then lstrip s2
            else
              match s2 with
              | EmptyString => s
              | String c s3 => if is_space3 a b c then lstrip s3 else s
              end
        end
  end.

(** [s.rstrip()]: a byte goes when it and all that follows is white
    space. *)
Fixpoint rstrip (s : string) : string :=
  match s with
  | EmptyString => EmptyString
  | String c s' =>
      if String.eqb (lstrip s) EmptyString then EmptyString
      else String c (rstrip s')
  end.

(** [s.strip()] *)
Definition strip (s : string) : string := rstrip (lstrip s).

(** [sep.join(ls)] *)
Fixpoint join (sep : string) (ls : list string) : string :=
  match ls with
  | [] => EmptyString
  | [l] => l
  | l :: ls' => l ++ sep ++ join sep ls'
  end.

(** [s.endswith(p)] *)
Definition endswith (p s : string) : bool :=
  let n := String.length s in
  let k := String.length p in
  (k <=? n)%nat && String.eqb (String.substring (n - k) k s) p.

(** [any(p in s for p in ps)] *)
Definition any_contained (ps : list string) (s : string) : bool :=
  existsb (fun p => contains p s) ps.

End PyStr.

(* ===================================================================== *)
(** ** Python built-ins used by both scripts *)
(* ===================================================================== *)

Module Py.

(** [sorted(l, key=key)]: Python's sort is stable, so its result is the one
    of a stable insertion: an element goes in front of the first element
    whose key is not smaller, and it is inserted from the right so that
    earlier elements stay in front of later ones with the same key. *)
Fixpoint insert_by {A} (key : A -> nat) (x : A) (l : list A) : list A :=
  match l with
  | [] => [x]
  | y :: l' => if (key x <=? key y)%nat then x :: l else y :: insert_by key x l'
  end.

Definition sorted {A} (key : A -> nat) (l : list A) : list A :=
  foldr (insert_by key) [] l.

(** [l.index(x)]: the first position of [x]; [None] is [ValueError]. *)
Fixpoint index (x : string) (l : list string) : option nat :=
  match l with
  | [] => None
  | y :: l' => if String.eqb y x then Some 0%nat else S <$> index x l'
  end.

End Py.

(* ===================================================================== *)
(** ** Exceptions, and the monad of stateful code that may raise *)
(* ===================================================================== *)

Module Exn.

(** The classes of [Exception] that the handlers of the two scripts tell
    apart; a subclass counts as the class a handler names. *)
Inductive exc_class :=
| TimeoutExpired        (* subprocess.TimeoutExpired *)
| CalledProcessError (stderr : string)   (* subprocess.CalledProcessError *)
| FileNotFoundError
| TarError              (* tarfile.TarError *)
| RequestException      (* requests.exceptions.RequestException *)
| ImportError
| EOFError
| OtherException.       (* every other subclass of Exception *)

(** What a [raise] propagates: an [Exception] with its [str(e)], or one of
    the [BaseException]s that are no [Exception]. *)
Inductive raised :=
| Exc (c : exc_class) (e : string)
| KeyboardInterrupt
| SystemExit (code : Z).

Inductive result (A : Type) :=
| Ok (a : A)
| Raise (r : raised).
Global Arguments Ok {A} a.
Global Arguments Raise {A} r.

Global Instance exc_class_eq_dec : EqDecision exc_class.
Proof. solve_decision. Defined.

(** [isinstance(e, Exception)] *)
Definition is_Exception (r : raised) : bool :=
  match r with Exc _ _ => true | _ => false end.

(** The status with which the interpreter ends when [r] is what leaves the
    script: [sys.exit(code)], an uncaught exception (traceback, status 1),
    or an uncaught interrupt (status 130 on POSIX). *)
Definition exit_status (r : result unit) : Z :=
  match r with
  | Ok _ => 0
  | Raise (SystemExit code) => code
  | Raise KeyboardInterrupt => 130
  | Raise (Exc _ _) => 1
  end.

End Exn.
Export Exn.

(** A computation over a state [S]: the state it leaves is kept when it
    raises, as the effects of a Python function are. *)
Definition M (S A : Type) : Type := S -> result A * S.

Global Instance M_ret {S} : MRet (M S) := fun A a s => (Ok a, s).
Global Instance M_bind {S} : MBind (M S) := fun A B f m s =>
  match m s with
  | (Ok a, s') => f a s'
  | (Raise r, s') => (Raise r, s')
  end.

Definition raise {S A} (r : raised) : M S A := fun s => (Raise r, s).
(** The outcome of an external call, as the environment gives it. *)
Definition call {S A} (o : result A) : M S A := fun s => (o, s).
Definition modify {S} (f : S -> S) : M S unit := fun s => (Ok tt, f s).
Definition gets {S A} (f : S -> A) : M S A := fun s => (Ok (f s), s).

(** [try: body except ...: handler]. A handler is chosen by [handler]; [None]
    means that no [except] clause matches and the exception goes on. *)
Definition try_except {S A} (body : M S A) (handler : raised -> option (M S A)) : M S A :=
  fun s =>
    match body s with
    | (Ok a, s') => (Ok a, s')
    | (Raise r, s') =>
        match handler r with
        | Some h => h s'
        | None => (Raise r, s')
        end
    end.

(** [try: body finally: fin]. What [fin] raises replaces the outcome of
    [body], also a [return]. *)
Definition try_finally {S A} (body : M S A) (fin : M S unit) : M S A :=
  fun s =>
    match body s with
    | (r, s') =>
        match fin s' with
        | (Ok _, s'') => (r, s'')
        | (Raise e, s'') => (Raise e, s'')
        end
    end.

(** [for x in l: body x] *)
Fixpoint for_each {S A} (l : list A) (body : A -> M S unit) : M S unit :=
  match l with
  | [] => mret tt
  | x :: l' => body x ;; for_each l' body
  end.

(** ** Subprocesses and HTTP responses *)

(** [subprocess.CompletedProcess] *)
Record completed := {
  returncode : Z;
  proc_stdout : string;
  proc_stderr : string
}.

(** [subprocess.run(..., check=True)] on the outcome of the process: a
    non-zero status raises [CalledProcessError], which carries the captured
    standard error. Of its text, the command is left out. *)
Definition checked (o : result completed) : result completed :=
  match o with
  | Ok c => if (returncode c =? 0)%Z then Ok c
            else Raise (Exc (CalledProcessError (proc_stderr c))
                            ("Command returned non-zero exit status "
                             ++ pretty (returncode c) ++ "."))
  | Raise r => Raise r
  end.

(** A [requests.Response]. [json] is the body read as a JSON object, with
    its values kept as the text an f-string shows; it raises when the body
    is no JSON. A body that is JSON but no object is not represented. *)
Record response := {
  status_code : Z;
  json : result (list (string * string));
  text : string
}.

(** [d.get(k, default)] *)
Definition dict_get (d : list (string * string)) (k default : string) : string :=
  match List.find (fun kv => String.eqb (fst kv) k) d with
  | Some kv => snd kv
  | None => default
  end.

(** [d[k]], which raises [KeyError]; its text is the key between quotes (the
    keys looked up hold neither a quote nor a backslash). *)
Definition dict_item (d : list (string * string)) (k : string) : result string :=
  match List.find (fun kv => String.eqb (fst kv) k) d with
  | Some kv => Ok (snd kv)
  | None => Raise (Exc OtherException ("'" ++ k ++ "'"))
  end.

(* ===================================================================== *)
(** ** vnstock-installer.py *)
(* ===================================================================== *)

Local Open Scope string_scope.

Module Installer.

(** *** The file system, as far as the installer looks at it *)

(** POSIX [os.path.join(a, b)] ([posixpath.join]) *)
Definition path_join (a b : string) : string :=
  if PyStr.startswith "/" b then b
  else if String.eqb a "" then b
  else if PyStr.endswith "/" a then a ++ b
  else a ++ "/" ++ b.

Definition backslash : string := String (ascii_of_nat 92) EmptyString.

(** Windows [os.path.join(a, b)] ([ntpath.join]) for a [b] that is a plain
    name, without a separator or a drive, as every name joined below is:
    the separator is added unless what follows the drive letter of [a] is
    empty or ends with a separator. *)
Definition nt_path_join (a b : string) : string :=
  let path :=
    match a with
    | String _ (String ":"%char rest) => rest
    | _ => a
    end in
  if String.eqb path ""
     || PyStr.endswith backslash path || PyStr.endswith "/" path
  then a ++ b
  else a ++ backslash ++ b.

(** An entry of an extracted archive. *)
Inductive node :=
| File (entry : string)
| Dir (entry : string) (children : list node).

Definition entry_name (n : node) : string :=
  match n with File e => e | Dir e _ => e end.

Definition find_entry (e : string) (t : list node) : option node :=
  List.find (fun n => String.eqb (entry_name n) e) t.

(** The entry that a path, given by its components below a directory with
    content [t], leads to. *)
Fixpoint lookup_path (t : list node) (rel : list string) : option node :=
  match rel with
  | [] => None
  | [e] => find_entry e t
  | e :: rel' =>
      match find_entry e t with
      | Some (Dir _ children) => lookup_path children rel'
      | _ => None
      end
  end.

(** What the installer has changed or may change on the machine. *)
Record world := {
  stdout : list string;               (* the texts given to print, oldest first *)
  commands : list (list string);      (* the subprocesses run, oldest first *)
  tmp_files : gset string;            (* temporary files on disk *)
  tmp_dirs : gmap string (list node); (* temporary directories and their content *)
  site_packages : list string;        (* packages installed for the target interpreter *)
  saved_info : list (list (string * string))
                                      (* what _save_installation_info was called with *)
}.

Definition set_stdout (f : list string -> list string) (w : world) : world :=
  {| stdout := f (stdout w); commands := commands w; tmp_files := tmp_files w;
     tmp_dirs := tmp_dirs w; site_packages := site_packages w;
     saved_info := saved_info w |}.
Definition set_commands (f : list (list string) -> list (list string)) (w : world) : world :=
  {| stdout := stdout w; commands := f (commands w); tmp_files := tmp_files w;
     tmp_dirs := tmp_dirs w; site_packages := site_packages w;
     saved_info := saved_info w |}.
Definition set_tmp_files (f : gset string -> gset string) (w : world) : world :=
  {| stdout := stdout w; commands := commands w; tmp_files := f (tmp_files w);
     tmp_dirs := tmp_dirs w; site_packages := site_packages w;
     saved_info := saved_info w |}.
Definition set_tmp_dirs (f : gmap string (list node) -> gmap string (list node))
    (w : world) : world :=
  {| stdout := stdout w; commands := commands w; tmp_files := tmp_files w;
     tmp_dirs := f (tmp_dirs w); site_packages := site_packages w;
     saved_info := saved_info w |}.
Definition set_site_packages (f : list string -> list string) (w : world) : world :=
  {| stdout := stdout w; commands := commands w; tmp_files := tmp_files w;
     tmp_dirs := tmp_dirs w; site_packages := f (site_packages w);
     saved_info := saved_info w |}.
Definition set_saved_info
    (f : list (list (string * string)) -> list (list (string * string)))
    (w : world) : world :=
  {| stdout := stdout w; commands := commands w; tmp_files := tmp_files w;
     tmp_dirs := tmp_dirs w; site_packages := site_packages w;
     saved_info := f (saved_info w) |}.

Definition print (line : string) : M world unit :=
  modify (set_stdout (fun out => (out ++ [line])%list)).

(** [subprocess.run(cmd, ...)]: the command is started, its outcome is the
    one the environment gives. *)
Definition subprocess_run (cmd : list string) (o : result completed)
    : M world completed :=
  modify (set_commands (fun cs => (cs ++ [cmd])%list)) ;; call o.

(** [os.path.exists] of a path below a temporary directory [root]. *)
Definition tmp_exists (w : world) (root : string) (rel : list string) : bool :=
  match tmp_dirs w !! root with
  | Some t =>
      match rel with
      | [] => true
      | _ => bool_decide (is_Some (lookup_path t rel))
      end
  | None => false
  end.

(** [os.path.isdir] of a path below a temporary directory [root]. *)
Definition tmp_isdir (w : world) (root : string) (rel : list string) : bool :=
  match tmp_dirs w !! root with
  | Some t =>
      match rel with
      | [] => true
      | _ => match lookup_path t rel with Some (Dir _ _) => true | _ => false end
      end
  | None => false
  end.

(** [os.listdir(root)] of a temporary directory *)
Definition tmp_listdir (w : world) (root : string) : result (list string) :=
  match tmp_dirs w !! root with
  | Some t => Ok (entry_name <$> t)
  | None => Raise (Exc FileNotFoundError root)
  end.

(** [shutil.rmtree(root, ignore_errors=True)] *)
Definition rmtree (root : string) : M world unit :=
  modify (set_tmp_dirs (delete root)).

(** *** The machine the installer runs on *)

Record machine := {
  sys_executable : string;
  home : string;                      (* os.path.expanduser('~') *)
  on_windows : bool;                  (* platform.system() == 'Windows' *)
  path_exists : string -> bool        (* os.path.exists, outside the temporary directories *)
}.

(** [os.path.join(a, b)] as the platform has it *)
Definition os_path_join (m : machine) (a b : string) : string :=
  if on_windows m then nt_path_join a b else path_join a b.

(** The text of a path below [root]. *)
Definition tmp_path (m : machine) (root : string) (rel : list string) : string :=
  foldl (os_path_join m) root rel.

(** [get_uv_command] *)
Definition get_uv_command (m : machine) : string :=
  let possible_paths :=
    [ os_path_join m (os_path_join m (os_path_join m (home m) ".local") "bin") "uv";
      os_path_join m (os_path_join m (os_path_join m (home m) ".cargo") "bin") "uv";
      "/usr/local/bin/uv";
      "/opt/homebrew/bin/uv" ] in
  match List.find (path_exists m) possible_paths with
  | Some path => path
  | None => "uv"
  end.

(** [str(e)] of the [CalledProcessError] that [check=True] raises *)
Definition run_checked (cmd : list string) (o : result completed)
    : M world completed :=
  modify (set_commands (fun cs => (cs ++ [cmd])%list)) ;; call (checked o).

(** *** Runtime provisioning *)

(** What [create_or_use_venv] meets: whether the directory is there, how
    [uv venv] ends, and whether the interpreter is there afterwards. *)
Record venv_env := {
  venv_exists : bool;
  uv_venv : result completed;
  venv_python_exists : bool
}.

(** [create_or_use_venv]; [venv_path] is the absolute path. *)
Definition create_or_use_venv (m : machine) (env : venv_env) (venv_path : string)
    : M world string :=
  let python_path :=
    if on_windows m
    then os_path_join m (os_path_join m venv_path "Scripts") "python.exe"
    else os_path_join m (os_path_join m venv_path "bin") "python" in
  let probe : M world string :=
    if negb (venv_python_exists env) then
      print "âš ï¸  Could not find Python in venv, using current environment" ;;
      mret (sys_executable m)
    else mret python_path in
  if venv_exists env then probe
  else
    created ← try_except
      (run_checked ["uv"; "venv"; venv_path; "--python"; sys_executable m]
                   (uv_venv env) ;;
       print "âœ… Virtual environment created successfully" ;;
       mret true)
      (fun r => match r with
                | Exc (CalledProcessError _) e =>
                    Some (print ("âŒ Failed to create venv: " ++ e) ;; mret false)
                | _ => None
                end);
    if created : bool then probe else mret (sys_executable m).

(** *** Bootstrap of the package manager *)

Record uv_env := {
  uv_version : result completed;      (* uv --version *)
  pip_install_uv : result completed   (* python -m pip install uv *)
}.

(** [ensure_uv_installed(python_executable)] *)
Definition ensure_uv_installed (env : uv_env) (python_exe : string) : M world bool :=
  print (nl ++ "ğŸ”§ Checking uv package manager...") ;;
  try_except
    (run_checked ["uv"; "--version"] (uv_version env) ;;
     print "âœ… uv is ready" ;;
     mret true)
    (fun r => match r with
              | Exc (CalledProcessError _) _ | Exc FileNotFoundError _ =>
                  Some (print "ğŸ“¦ Installing uv..." ;;
                        try_except
                          (run_checked [python_exe; "-m"; "pip"; "install"; "uv"]
                                       (pip_install_uv env) ;;
                           print "âœ… uv installed successfully" ;;
                           mret true)
                          (fun r' => match r' with
                                     | Exc _ e =>
                                         Some (print ("âŒ Failed to install uv: " ++ e) ;;
                                               mret false)
                                     | _ => None
                                     end))
              | _ => None
              end).


(** An entry of the list returned by [list_available_packages]. *)
Record package := {
  name : string;
  displayName : string;
  description : string;
  version : string;
  available : bool
}.

Definition package_order : list string :=
  [ "vnstock"; "vnstock_data"; "vnstock_ta"; "vnstock_pipeline"; "vnstock_news" ].

(** [get_package_priority], local to [main]: the position in
    [package_order], and its length when [index] raises [ValueError]. *)
Definition get_package_priority (pkg : package) : nat :=
  match Py.index (name pkg) package_order with
  | Some i => i
  | None => length package_order
  end.

(** [selected_packages = sorted(available_packages, key=get_package_priority)] *)
Definition selected_packages (available_packages : list package) : list package :=
  Py.sorted get_package_priority available_packages.

(** A name is known when it occurs in [package_order]. *)
Definition known (pkg : package) : bool :=
  bool_decide (name pkg ∈ package_order).

Definition unknown (pkg : package) : bool := negb (known pkg).

(** *** The entitlement client *)

(** [_save_installation_info(additional_data)]: it catches every
    [Exception] itself, so no failure to write leaves it. The state records
    the call with its [additional_data], oldest first; what the two files
    hold afterwards (they are written anew on each call) is not modelled. *)
Definition _save_installation_info (additional_data : list (string * string))
    : M world unit :=
  modify (set_saved_info (fun infos => (infos ++ [additional_data])%list)).

(** [register_device], on the outcome [post] of the registration request;
    [now] is [datetime.now().isoformat()]. *)
Definition register_device (now : string) (post : result response)
    : M world (bool * string) :=
  try_except
    (response ← call post;
     if (status_code response =? 200)%Z then
       data ← call (json response);
       print "âœ… Device registered successfully!" ;;
       let tier := dict_get data "tier" "unknown" in
       print ("   Tier: " ++ tier) ;;
       let devices_used := dict_get data "devicesUsed" "0" in
       let device_limit := dict_get data "deviceLimit" "unlimited" in
       let devices_info := devices_used ++ "/" ++ device_limit in
       print ("   Devices used: " ++ devices_info) ;;
       _save_installation_info
         [("registration_time", now); ("tier", tier); ("device_limit", device_limit)] ;;
       mret (true, "Device registered successfully")
     else if (status_code response =? 429)%Z then
       data ← call (json response);
       let error_detail := dict_get data "message" "Unknown error" in
       let error_msg := "Device limit exceeded: " ++ error_detail in
       mret (false, error_msg)
     else
       error_data ← call (json response);
       let error_msg :=
         dict_get error_data "error" ("HTTP " ++ pretty (status_code response)) in
       mret (false, error_msg))
    (fun r => match r with
              | Exc RequestException e => Some (mret (false, "Network error: " ++ e))
              | Exc _ e => Some (mret (false, "Registration error: " ++ e))
              | _ => None
              end).

(** *** Download and installation of one package *)

Record download_env := {
  post_download : result response;      (* POST .../packages/download *)
  get_archive : string -> result response;  (* GET of the download URL *)
  named_temporary_file : result string; (* NamedTemporaryFile(delete=False): its name *)
  write_archive : result unit;          (* temp_file.write(download_response.content) *)
  mkdtemp : result string;              (* tempfile.mkdtemp(prefix=...) *)
  extractall : result (list node);      (* tarfile.open(...).extractall(...):
                                           the content of the archive *)
  extracted_before_failure : list node; (* what is extracted when extractall raises *)
  pip_install : result completed;       (* uv pip install ... setup_dir *)
  import_check : result completed;      (* python -c 'import ...' *)
  unlink : result unit                  (* os.unlink of the temporary file *)
}.

Definition double_quote : string := String (ascii_of_nat 34) EmptyString.

(** [_verify_package_import] *)
Definition _verify_package_import (env : download_env)
    (python_executable package_name : string) : M world bool :=
  try_except
    (result ← subprocess_run
       [python_executable; "-c";
        "import " ++ package_name ++ "; print(" ++ double_quote ++ "OK"
          ++ double_quote ++ ")"]
       (import_check env);
     if (returncode result =? 0)%Z && PyStr.contains "OK" (proc_stdout result)
     then mret true
     else mret true)
    (fun r => match r with
              | Exc TimeoutExpired _ => Some (mret true)
              | Exc _ _ => Some (mret true)
              | _ => None
              end).

Definition error_indicators : list string :=
  [ "ModuleNotFoundError"; "ImportError"; "ERROR"; "FAILED"; "Could not install" ].

(** The scan of the installer's standard error in [download_package]. *)
Definition has_error (stderr : string) : bool :=
  let stderr_output := PyStr.lower stderr in
  existsb (fun indicator => PyStr.contains (PyStr.lower indicator) stderr_output)
          error_indicators.

(** The search for the directory of [setup.py] or [pyproject.toml] in
    [download_package]: the path found, by its components below the
    extraction directory. *)
Definition locate_setup_dir (w : world) (temp_extract_dir : string)
    (extracted_files : list string) : option (list string) :=
  if tmp_exists w temp_extract_dir ["setup.py"]
     || tmp_exists w temp_extract_dir ["pyproject.toml"]
  then Some []
  else
    (fun item => [item]) <$>
    List.find
      (fun item =>
         tmp_isdir w temp_extract_dir [item]
         && (tmp_exists w temp_extract_dir [item; "setup.py"]
             || tmp_exists w temp_extract_dir [item; "pyproject.toml"]))
      extracted_files.

(** [tar.extractall(path)] in [with tarfile.open(...) as tar]: the members
    are written one after the other, and those written before it raises
    stay. *)
Definition tar_extractall (env : download_env) (path : string) : M world unit :=
  match extractall env with
  | Ok tree => modify (set_tmp_dirs (insert path tree))
  | Raise r =>
      modify (set_tmp_dirs (insert path (extracted_before_failure env))) ;;
      raise r
  end.

(** The [try] block of [download_package(package_name)]. The branch taken
    when [_verify_package_import] returns [False] is the parameter
    [cannot_import]. *)
Definition download_flow (cannot_import : M world (bool * string))
    (m : machine) (env : download_env) (python_executable package_name : string)
    : M world (bool * string) :=
  response ← call (post_download env);
  if negb (status_code response =? 200)%Z then
    error_data ← call (json response);
    let error_msg :=
      dict_get error_data "error" ("HTTP " ++ pretty (status_code response)) in
    mret (false, error_msg)
  else
    download_info ← call (json response);
    download_url ← call (dict_item download_info "downloadUrl");
    print ("ğŸ“¦ Downloading " ++ package_name ++ "...") ;;
    download_response ← call (get_archive env download_url);
    if negb (status_code download_response =? 200)%Z then
      mret (false, "Download failed: HTTP " ++ pretty (status_code download_response))
    else
      temp_tar_path ← call (named_temporary_file env);
      modify (set_tmp_files (fun fs => fs ∪ {[temp_tar_path]})) ;;
      call (write_archive env) ;;
      try_finally
        (temp_extract_dir ← call (mkdtemp env);
         modify (set_tmp_dirs (insert temp_extract_dir [])) ;;
         print ("ğŸ“ Extracting " ++ package_name ++ "...") ;;
         tar_extractall env temp_extract_dir ;;
         extracted_files ← (fun w => (tmp_listdir w temp_extract_dir, w));
         if bool_decide (extracted_files = []) then
           rmtree temp_extract_dir ;;
           mret (false, "No files extracted")
         else
           setup_dir ← gets (fun w => locate_setup_dir w temp_extract_dir extracted_files);
           match setup_dir with
           | Some rel =>
               let uv_cmd := get_uv_command m in
               let pip_cmd :=
                 [uv_cmd; "pip"; "install"; "--python"; python_executable;
                  "-q"; tmp_path m temp_extract_dir rel] in
               result ← subprocess_run pip_cmd (pip_install env);
               (if (returncode result =? 0)%Z
                then modify (set_site_packages (fun ps => (ps ++ [package_name])%list))
                else mret tt) ;;
               rmtree temp_extract_dir ;;
               if (returncode result =? 0)%Z && negb (has_error (proc_stderr result))
               then
                 can_import ← _verify_package_import env python_executable package_name;
                 if can_import : bool
                 then mret (true, package_name ++ " installed successfully")
                 else cannot_import
               else
                 rmtree temp_extract_dir ;;
                 mret (false, "Installation failed - pip error (check logs)")
           | None =>
               rmtree temp_extract_dir ;;
               mret (false, "Package structure invalid")
           end)
        (in_place ← gets (fun w => bool_decide (temp_tar_path ∈ tmp_files w));
         if in_place : bool then
           call (unlink env) ;;
           modify (set_tmp_files (fun fs => fs ∖ {[temp_tar_path]}))
         else mret tt).

(** [download_package(package_name)]: the block and its three handlers.
    [str(e)[:50]] is taken on the bytes of the text, which is what Python
    takes when the text is ASCII. *)
Definition download_package_with (cannot_import : M world (bool * string))
    (m : machine) (env : download_env) (python_executable package_name : string)
    : M world (bool * string) :=
  try_except
    (download_flow cannot_import m env python_executable package_name)
    (fun r => match r with
              | Exc TimeoutExpired _ => Some (mret (true, package_name ++ " prepared"))
              | Exc TarError e => Some (mret (false, "Extraction error: " ++ e))
              | Exc _ e =>
                  Some (mret (true, package_name ++ " prepared (error: "
                                      ++ String.substring 0 50 e ++ ")"))
              | _ => None
              end).

(** [download_package] as the source has it. *)
Definition download_package : machine -> download_env -> string -> string
    -> M world (bool * string) :=
  download_package_with
    (mret (false, "Installation failed - package cannot be imported")).

(** *** Listing the packages of the subscription *)

(** An entry of [data.accessible] in the answer of the service. *)
Record accessible := {
  acc_name : string;
  acc_displayName : option string;
  acc_description : option string;
  acc_version : option string
}.

(** The JSON body of the answer to [GET .../packages/list]. *)
Record packages_body := {
  body_success : bool;                 (* data.get('success') *)
  body_accessible : list accessible;   (* data.get('data', {}).get('accessible', []) *)
  body_packages : list package;        (* data.get('packages', []) *)
  body_error : option string           (* data.get('error') *)
}.

Record packages_response := {
  list_status : Z;
  list_json : result packages_body
}.

(** [list_available_packages]: the flag, and the packages or the error. *)
Definition list_available_packages (get : result packages_response)
    : M world (bool * (list package + string)) :=
  try_except
    (response ← call get;
     if (list_status response =? 200)%Z then
       data ← call (list_json response);
       if body_success data then
         mret (true, inl ((fun pkg =>
           {| name := acc_name pkg;
              displayName := default (acc_name pkg) (acc_displayName pkg);
              description := default "" (acc_description pkg);
              version := default "1.0.0" (acc_version pkg);
              available := true |}) <$> body_accessible data))
       else mret (true, inl (body_packages data))
     else
       error_data ← call (list_json response);
       mret (false, inr (default ("HTTP " ++ pretty (list_status response))
                                 (body_error error_data))))
    (fun r => match r with
              | Exc _ e => Some (mret (false, inr ("Error fetching packages: " ++ e)))
              | _ => None
              end).

(** *** The packages that identify the device *)

Definition REQUIREMENTS_URL : string := "https://vnstocks.com/files/requirements.txt".
Definition VNSTOCKS_INDEX_URL : string := "https://vnstocks.com/api/simple".

(** What [ensure_critical_packages] meets. *)
Record critical_env := {
  import_vnai_vnii : result unit;       (* import vnai; import vnii, at first *)
  critical_uv : uv_env;
  critical_install : result completed;  (* uv pip install ... vnai vnii *)
  import_after_install : result unit;   (* the two imports after the installation *)
  import_second_attempt : result unit   (* and once more *)
}.

(** [ensure_critical_packages] *)
Definition ensure_critical_packages (m : machine) (env : critical_env)
    : M world bool :=
  print (nl ++ "ğŸ”§ Checking device identification packages...") ;;
  (* [true]: the [return True] of the first [try] *)
  ready ← try_except
    (call (import_vnai_vnii env) ;;
     print "âœ… Device packages ready" ;;
     mret true)
    (fun r => match r with
              | Exc ImportError _ => Some (mret false)
              | _ => None
              end);
  if ready : bool then mret true
  else
    ensure_uv_installed (critical_uv env) (sys_executable m) ;;
    try_except
      (let uv_cmd := get_uv_command m in
       result ← subprocess_run
         [uv_cmd; "pip"; "install"; "--python"; sys_executable m;
          "--extra-index-url"; VNSTOCKS_INDEX_URL; "-c"; REQUIREMENTS_URL;
          "vnai"; "vnii"]
         (critical_install env);
       if negb (returncode result =? 0)%Z then
         let err_msg :=
           if String.eqb (proc_stderr result) "" then "Unknown error"
           else String.substring 0 100 (proc_stderr result) in
         print ("âš ï¸  Warning: " ++ err_msg) ;;
         mret false
       else
         try_except
           (call (import_after_install env) ;;
            print "âœ… Device packages ready" ;;
            mret true)
           (fun r => match r with
                     | Exc ImportError _ =>
                         Some (try_except
                                 (call (import_second_attempt env) ;;
                                  print "âœ… Device packages ready" ;;
                                  mret true)
                                 (fun r' => match r' with
                                            | Exc ImportError _ => Some (mret false)
                                            | _ => None
                                            end))
                     | _ => None
                     end))
      (fun r => match r with
                | Exc _ _ => Some (mret false)
                | _ => None
                end).

(** *** The main function *)

(** The texts of the [ui] dictionary that [main] prints. *)
Record ui_text := {
  api_key_required : string;
  ui_device_id : string;
  ui_system : string;
  registering : string;
  reg_failed : string;
  fetching_packages : string;
  fetch_failed : string;
  no_packages : string;
  purchase_prompt : string;
  packages_found : string;
  packages_unit : string;
  auto_install : string;
  installing : string;
  goi : string
}.

(** The English dictionary of [main]. *)
Definition ui_en : ui_text :=
  {| api_key_required := "âŒ API key is required!";
     ui_device_id := "ğŸ” Device ID";
     ui_system := "ğŸ’» System";
     registering := "ğŸ“‹ Registering device";
     reg_failed := "âŒ Registration failed";
     fetching_packages := (nl ++ "ğŸ“¦ Fetching available packages");
     fetch_failed := "âŒ Failed to fetch packages";
     no_packages := "âŒ No packages available for your subscription";
     purchase_prompt :=
       "ğŸ’¡ Please purchase a membership plan at https://vnstocks.com/store";
     packages_found := "âœ… Found";
     packages_unit := "available packages";
     auto_install := "ğŸ“¦ Auto-installing all";
     installing := (nl ++ "ğŸ”§ Installing");
     goi := "packages" |}.

(** Everything that [main] reads from its surroundings. *)
Record main_env := {
  host : machine;
  python_version : string;            (* major.minor of sys.version_info *)
  platform_system : string;
  platform_release : string;
  log_file_path : string;             (* LOG_FILE_PATH *)
  now : string;                       (* datetime.now().isoformat() *)
  ui : ui_text;                       (* chosen by VNSTOCK_LANGUAGE *)
  gui_mode : bool;                    (* VNSTOCK_GUI_MODE == '1' *)
  venv_type : string;                 (* VNSTOCK_VENV_TYPE, 'default' when unset *)
  venv_path : option string;          (* VNSTOCK_VENV_PATH *)
  venv : venv_env;
  api_key_variable : string;          (* VNSTOCK_API_KEY, empty when unset *)
  api_key_input : result string;      (* input(...).strip() *)
  critical : critical_env;            (* what ensure_critical_packages() meets *)
  license_manager : result string;    (* VnstockLicenseManager(...): its device_id *)
  skip_register : bool;               (* VNSTOCK_SKIP_REGISTER == '1' *)
  registration : result response;     (* the first POST .../auth/device-register *)
  import_vnstock : result unit;       (* __import__('vnstock') *)
  uv : uv_env;
  core_install : result completed;    (* uv pip install ... vnstock *)
  reregistration : result response;   (* the second POST .../auth/device-register *)
  packages_list : result packages_response;
  download : string -> download_env;  (* per package name *)
  summary : list (string * bool * string) -> list string
                                      (* the lines of print_installation_summary *)
}.

Definition sys_exit {A} (code : Z) : M world A := raise (SystemExit code).

Definition SUPPORTED_PYTHON_VERSIONS : list string :=
  [ "3.10"; "3.11"; "3.12"; "3.13"; "3.14" ].

(** [check_python_version] *)
Definition check_python_version (version : string) : M world bool :=
  if negb (bool_decide (version ∈ SUPPORTED_PYTHON_VERSIONS)) then
    print ("âŒ Python " ++ version ++ " is not supported!") ;;
    print ("   Supported versions: " ++ PyStr.join ", " SUPPORTED_PYTHON_VERSIONS) ;;
    mret false
  else
    print ("âœ… Python " ++ version ++ " is supported") ;;
    mret true.

(** [setup_virtual_environment]; the paths are absolute. *)
Definition setup_virtual_environment (env : main_env) : M world string :=
  if String.eqb (venv_type env) "system" then mret (sys_executable (host env))
  else
    match venv_path env with
    | Some path =>
        if String.eqb (venv_type env) "custom" && negb (String.eqb path "")
        then create_or_use_venv (host env) (venv env) path
        else create_or_use_venv (host env) (venv env)
               (os_path_join (host env) (home (host env)) ".venv")
    | None =>
        create_or_use_venv (host env) (venv env)
          (os_path_join (host env) (home (host env)) ".venv")
    end.

(** The loop of [main] over [selected_packages]; the pause between two
    packages has no effect on the state. *)
Fixpoint install_packages (env : main_env) (python_executable : string)
    (selected : list package) : M world (list (string * bool * string)) :=
  match selected with
  | [] => mret []
  | pkg :: rest =>
      let package_name := name pkg in
      print ((nl ++ "ğŸ“¦ ") ++ package_name ++ "...") ;;
      '(success, message) ←
        download_package (host env) (download env package_name)
                         python_executable package_name;
      (if success : bool
       then print ("âœ… " ++ package_name ++ " ready")
       else print ("âŒ " ++ package_name ++ " failed: " ++ message)) ;;
      results ← install_packages env python_executable rest;
      mret ((package_name, success, message) :: results)
  end.

(** [main] once the registration of the device is over: the check of the
    vnstock core, the list of the packages, and their installation. *)
Definition main_after_registration (env : main_env) (python_executable : string)
    : M world unit :=
  print (nl ++ "ğŸ“¦ Verifying vnstock core installation...") ;;
  vnstock_newly_installed ←
    try_except
      (call (import_vnstock env) ;;
       print "âœ… vnstock core is available" ;;
       mret false)
      (fun r => match r with
                | Exc ImportError _ =>
                    Some (print "ğŸ“¦ Installing vnstock core..." ;;
                          ensure_uv_installed (uv env) python_executable ;;
                          result ← subprocess_run
                            ["uv"; "pip"; "install"; "--python"; python_executable;
                             "--extra-index-url"; "https://vnstocks.com/api/simple";
                             "-c"; "https://vnstocks.com/files/requirements.txt";
                             "vnstock"]
                            (core_install env);
                          if negb (returncode result =? 0)%Z then
                            print ("âš ï¸  " ++ "Failed to install vnstock core - "
                                     ++ "sponsor packages require it") ;;
                            mret false
                          else
                            modify (set_site_packages (fun ps => (ps ++ ["vnstock"])%list)) ;;
                            print "âœ… vnstock core installed" ;;
                            mret true)
                | _ => None
                end);
  (if vnstock_newly_installed : bool then
     print (nl ++ "ğŸ“‹ Re-registering device after vnstock installation...") ;;
     '(success, message) ← register_device (now env) (reregistration env);
     if negb success
     then print (reg_failed (ui env) ++ ": " ++ message)
     else print "âœ… Device re-registered successfully"
   else mret tt) ;;
  print (fetching_packages (ui env) ++ "...") ;;
  '(success, packages_data) ← list_available_packages (packages_list env);
  match packages_data with
  | inr error =>
      (* [success] is false exactly here *)
      print (fetch_failed (ui env) ++ ": " ++ error) ;;
      sys_exit 1
  | inl packages =>
      let available_packages := List.filter available packages in
      if bool_decide (available_packages = []) then
        print (no_packages (ui env) ++ ".") ;;
        print (purchase_prompt (ui env)) ;;
        sys_exit 1
      else
        print (nl ++ packages_found (ui env) ++ " " ++ pretty (length available_packages)
               ++ " " ++ packages_unit (ui env)) ;;
        let selected := selected_packages available_packages in
        print (auto_install (ui env) ++ " " ++ pretty (length selected) ++ " "
               ++ goi (ui env) ++ "...") ;;
        print ("Installation order: "
               ++ PyStr.join " â†’ " (name <$> selected)) ;;
        (* get_package_dependencies returns [] for every package, so
           all_dependencies stays empty and nothing is installed here *)
        print (nl ++ "ğŸ“¦ Preparing dependencies...") ;;
        print (installing (ui env) ++ " " ++ pretty (length selected) ++ " "
               ++ goi (ui env) ++ "...") ;;
        installation_results ← install_packages env python_executable selected;
        for_each (summary env installation_results) print ;;
        _save_installation_info
          ((fun r => (fst (fst r), snd r)) <$> installation_results)
  end.

(** [main] from the registration of the device on. *)
Definition main_from_registration (env : main_env) (python_executable : string)
    : M world unit :=
  (if negb (skip_register env) then
     print (registering (ui env) ++ "...") ;;
     '(success, message) ← register_device (now env) (registration env);
     if negb success then
       print (reg_failed (ui env) ++ ": " ++ message) ;;
       print (nl ++ "âš ï¸  Note: Device registration failed, but installation will continue.") ;;
       print "   User profile may be saved locally for next time." ;;
       _save_installation_info
         [("registration_status", "failed"); ("registration_error", message);
          ("registration_time", now env)]
     else mret tt
   else mret tt) ;;
  main_after_registration env python_executable.

(** [main] *)
Definition main (env : main_env) : M world unit :=
  supported ← check_python_version (python_version env);
  if negb supported then sys_exit 1
  else
    python_executable ←
      (if gui_mode env then mret (sys_executable (host env))
       else setup_virtual_environment env);
    api_key ←
      (if String.eqb (api_key_variable env) "" then
         if gui_mode env then
           print "âŒ API key not provided in GUI mode" ;;
           sys_exit 1
         else
           try_except (call (api_key_input env))
             (fun r => match r with
                       | Exc EOFError _ =>
                           Some (print (api_key_required (ui env)) ;; sys_exit 1)
                       | _ => None
                       end)
       else mret (api_key_variable env));
    if String.eqb api_key "" then
      print (api_key_required (ui env)) ;;
      sys_exit 1
    else
      ready ← ensure_critical_packages (host env) (critical env);
      if negb ready then
        print (nl ++ "âŒ ERROR: Could not install device identification packages") ;;
        print "   vnai and vnii are required to proceed" ;;
        print "   Please check your internet connection and try again" ;;
        print ((nl ++ "   Log file: ") ++ log_file_path env) ;;
        sys_exit 1
      else
        device_id ← call (license_manager env);
        print (ui_device_id (ui env) ++ ": " ++ device_id) ;;
        print (ui_system (ui env) ++ ": " ++ platform_system env ++ " "
               ++ platform_release env) ;;
        print "" ;;
        main_from_registration env python_executable.

(** The script: [if __name__ == "__main__"] *)
Definition script (env : main_env) : M world unit :=
  try_except (main env)
    (fun r => match r with
              | KeyboardInterrupt =>
                  Some (print (nl ++ nl ++ "âš ï¸  Installation cancelled by user.") ;;
                        sys_exit 130)
              | Exc _ e =>
                  Some (print ((nl ++ "ğŸ’¥ Unexpected error: ") ++ e) ;;
                        print ("ğŸ“ Check logs for details: " ++ log_file_path env) ;;
                        sys_exit 1)
              | SystemExit _ => None
              end).

(** [verify_license(package_name)], on the outcome [post] of the request *)
Definition verify_license (post : result response) (package_name : string)
    : M world (bool * string) :=
  try_except
    (response ← call post;
     if (status_code response =? 200)%Z then
       data ← call (json response);
       let cache_until := dict_get data "cacheUntil" "unknown" in
       mret (true, "License valid until " ++ cache_until)
     else
       error_data ← call (json response);
       let error_msg :=
         dict_get error_data "error" ("HTTP " ++ pretty (status_code response)) in
       mret (false, error_msg))
    (fun r => match r with
              | Exc _ e => Some (mret (false, "License verification error: " ++ e))
              | _ => None
              end).

(** [get_venv_python(venv_path)] *)
Definition get_venv_python (m : machine) (venv_path : string) : string :=
  let python_path :=
    if on_windows m
    then os_path_join m (os_path_join m venv_path "Scripts") "python.exe"
    else os_path_join m (os_path_join m venv_path "bin") "python" in
  if path_exists m python_path then python_path else sys_executable m.

(** *** The summary of the installation *)

(** The texts of [print_installation_summary], in one language. *)
Record summary_text := {
  title : string;
  successful_label : string;
  failed_label : string;
  python_env_label : string;
  version_label : string;
  executable_label : string;
  venv_label : string;
  venv_not_using : string;
  time_label : string;
  seconds : string;
  logs_label : string;
  troubleshooting : string;
  quick_start : string;
  ready_msg : string;
  failures : string;
  check_logs : string;
  troubleshooting_title : string;
  pip_issue : string;
  fix_pip : string;
  fix_pip_cmd : string
}.

(** The Vietnamese texts. *)
Definition summary_vi : summary_text :=
  {| title := "ğŸ‰ TÃ“M Táº®T CÃ€I Äáº¶T";
     successful_label := "âœ… ThÃ nh cÃ´ng";
     failed_label := "âŒ Tháº¥t báº¡i";
     python_env_label := "ğŸ“¦ MÃ´i trÆ°á»ng Python";
     version_label := "Version";
     executable_label := "Thá»±c thi";
     venv_label := "MÃ´i trÆ°á»ng áº£o";
     venv_not_using := "KhÃ´ng sá»­ dá»¥ng mÃ´i trÆ°á»ng áº£o";
     time_label := "â±ï¸  Thá»i gian cÃ i Ä‘áº·t";
     seconds := "giÃ¢y";
     logs_label := "ğŸ“ Chi tiáº¿t logs";
     troubleshooting := ("(DÃ¹ng Ä‘á»ƒ kháº¯c phá»¥c sá»± cá»‘)" ++ nl);
     quick_start := "ğŸ“š Báº¯t Ä‘áº§u nhanh";
     ready_msg := "# CÃ¡c gÃ³i Ä‘Æ°á»£c tÃ i trá»£ cá»§a báº¡n Ä‘Ã£ sáºµn sÃ ng!";
     failures := "âš ï¸  Má»™t sá»‘ gÃ³i khÃ´ng cÃ i Ä‘áº·t Ä‘Æ°á»£c.";
     check_logs := ("Kiá»ƒm tra chi tiáº¿t logs Ä‘á»ƒ biáº¿t thÃªm thÃ´ng tin." ++ nl);
     troubleshooting_title := (nl ++ "âš ï¸  KHáº®C PHá»¤C Sá»° Cá»:");
     pip_issue := "Má»™t sá»‘ gÃ³i khÃ´ng cÃ i Ä‘áº·t Ä‘Æ°á»£c do sá»± cá»‘ pip.";
     fix_pip := "Thá»­ sá»­a pip trong mÃ´i trÆ°á»ng áº£o cá»§a báº¡n:";
     fix_pip_cmd := "rá»“i cháº¡y installer láº¡i." |}.

(** The English texts. *)
Definition summary_en : summary_text :=
  {| title := "ğŸ‰ INSTALLATION SUMMARY";
     successful_label := "âœ… Successful";
     failed_label := "âŒ Failed";
     python_env_label := "ğŸ“¦ Python Environment";
     version_label := "Version";
     executable_label := "Executable";
     venv_label := "Virtual env";
     venv_not_using := "Not using virtual environment";
     time_label := "â±ï¸  Installation time";
     seconds := "seconds";
     logs_label := "ğŸ“ Detailed logs";
     troubleshooting := ("(Use this for troubleshooting)" ++ nl);
     quick_start := "ğŸ“š Quick Start";
     ready_msg := "# Your sponsored packages are ready!";
     failures := "âš ï¸  Some packages failed to install.";
     check_logs := ("Check the detailed logs for more information." ++ nl);
     troubleshooting_title := (nl ++ "âš ï¸  TROUBLESHOOTING:");
     pip_issue := "Some packages failed due to pip issues.";
     fix_pip := "Try fixing pip in your virtual environment:";
     fix_pip_cmd := "Then run the installer again." |}.

(** What [print_installation_summary] reads from its surroundings. *)
Record summary_env := {
  duration : string;                  (* f"{duration:.1f}" *)
  info_version : string;              (* get_python_info()['version'] *)
  info_is_virtual_env : bool;         (* get_python_info()['is_virtual_env'] *)
  info_virtual_env_path : string;     (* the text of get_python_info()['virtual_env_path'] *)
  summary_log_file_path : string      (* LOG_FILE_PATH *)
}.

(** ["=" * 60] *)
Definition rule : string := Nat.iter 60 (String "="%char) EmptyString.

(** ['pip error' in p[2].lower() or 'cannot be imported' in p[2]] *)
Definition pip_error (p : string * bool * string) : bool :=
  PyStr.contains "pip error" (PyStr.lower (snd p))
  || PyStr.contains "cannot be imported" (snd p).

(** [print_installation_summary(installed_packages, python_executable,
    start_time, use_vietnamese)] *)
Definition print_installation_summary (env : summary_env)
    (installed_packages : list (string * bool * string))
    (python_executable : string) (use_vietnamese : bool) : M world unit :=
  let t := if use_vietnamese then summary_vi else summary_en in
  print (nl ++ rule) ;;
  print (title t) ;;
  print rule ;;
  let successful := List.filter (fun p => snd (fst p)) installed_packages in
  let failed := List.filter (fun p => negb (snd (fst p))) installed_packages in
  print (nl ++ successful_label t ++ ": " ++ pretty (length successful)) ;;
  for_each successful (fun p => print ("   â€¢ " ++ fst (fst p))) ;;
  (if negb (bool_decide (failed = [])) then
     print (nl ++ failed_label t ++ ": " ++ pretty (length failed)) ;;
     for_each failed
       (fun p => print ("   â€¢ " ++ fst (fst p) ++ ": " ++ snd p)) ;;
     let pip_errors := List.filter pip_error failed in
     if negb (bool_decide (pip_errors = [])) then
       print (troubleshooting_title t) ;;
       print ("   " ++ pip_issue t) ;;
       print ("   " ++ fix_pip t) ;;
       print ("   " ++ python_executable ++ " -m pip install --upgrade pip") ;;
       print ("   " ++ fix_pip_cmd t)
     else mret tt
   else mret tt) ;;
  print (nl ++ python_env_label t ++ ":") ;;
  print ("   " ++ version_label t ++ ": " ++ info_version env) ;;
  print ("   " ++ executable_label t ++ ": " ++ python_executable) ;;
  (if info_is_virtual_env env
   then print ("   " ++ venv_label t ++ ": " ++ info_virtual_env_path env)
   else print ("   " ++ venv_label t ++ ": " ++ venv_not_using t)) ;;
  print (nl ++ time_label t ++ ": " ++ duration env ++ " " ++ seconds t) ;;
  print (nl ++ logs_label t ++ ": " ++ summary_log_file_path env) ;;
  print ("   " ++ troubleshooting t) ;;
  (if negb (bool_decide (successful = [])) && bool_decide (failed = []) then
     print (quick_start t ++ ":") ;;
     print "   import vnstock_data" ;;
     print "   import vnstock_ta" ;;
     print ("   " ++ ready_msg t ++ nl)
   else if negb (bool_decide (failed = [])) then
     print (failures t) ;;
     print ("   " ++ check_logs t)
   else mret tt).

(** *** Sanitizing what is logged *)

(** Python values as the logged dictionaries hold them. Dictionaries and
    lists are objects of the heap and are held by reference, so that a
    copy of a dictionary shares the objects its values refer to. *)
Inductive value :=
| VNone
| VBool (b : bool)
| VInt (n : Z)
| VStr (s : string)
| VRef (address : nat).

(** A dictionary keeps its items in insertion order, under string keys. *)
Inductive object :=
| ODict (items : list (string * value))
| OList (elements : list value).

(** The heap: an address is a position; allocation appends. *)
Definition heap : Type := list object.

Definition sensitive_keys : list string :=
  [ "api_key"; "token"; "password"; "secret";
    "authorization"; "access_token"; "refresh_token" ].

(** [any(sensitive in key.lower() for sensitive in sensitive_keys)];
    [str_lower] stands for [str.lower]. *)
Definition sensitive (str_lower : string -> string) (key : string) : bool :=
  PyStr.any_contained sensitive_keys (str_lower key).

Definition REDACTED : string := "***REDACTED***".

(** [items[key] = v] on the items of a dictionary: the value of a key that
    is there is replaced where it stands, a new key goes to the end. *)
Fixpoint dict_set (key : string) (v : value) (items : list (string * value))
    : list (string * value) :=
  match items with
  | [] => [(key, v)]
  | (k, x) :: rest =>
      if String.eqb k key then (k, v) :: rest
      else (k, x) :: dict_set key v rest
  end.

Fixpoint dict_lookup (key : string) (items : list (string * value)) : option value :=
  match items with
  | [] => None
  | (k, x) :: rest => if String.eqb k key then Some x else dict_lookup key rest
  end.

(** [d[key]] for the dictionary at address [d] *)
Definition getitem (h : heap) (d : nat) (key : string) : option value :=
  match h !! d with
  | Some (ODict items) => dict_lookup key items
  | _ => None
  end.

(** [d[key] = v] for the dictionary at address [d]: the object is changed
    in place. *)
Definition setitem (h : heap) (d : nat) (key : string) (v : value) : heap :=
  match h !! d with
  | Some (ODict items) => <[d := ODict (dict_set key v items)]> h
  | _ => h
  end.

(** [for key in keys: body]; [None] when the body raises. *)
Fixpoint for_keys (body : string -> heap -> option heap) (keys : list string)
    (h : heap) : option heap :=
  match keys with
  | [] => Some h
  | key :: rest => h' ← body key h; for_keys body rest h'
  end.

(** The body of the loop of [sanitize_log_data]; [recurse] is the function
    itself. *)
Definition sanitize_key (str_lower : string -> string)
    (recurse : heap -> nat -> option (nat * heap))
    (sanitized : nat) (key : string) (h : heap) : option heap :=
  if sensitive str_lower key then Some (setitem h sanitized key (VStr REDACTED))
  else
    match getitem h sanitized key with
    | Some (VRef d) =>
        match h !! d with
        | Some (ODict _) =>
            '(d', h') ← recurse h d;
            Some (setitem h' sanitized key (VRef d'))
        | _ => Some h
        end
    | _ => Some h
    end.

(** [sanitize_log_data(data)] for the dictionary at address [data]: the
    address of the result and the heap afterwards. [str_lower] stands for
    [str.lower]; [fuel] bounds the depth
    of the recursion; [None] is an exception (the recursion limit, or
    [data] is no dictionary). *)
Fixpoint sanitize_log_data (str_lower : string -> string) (fuel : nat)
    (h : heap) (data : nat) : option (nat * heap) :=
  match fuel with
  | 0 => None
  | S fuel' =>
      match h !! data with
      | Some (ODict items) =>
          (* sanitized = data.copy() *)
          let sanitized := length h in
          let h := (h ++ [ODict items])%list in
          (* for key in list(sanitized.keys()) *)
          h ← for_keys (sanitize_key str_lower (sanitize_log_data str_lower fuel')
                                      sanitized)
                       (fst <$> items) h;
          Some (sanitized, h)
      | _ => None
      end
  end.

(** What a value stands for, with the objects it refers to written out. *)
Inductive tree :=
| TNone
| TBool (b : bool)
| TInt (n : Z)
| TStr (s : string)
| TDict (items : list (string * tree))
| TList (elements : list tree).

(** The tree of a value in a heap; [fuel] bounds the nesting. *)
Fixpoint denote (fuel : nat) (h : heap) (v : value) : option tree :=
  match v with
  | VNone => Some TNone
  | VBool b => Some (TBool b)
  | VInt n => Some (TInt n)
  | VStr s => Some (TStr s)
  | VRef a =>
      match fuel with
      | 0 => None
      | S fuel' =>
          match h !! a with
          | Some (ODict items) =>
              TDict <$> mapM (fun kv => pair (fst kv) <$> denote fuel' h (snd kv)) items
          | Some (OList elements) =>
              TList <$> mapM (denote fuel' h) elements
          | None => None
          end
      end
  end.

(** The sanitized dictionary as the documentation words it: the value of
    a sensitive key is redacted, a dictionary under another key is
    sanitized in turn, every other value, lists included, stays. *)
Fixpoint sanitized_tree (str_lower : string -> string) (t : tree) : tree :=
  match t with
  | TDict items =>
      TDict ((fun kv : string * tree =>
                let '(k, v) := kv in
                (k, if sensitive str_lower k then TStr REDACTED
                    else match v with
                         | TDict _ => sanitized_tree str_lower v
                         | _ => v
                         end)) <$> items)
  | _ => t
  end.

End Installer.

(* ===================================================================== *)
(** ** vnstock_cli.py *)
(* ===================================================================== *)

Module Cli.

Definition REQUIRED_DEPENDENCIES_FALLBACK : list string :=
  [ "typing_extensions>=4.6.0"; "vnstock>=3.4.0"; "vnai"; "vnii";
    "requests"; "pandas"; "numpy" ].

Definition COLAB_REQUIREMENTS_FALLBACK : list string :=
  [ "typing_extensions>=4.6.0"; "vnstock>=3.4.1"; "vnai"; "vnii" ].

(** [class Colors] *)
Module Colors.
Definition ESC : string := String (ascii_of_nat 27) EmptyString.
Definition WARNING : string := ESC ++ "[93m".
Definition FAIL : string := ESC ++ "[91m".
Definition ENDC : string := ESC ++ "[0m".
Definition BOLD : string := ESC ++ "[1m".
Definition OKGREEN : string := ESC ++ "[92m".
Definition YELLOW : string := ESC ++ "[33m".
Definition CYAN : string := ESC ++ "[36m".
Definition VNSTOCK_GREEN : string := ESC ++ "[38;5;71m".
Definition VNSTOCK_PURPLE : string := ESC ++ "[38;5;135m".
End Colors.

(** [class ASCIIArt], the marks that the messages use *)
Module ASCIIArt.
Definition DIVIDER_THIN : string :=
  Nat.iter 96 (fun s => "‚îÄ" ++ s) "".
Definition CHECKMARK : string := "‚úì".
Definition CROSSMARK : string := "‚úó".
Definition BULLET : string := "‚Ä¢".
End ASCIIArt.

(** What the CLI has written and started. *)
Record world := {
  stdout : list string;            (* the texts given to print, oldest first *)
  commands : list (list string);   (* the subprocesses run, oldest first *)
  log_file : list string           (* the lines appended to cli_installer.log *)
}.

Definition print (line : string) : M world unit :=
  modify (fun w => {| stdout := (stdout w ++ [line])%list;
                      commands := commands w; log_file := log_file w |}).

(** [self.log(message, level)], without the time stamp; the append to the
    log file is taken to succeed. *)
Definition log (message level : string) : M world unit :=
  modify (fun w => {| stdout := stdout w; commands := commands w;
                      log_file :=
                        (log_file w ++ [("[" ++ level ++ "] " ++ message)%string])%list |}).

Definition subprocess_run (cmd : list string) (o : result completed)
    : M world completed :=
  modify (fun w => {| stdout := stdout w;
                      commands := (commands w ++ [cmd])%list;
                      log_file := log_file w |}) ;;
  call o.

Definition run_checked (cmd : list string) (o : result completed)
    : M world completed :=
  modify (fun w => {| stdout := stdout w;
                      commands := (commands w ++ [cmd])%list;
                      log_file := log_file w |}) ;;
  call (checked o).

Definition print_success (message : string) : M world unit :=
  print (Colors.OKGREEN ++ ASCIIArt.CHECKMARK ++ " " ++ message ++ Colors.ENDC).
Definition print_error (message : string) : M world unit :=
  print (Colors.FAIL ++ ASCIIArt.CROSSMARK ++ " " ++ message ++ Colors.ENDC).
Definition print_warning (message : string) : M world unit :=
  print (Colors.WARNING ++ "‚ö† " ++ message ++ Colors.ENDC).
Definition print_info (message : string) : M world unit :=
  print (Colors.VNSTOCK_GREEN ++ ASCIIArt.BULLET ++ " " ++ message ++ Colors.ENDC).
Definition print_detail (message : string) : M world unit :=
  print (Colors.VNSTOCK_PURPLE ++ ASCIIArt.CHECKMARK ++ " " ++ message ++ Colors.ENDC).

(** *** Bootstrap of the package manager *)

Record uv_env := {
  uv_version : result completed;       (* uv --version *)
  curl_install_sh : result completed;  (* curl -LsSf https://astral.sh/uv/install.sh *)
  sh_install : result completed;       (* sh -c <the script> *)
  pip_install_break : result completed;(* pip install --break-system-packages uv *)
  pip_install_plain : result completed (* pip install uv *)
}.

(** [ensure_uv_installed(python_executable)] *)
Definition ensure_uv_installed (env : uv_env) (python_exe : string) : M world bool :=
  try_except
    (run_checked ["uv"; "--version"] (uv_version env) ;;
     mret true)
    (fun r => match r with
      | Exc (CalledProcessError _) _ | Exc FileNotFoundError _ => Some (
          print "üì¶ Installing uv..." ;;
          (* the standalone installer; [true] stands for its [return True] *)
          standalone ← try_except
            (result ← subprocess_run
               ["curl"; "-LsSf"; "https://astral.sh/uv/install.sh"]
               (curl_install_sh env);
             if (returncode result =? 0)%Z then
               install_result ← subprocess_run ["sh"; "-c"; proc_stdout result]
                                                (sh_install env);
               if (returncode install_result =? 0)%Z then
                 print "‚úì uv installed successfully (standalone)" ;;
                 mret true
               else mret false
             else mret false)
            (fun r' => match r' with
                       | Exc _ _ => Some (mret false)
                       | _ => None
                       end);
          if standalone : bool then mret true
          else
            try_except
              (run_checked
                 [python_exe; "-m"; "pip"; "install"; "--break-system-packages"; "uv"]
                 (pip_install_break env) ;;
               print "‚úì uv installed successfully (pip)" ;;
               mret true)
              (fun r' => match r' with
                | Exc (CalledProcessError _) _ => Some (
                    try_except
                      (run_checked [python_exe; "-m"; "pip"; "install"; "uv"]
                                   (pip_install_plain env) ;;
                       print "‚úì uv installed successfully (pip)" ;;
                       mret true)
                      (fun r'' => match r'' with
                        | Exc (CalledProcessError stderr) _ => Some (
                            print ("‚úó uv installation failed: "
                                   ++ (if String.eqb stderr "" then "unknown error"
                                       else String.substring 0 200 stderr)) ;;
                            mret false)
                        | _ => None
                        end))
                | Exc TimeoutExpired _ => Some (
                    print "‚úó uv installation timeout (60s)" ;;
                    mret false)
                | Exc _ e => Some (
                    print ("‚úó uv installation error: " ++ e) ;;
                    mret false)
                | _ => None
                end))
      | _ => None
      end).

(** *** The requirements *)

(** [fetch_requirements_from_url], on the outcome [get] of
    [requests.get(REQUIREMENTS_URL, timeout=10)] *)
Definition fetch_requirements_from_url (get : result response) (is_colab : bool)
    : M world (list string) :=
  fetched ← try_except
    (response ← call get;
     if (status_code response =? 200)%Z then
       let requirements :=
         List.filter
           (fun line => negb (String.eqb line "")
                        && negb (PyStr.startswith "#" line)
                        && negb (PyStr.startswith "--" line))
           (PyStr.strip <$> PyStr.split_lines (PyStr.strip (text response))) in
       let typing_ext_reqs :=
         List.filter
           (fun r => PyStr.contains "typing" (PyStr.lower r)
                     && PyStr.contains "extensions" (PyStr.lower r))
           requirements in
       let other_reqs :=
         List.filter (fun r => negb (bool_decide (r ∈ typing_ext_reqs))) requirements in
       let typing_ext_reqs :=
         if bool_decide (typing_ext_reqs = []) then ["typing_extensions>=4.6.0"]
         else typing_ext_reqs in
       let final_reqs := (typing_ext_reqs ++ other_reqs)%list in
       log ("Loaded " ++ pretty (length final_reqs) ++ " requirements from URL") "INFO" ;;
       mret (Some final_reqs)
     else mret None)
    (fun r => match r with
              | Exc _ e =>
                  Some (log ("Failed to fetch requirements from URL: " ++ e) "WARNING" ;;
                        mret None)
              | _ => None
              end);
  match fetched with
  | Some final_reqs => mret final_reqs
  | None =>
      log "Using fallback requirements list" "INFO" ;;
      mret (if is_colab then COLAB_REQUIREMENTS_FALLBACK
            else REQUIRED_DEPENDENCIES_FALLBACK)
  end.

(** The three groups that [install_dependencies] makes of the
    requirements it installs. *)
Definition critical_packages (filtered_list : list string) : list string :=
  List.filter
    (fun r => PyStr.any_contained
                ["vnai"; "vnii"; "typing-extensions"; "typing_extensions"]
                (PyStr.lower r))
    filtered_list.

Definition core_packages (filtered_list : list string) : list string :=
  List.filter
    (fun r => PyStr.contains "vnstock" (PyStr.lower r)
              && negb (bool_decide (r ∈ critical_packages filtered_list)))
    filtered_list.

Definition other_packages (filtered_list : list string) : list string :=
  List.filter
    (fun r => negb (bool_decide (r ∈ critical_packages filtered_list))
              && negb (bool_decide (r ∈ core_packages filtered_list)))
    filtered_list.

(** [filtered_list] of [install_dependencies] *)
Definition filtered_list (requirements_list missing : list string) : list string :=
  List.filter
    (fun req => existsb (fun missing_pkg => PyStr.contains missing_pkg req) missing
                || PyStr.startswith "https://" req)
    requirements_list.

(** [sorted_requirements] of [install_dependencies] *)
Definition sorted_requirements (filtered_list : list string) : list string :=
  (critical_packages filtered_list ++ core_packages filtered_list
     ++ other_packages filtered_list)%list.

(** *** The installer object and runtime provisioning *)

(** The fields of [VNStockCLIInstaller] after the selection steps. *)
Record installer := {
  is_vietnamese : bool;
  language : string;
  lang : string -> string;            (* self.lang[key] *)
  verbose : bool;
  selected_python : string;           (* selected_python['path'], its first entry *)
  venv_path : option string;          (* str(self.venv_path) *)
  venv_type : option string;          (* 'default', 'custom' or 'system' *)
  is_colab : bool;
  is_codespaces : bool;
  on_nt : bool;                       (* os.name == 'nt' *)
  log_path : string                   (* self.log_file *)
}.

Record venv_env := {
  venv_path_exists : result bool;     (* self.venv_path.exists(), which lets an
                                         OSError such as PermissionError out *)
  venv_python_exists : result bool;   (* exists() of the interpreter inside it *)
  rmtree_venv : result unit;          (* shutil.rmtree(self.venv_path) *)
  uv : uv_env;
  uv_command : string;                (* get_uv_command() *)
  uv_venv : result completed          (* uv venv <path> --python <python> *)
}.

(** [_is_venv_healthy] *)
Definition _is_venv_healthy (self : installer) (env : venv_env) : result bool :=
  match venv_path self with
  | None => Ok false
  | Some _ =>
      if bool_decide (venv_type self = Some "system") then Ok true
      else venv_python_exists env
  end.

(** [create_virtual_environment] *)
Definition create_virtual_environment (self : installer) (env : venv_env)
    : M world bool :=
  if bool_decide (venv_type self = Some "system") then
    print_success "D√πng Python h·ªá th·ªëng" ;;
    mret true
  else
    match venv_path self with
    | None =>
        print_error "Venv path not configured" ;;
        mret false
    | Some path =>
        (* [None]: go on and create; [Some b]: [return b] *)
        existing ←
          (there ← call (venv_path_exists env);
           if there : bool then
             healthy ← call (_is_venv_healthy self env);
             if healthy : bool then
               print_detail ("D√πng venv hi·ªán t·∫°i: " ++ path) ;;
               mret (Some true)
             else
               print_warning (lang self "venv_corrupted") ;;
               try_except
                 (call (rmtree_venv env) ;; mret None)
                 (fun r => match r with
                           | Exc _ e =>
                               Some (print_error (lang self "venv_removed_failed"
                                                  ++ ": " ++ e) ;;
                                     mret (Some false))
                           | _ => None
                           end)
           else mret None);
        match existing with
        | Some b => mret b
        | None =>
            try_except
              (let py_cmd := selected_python self in
               print_info ("T·∫°o venv: " ++ path) ;;
               installed ← ensure_uv_installed (uv env) py_cmd;
               if negb installed then
                 print_error "Kh√¥ng th·ªÉ c√†i ƒë·∫∑t uv package manager" ;;
                 mret false
               else
                 run_checked [uv_command env; "venv"; path; "--python"; py_cmd]
                             (uv_venv env) ;;
                 print_detail ("Venv ƒë∆∞·ª£c t·∫°o: " ++ path) ;;
                 mret true)
              (fun r => match r with
                        | Exc _ e =>
                            Some (print_error ("T·∫°o venv th·∫•t b·∫°i: " ++ e) ;; mret false)
                        | _ => None
                        end)
        end
    end.

(** *** Running the installer script *)

(** [str(p / name)] for a [pathlib.Path] whose text is [path] and a plain
    [name]: the current directory is left out, the separator is the one of
    the platform. *)
Definition path_child (self : installer) (path name : string) : string :=
  if String.eqb path "." then name
  else if on_nt self then Installer.nt_path_join path name
  else Installer.path_join path name.

(** What [run] meets. The steps that no property below looks into are
    given by their outcome. *)
Record run_env := {
  mount_google_drive : result bool;
  detect_python_versions : result bool;
  select_python_version : result bool;
  select_venv_configuration : result bool;
  venv : venv_env;
  installed_packages : result nat;     (* len(self._get_installed_packages()) *)
  install_dependencies : result bool;
  install_critical_dependencies : result bool;
  get_api_key : result (option string);
  installer_script : string;           (* Path(__file__).parent / "vnstock-installer.py" *)
  installer_exists : bool;
  mkdir_config : result unit;          (* Path(config_path).mkdir(...) *)
  communicate : result (string * Z);   (* Popen(...) and communicate(timeout=600):
                                          the output and the return code *)
  parse_count : string -> string -> option nat;
                                       (* int(line.split(marker)[1].strip().split()[0]),
                                          None when it raises *)
  copy_vnstock_packages_to_drive : result bool;
  backup_config : result unit;         (* the copy of ~/.vnstock to the Drive *)
  validate_installation : result bool;
  show_usage_instructions : result unit
}.

(** [print_step(step, total, message_key)] *)
Definition print_step (self : installer) (step total message_key : string)
    : M world unit :=
  let step_text := lang self "step" ++ " " ++ step ++ "/" ++ total in
  let msg := lang self message_key in
  print (nl ++ Colors.BOLD ++ "[" ++ step_text ++ "] " ++ msg ++ Colors.ENDC) ;;
  print ASCIIArt.DIVIDER_THIN.

(** The scan for the device limit in [run_vnstock_installer]. *)
Definition device_limit_exceeded (stdout : string) : bool :=
  existsb (fun line => PyStr.contains "device limit exceeded" (PyStr.lower line))
          (PyStr.split_lines stdout).

(** The loop of [run_vnstock_installer] that shows the output and reads
    the two counts; it returns [(failed_count, success_count)]. *)
Fixpoint show_output (env : run_env) (lines : list string)
    (failed_count success_count : nat) : M world (nat * nat) :=
  match lines with
  | [] => mret (failed_count, success_count)
  | line :: rest =>
      if negb (String.eqb (PyStr.strip line) "") then
        if PyStr.contains "error" (PyStr.lower line)
           || PyStr.contains "failed" (PyStr.lower line)
        then
          print (Colors.FAIL ++ line ++ Colors.ENDC) ;;
          let failed_count :=
            if (PyStr.contains "‚ùå Failed:" line
                || PyStr.contains "failed:" (PyStr.lower line))
               && PyStr.contains "‚ùå Failed:" line
            then default failed_count (parse_count env "‚ùå Failed:" line)
            else failed_count in
          show_output env rest failed_count success_count
        else if PyStr.contains "success" (PyStr.lower line)
                || PyStr.contains "complete" (PyStr.lower line)
        then
          print (Colors.OKGREEN ++ line ++ Colors.ENDC) ;;
          let success_count :=
            if PyStr.contains "‚úÖ Successful:" line
            then default success_count (parse_count env "‚úÖ Successful:" line)
            else success_count in
          show_output env rest failed_count success_count
        else
          print line ;;
          show_output env rest failed_count success_count
      else show_output env rest failed_count success_count
  end.

(** [run_vnstock_installer]; the environment variables handed to the
    child process are not part of the state. *)
Definition run_vnstock_installer (self : installer) (env : run_env) : M world bool :=
  print_step self "6" "6" "running_installer" ;;
  if negb (installer_exists env) then
    print_error ("Installer not found: " ++ installer_script env) ;;
    mret false
  else
    log "Running vnstock-installer.py" "INFO" ;;
    let venv_python path :=
      if on_nt self
      then path_child self (path_child self path "Scripts") "python.exe"
      else path_child self (path_child self path "bin") "python" in
    let py_cmd :=
      if is_colab self || is_codespaces self then selected_python self
      else match venv_path self with
           | Some path =>
               if negb (bool_decide (venv_type self = Some "system"))
               then venv_python path
               else selected_python self
           | None => selected_python self
           end in
    (if is_colab self then call (mkdir_config env) else mret tt) ;;
    try_except
      (modify (fun w => {| stdout := stdout w;
                           commands := (commands w ++ [[py_cmd; installer_script env]])%list;
                           log_file := log_file w |}) ;;
       '(stdout, returncode) ← call (communicate env);
       if device_limit_exceeded stdout then
         (if is_vietnamese self then
            print (nl ++ Colors.FAIL ++ "‚ùå V∆∞·ª£t qu√° gi·ªõi h·∫°n thi·∫øt b·ªã!" ++ Colors.ENDC) ;;
            print (Colors.WARNING ++ "G√≥i Golden c·ªßa b·∫°n ch·ªâ cho ph√©p " ++ "2 thi·∫øt b·ªã m·ªói h·ªá ƒëi·ªÅu h√†nh." ++ Colors.ENDC) ;;
            print (Colors.CYAN ++ "H∆∞·ªõng d·∫´n gi·∫£i quy·∫øt:" ++ Colors.ENDC) ;;
            print ("  1. V√†o trang: " ++ "https://vnstocks.com/account?section=devices") ;;
            print "  2. X√≥a c√°c thi·∫øt b·ªã kh√¥ng c√≤n s·ª≠ d·ª•ng" ;;
            print "  3. Ch·∫°y l·∫°i installer" ;;
            print (nl ++ Colors.YELLOW ++ "Sau khi x√≥a thi·∫øt b·ªã, " ++ "ch·∫°y l·∫°i l·ªánh c√†i ƒë·∫∑t." ++ Colors.ENDC)
          else
            print (nl ++ Colors.FAIL ++ "‚ùå Device limit exceeded!" ++ Colors.ENDC) ;;
            print (Colors.WARNING ++ "Your Golden plan allows only "
                   ++ "2 devices per OS." ++ Colors.ENDC) ;;
            print (Colors.CYAN ++ "How to fix:" ++ Colors.ENDC) ;;
            print ("  1. Go to: " ++ "https://vnstocks.com/account?section=devices") ;;
            print "  2. Remove unused devices" ;;
            print "  3. Run installer again" ;;
            print (nl ++ Colors.YELLOW ++ "After removing devices, "
                   ++ "run the installer again." ++ Colors.ENDC)) ;;
         log ("Device limit exceeded - user needs to remove " ++ "devices") "ERROR" ;;
         mret false
       else
         '(failed_count, success_count) ←
           show_output env (PyStr.split_lines stdout) 0 0;
         if bool_decide (0 < failed_count) then
           print_error ("VNStock installation failed: " ++ pretty failed_count
                        ++ " packages") ;;
           print_warning ("Check logs: " ++ log_path self) ;;
           log ("VNStock installer failed: " ++ pretty failed_count ++ " packages")
               "ERROR" ;;
           mret false
         else if (returncode =? 0)%Z || bool_decide (0 < success_count) then
           print_success "VNStock installed successfully!" ;;
           log "VNStock installer completed" "SUCCESS" ;;
           mret true
         else
           print_error ("Installer failed with code " ++ pretty returncode) ;;
           log ("Installer failed: code " ++ pretty returncode) "ERROR" ;;
           mret false)
      (fun r => match r with
                | Exc TimeoutExpired _ =>
                    Some (print_error "Installer timeout (10 minutes)" ;; mret false)
                | Exc _ e =>
                    Some (print_error ("Failed to run installer: " ++ e) ;; mret false)
                | _ => None
                end).

(** [run] *)
Definition run (self : installer) (env : run_env) : M world bool :=
  mounted ←
    (if is_colab self then
       print_info ("üîç " ++ lang self "detected_colab") ;;
       mounted ← call (mount_google_drive env);
       if negb mounted
       then print_error (lang self "cannot_proceed_drive") ;; mret false
       else mret true
     else mret true);
  if negb mounted then mret false else
  detected ← call (detect_python_versions env);
  if negb detected then mret false else
  selected ← call (select_python_version env);
  if negb selected then mret false else
  configured ← call (select_venv_configuration env);
  if negb configured then mret false else
  provisioned ←
    (if negb (is_colab self) then create_virtual_environment self (venv env)
     else mret true);
  if negb provisioned then mret false else
  (if is_colab self then
     n ← call (installed_packages env);
     log ("Snapshot: " ++ pretty n ++ " packages") "INFO"
   else mret tt) ;;
  dependencies ← call (install_dependencies env);
  if negb dependencies then mret false else
  critical ← call (install_critical_dependencies env);
  if negb critical then mret false else
  call (get_api_key env) ;;
  installed ← run_vnstock_installer self env;
  if negb installed then mret false else
  (if is_colab self then
     n ← call (installed_packages env);
     log ("Total new packages: " ++ pretty n) "INFO" ;;
     copied ← call (copy_vnstock_packages_to_drive env);
     (if negb copied
      then print_warning "Package backup to Drive failed (non-critical)"
      else mret tt) ;;
     try_except
       (call (backup_config env) ;;
        log "Config backed up to Drive: /content/drive/MyDrive/.vnstock" "INFO")
       (fun r => match r with
                 | Exc _ e => Some (log ("Could not backup config to Drive: " ++ e) "WARNING")
                 | _ => None
                 end)
   else mret tt) ;;
  valid ← call (validate_installation env);
  if negb valid then mret false else
  call (show_usage_instructions env) ;;
  mret true.

Definition sys_exit {A} (code : Z) : M world A := raise (SystemExit code).

(** [main], from the construction of the installer on: what is guarded by
    its [try]. *)
Definition main (self : installer) (env : run_env) : M world unit :=
  try_except
    (success ← run self env;
     sys_exit (if success : bool then 0 else 1))
    (fun r => match r with
              | KeyboardInterrupt =>
                  Some (print ((nl ++ nl) ++ Colors.WARNING ++ "Installation cancelled by user." ++ Colors.ENDC) ;;
                        sys_exit 1)
              | Exc _ e =>
                  Some (print ((nl ++ nl) ++ Colors.FAIL ++ "Unexpected error: " ++ e ++ Colors.ENDC) ;;
                        sys_exit 1)
              | SystemExit _ => None
              end).

(** [check_python_version], on the three numbers of [sys.version_info] *)
Definition check_python_version (major minor micro : Z) : M world bool :=
  let py_ver := pretty major ++ "." ++ pretty minor ++ "." ++ pretty micro in
  print ("Current Python: " ++ py_ver) ;;
  if (major <? 3)%Z || ((major =? 3)%Z && (minor <? 10)%Z) then
    print_error ("Python 3.10+ required (found " ++ py_ver ++ ")") ;;
    mret false
  else
    print_success ("Python " ++ py_ver ++ " is compatible") ;;
    mret true.

End Cli.

(* ===================================================================== *)
(** ** Notions used in the statements *)
(* ===================================================================== *)

(** The priority of a package is a function of its name alone. *)
Definition priority_of_name (n : string) : nat :=
  match Py.index n Installer.package_order with
  | Some i => i
  | None => length Installer.package_order
  end.

(** The probe [uv --version] fails in one of the two ways that make
    [ensure_uv_installed] go on to install the tool. *)
Definition probe_failed (o : result completed) : Prop :=
  match checked o with
  | Raise (Exc (CalledProcessError _) _) | Raise (Exc FileNotFoundError _) => True
  | _ => False
  end.

(** The standalone installer succeeds: the script is fetched and it runs,
    both with status 0. *)
Definition standalone_succeeds (env : Cli.uv_env) : Prop :=
  exists c c', Cli.curl_install_sh env = Ok c /\ returncode c = 0%Z /\
               Cli.sh_install env = Ok c' /\ returncode c' = 0%Z.

(** The fetch of the requirements fails: the request raises an exception
    (a timeout is one) or the status is not 200. *)
Definition fetch_failed (get : result response) : Prop :=
  match get with
  | Ok response => status_code response <> 200%Z
  | Raise (Exc _ _) => True
  | Raise _ => False
  end.

(** A requirement that [install_dependencies] counts as critical. *)
Definition critical_requirement (r : string) : bool :=
  PyStr.any_contained ["vnai"; "vnii"; "typing-extensions"; "typing_extensions"]
                      (PyStr.lower r).





(** A text occurs somewhere in the output of a process. *)
Definition occurs_in (part out : string) : Prop :=
  exists before after, out = (before ++ part ++ after)%string.

(** The instruction to remove devices that the CLI prints. *)
Definition removal_instruction (self : Cli.installer) : string :=
  if Cli.is_vietnamese self then "  2. X√≥a c√°c thi·∫øt b·ªã kh√¥ng c√≤n s·ª≠ d·ª•ng" else "  2. Remove unused devices".

(** The state once [main] has reported a registration that failed with
    [message]: four lines are printed and [_save_installation_info] is
    called with the failure. *)
Definition registration_failed (env : Installer.main_env) (message : string)
    (w : Installer.world) : Installer.world :=
  {| Installer.stdout :=
       Installer.stdout w ++
         [ Installer.registering (Installer.ui env) ++ "...";
           Installer.reg_failed (Installer.ui env) ++ ": " ++ message;
           nl ++ "âš ï¸  Note: Device registration failed, but installation will continue.";
           "   User profile may be saved locally for next time." ]%string;
     Installer.commands := Installer.commands w;
     Installer.tmp_files := Installer.tmp_files w;
     Installer.tmp_dirs := Installer.tmp_dirs w;
     Installer.site_packages := Installer.site_packages w;
     Installer.saved_info :=
       Installer.saved_info w ++
         [[ ("registration_status", "failed"); ("registration_error", message);
            ("registration_time", Installer.now env) ]] |}.

(** The standard output grows: what was printed stays, in its place. *)
Definition grows {A} (m : M Installer.world A) : Prop :=
  forall w, Installer.stdout w `prefix_of` Installer.stdout (snd (m w)).

(** A text without a line feed. *)
Fixpoint one_line (p : string) : bool :=
  match p with
  | EmptyString => true
  | String c p' => negb (Ascii.eqb c "010"%char) && one_line p'
  end.

(** The keys of every dictionary of the heap are distinct, as they are in
    a Python dictionary. *)
Definition keys_unique (h : Installer.heap) : Prop :=
  Forall (fun o => match o with
                   | Installer.ODict items => NoDup (fst <$> items)
                   | Installer.OList _ => True
                   end) h.

(** What becomes of the value [tv] under the key [k] of a sanitized
    dictionary. *)
Definition entry_tree (str_lower : string -> string) (k : string)
    (tv : Installer.tree) : Installer.tree :=
  if Installer.sensitive str_lower k then Installer.TStr Installer.REDACTED
  else match tv with
       | Installer.TDict _ => Installer.sanitized_tree str_lower tv
       | _ => tv
       end.

(** The heap [h'] keeps every object of [h] at its address. *)
Definition keeps (h h' : Installer.heap) : Prop :=
  forall a, a < length h -> h' !! a = h !! a.

(** The heap [h'] holds the objects [new] from the address [start] on. *)
Definition holds_from (start : nat) (new h' : Installer.heap) : Prop :=
  forall i o, new !! i = Some o -> h' !! (start + i) = Some o.

(** An entry of a dictionary and the entry of the tree it stands for. *)
Definition entry_denotes (fuel : nat) (h : Installer.heap)
    (kv : string * Installer.value) (kt : string * Installer.tree) : Prop :=
  pair (fst kv) <$> Installer.denote fuel h (snd kv) = Some kt.

(** A computation respects a relation between the state before and the
    state after: the relation holds however the computation ends. *)
Definition respects {A} (R : relation Installer.world)
    (m : M Installer.world A) : Prop :=
  forall w, R w (snd (m w)).

(** The temporary files stay as they are. *)
Definition same_tmp_files : relation Installer.world :=
  fun w w' => Installer.tmp_files w' = Installer.tmp_files w.

(** No temporary file is added. *)
Definition no_new_tmp_files : relation Installer.world :=
  fun w w' => Installer.tmp_files w' ⊆ Installer.tmp_files w.

(** The lines of a requirements file that count: stripped, and neither
    empty nor a comment nor an option. *)
Definition requirement_lines (text : string) : list string :=
  List.filter
    (fun line => negb (String.eqb line "")
                 && negb (PyStr.startswith "#" line)
                 && negb (PyStr.startswith "--" line))
    (PyStr.strip <$> PyStr.split_lines (PyStr.strip text)).

(** A requirement that holds the two words by which
    [fetch_requirements_from_url] picks the lines it puts first: "typing"
    and "extensions", in any case and anywhere in the line. *)
Definition holds_typing_and_extensions (r : string) : bool :=
  PyStr.contains "typing" (PyStr.lower r)
  && PyStr.contains "extensions" (PyStr.lower r).

(** A line of output that is not blank. *)
Definition nonblank (line : string) : bool :=
  negb (String.eqb (PyStr.strip line) "").


(** A character does not occur in a text. *)
Fixpoint lacks (c : ascii) (s : string) : bool :=
  match s with
  | EmptyString => true
  | String x s' => negb (Ascii.eqb x c) && lacks c s'
  end.

(* ===================================================================== *)
(** * Properties *)
(* ===================================================================== *)

Local Open Scope list_scope.

(** The texts and the large functions stay folded under [simpl]. *)
#[local] Arguments String.append : simpl never.
#[local] Arguments Nat.iter : simpl never.
#[local] Arguments pretty : simpl never.
#[local] Arguments Cli.run_vnstock_installer : simpl never.
#[local] Arguments Cli.create_virtual_environment : simpl never.
#[local] Arguments Cli.show_output : simpl never.
#[local] Arguments Cli.device_limit_exceeded : simpl never.


(** ** Sorting *)

Section sorted_facts.
Context {A : Type} (key : A -> nat).

Lemma insert_by_perm x l : Py.insert_by key x l ≡ₚ x :: l.
Proof.
  induction l as [|y l IH]; simpl; [done|].
  case_match; [done|].
  rewrite IH. apply Permutation_swap.
Qed.

Lemma sorted_perm l : Py.sorted key l ≡ₚ l.
Proof.
  induction l as [|x l IH]; simpl; [done|].
  unfold Py.sorted in *. simpl. by rewrite insert_by_perm, IH.
Qed.

(** Keys never decrease along a sorted list. *)
Lemma insert_by_ascending x l :
  StronglySorted (fun a b => key a <= key b) l ->
  StronglySorted (fun a b => key a <= key b) (Py.insert_by key x l).
Proof.
  induction l as [|y l IH]; simpl; intros Hs.
  - repeat constructor.
  - inversion Hs as [|? ? Hs' Hall]; subst.
    destruct (Nat.leb_spec (key x) (key y)) as [Hle|Hgt].
    + constructor; [done|]. constructor; [done|].
      eapply Forall_impl; [exact Hall|]. simpl. lia.
    + constructor; [by apply IH|].
      rewrite insert_by_perm. constructor; [lia|done].
Qed.

Lemma sorted_ascending l :
  StronglySorted (fun a b => key a <= key b) (Py.sorted key l).
Proof.
  induction l as [|x l IH]; [constructor|].
  by apply insert_by_ascending.
Qed.

(** An element larger than everything in front of it walks past it. *)
Lemma insert_by_app_r x l1 l2 :
  Forall (fun y => key y < key x) l1 ->
  Py.insert_by key x (l1 ++ l2) = l1 ++ Py.insert_by key x l2.
Proof.
  induction 1 as [|y l1 Hy _ IH]; simpl; [done|].
  destruct (Nat.leb_spec (key x) (key y)); [lia|]. by rewrite IH.
Qed.

(** An element no larger than everything behind a prefix stays in it. *)
Lemma insert_by_app_l x l1 l2 :
  Forall (fun y => key x <= key y) l2 ->
  Py.insert_by key x (l1 ++ l2) = Py.insert_by key x l1 ++ l2.
Proof.
  intros Hl2. induction l1 as [|y l1 IH]; simpl.
  - destruct Hl2 as [|u l2 Hu _]; simpl; [done|].
    destruct (Nat.leb_spec (key x) (key u)); [done|lia].
  - case_match; [done|]. by rewrite IH.
Qed.

Lemma insert_by_front x l :
  Forall (fun y => key x <= key y) l -> Py.insert_by key x l = x :: l.
Proof.
  intros Hl. destruct Hl as [|u l Hu _]; simpl; [done|].
  destruct (Nat.leb_spec (key x) (key u)); [done|lia].
Qed.

(** Stability, in the form used below: the elements whose key is below a
    bound [b] are sorted among themselves, the elements whose key is [b]
    (the largest key) follow them in their input order. *)
Lemma sorted_split (b : nat) (top : A -> bool) l :
  (forall x, key x <= b) ->
  (forall x, top x = true <-> key x = b) ->
  Py.sorted key l =
    Py.sorted key (filter (fun x => negb (top x)) l) ++ filter top l.
Proof.
  intros Hb Htop. induction l as [|x l IH]; [done|].
  change (Py.sorted key (x :: l)) with (Py.insert_by key x (Py.sorted key l)).
  rewrite IH. clear IH.
  assert (Hlow : Forall (fun y => key y < b)
                   (Py.sorted key (filter (fun x => negb (top x)) l))).
  { rewrite sorted_perm. apply Forall_forall. intros y [Hy _]%list_elem_of_filter.
    destruct (top y) eqn:E; [done|].
    specialize (Hb y). destruct (decide (key y = b)) as [Heq|]; [|lia].
    apply Htop in Heq. congruence. }
  assert (Hhigh : Forall (fun y => key y = b) (filter top l)).
  { apply Forall_forall. intros y [Hy _]%list_elem_of_filter.
    by apply Htop, Is_true_true. }
  destruct (top x) eqn:E.
  - rewrite (filter_cons_False _ x), (filter_cons_True _ x) by (rewrite E; simpl; tauto).
    apply Htop in E. rewrite insert_by_app_r.
    + f_equal. apply insert_by_front.
      eapply Forall_impl; [exact Hhigh|]. simpl. lia.
    + eapply Forall_impl; [exact Hlow|]. simpl. lia.
  - rewrite (filter_cons_True _ x), (filter_cons_False _ x) by (rewrite E; simpl; tauto).
    apply insert_by_app_l.
    eapply Forall_impl; [exact Hhigh|]. simpl. intros y ->. apply Hb.
Qed.

End sorted_facts.

(** ** Installation order (vnstock-installer.py, [main]) *)

Lemma index_Some x l i : Py.index x l = Some i -> l !! i = Some x.
Proof.
  revert i. induction l as [|y l IH]; simpl; intros i; [done|].
  destruct (String.eqb_spec y x) as [->|_].
  - by intros [= <-].
  - destruct (Py.index x l); simpl; [|done]. intros [= <-]. by apply IH.
Qed.

Lemma index_None x l : Py.index x l = None <-> x ∉ l.
Proof.
  induction l as [|y l IH]; simpl.
  - split; [intros _; apply not_elem_of_nil|done].
  - destruct (String.eqb_spec y x) as [->|Hne].
    + split; [done|]. intros []. left.
    + rewrite not_elem_of_cons, <- IH.
      destruct (Py.index x l); simpl; split; try done.
      by intros [_ ?].
Qed.

Lemma priority_le pkg :
  Installer.get_package_priority pkg <= length Installer.package_order.
Proof.
  unfold Installer.get_package_priority.
  destruct (Py.index _ _) eqn:E; [|done].
  apply index_Some, lookup_lt_Some in E. lia.
Qed.

Lemma unknown_priority pkg :
  Installer.unknown pkg = true <->
  Installer.get_package_priority pkg = length Installer.package_order.
Proof.
  unfold Installer.unknown, Installer.known, Installer.get_package_priority.
  rewrite negb_true_iff, bool_decide_eq_false, <- index_None.
  destruct (Py.index _ _) eqn:E; [|done].
  apply index_Some, lookup_lt_Some in E. split; [done|lia].
Qed.

Lemma priority_of_name_eq pkg :
  Installer.get_package_priority pkg = priority_of_name (Installer.name pkg).
Proof. done. Qed.

Local Instance le_antisymm : AntiSymm (=) Nat.le.
Proof. intros x y ??. lia. Qed.

(** C2. Whatever the order in which the four packages vnstock_news,
    vnstock_data, vnstock_ta and vnstock are listed, sorting by
    [get_package_priority] installs them as vnstock, vnstock_data,
    vnstock_ta, vnstock_news; and for every list of packages the sorted list
    is the sorted known packages followed by the unknown ones (in their
    input order), so that no unknown package precedes a known one. *)
Theorem install_order_declared :
  (forall l : list Installer.package,
     Installer.name <$> l ≡ₚ
       ["vnstock_news"; "vnstock_data"; "vnstock_ta"; "vnstock"] ->
     Installer.name <$> Installer.selected_packages l =
       ["vnstock"; "vnstock_data"; "vnstock_ta"; "vnstock_news"]) /\
  (forall l : list Installer.package,
     Installer.selected_packages l =
       Installer.selected_packages (filter Installer.known l)
       ++ filter Installer.unknown l) /\
  (forall (l : list Installer.package) i j p q,
     Installer.selected_packages l !! i = Some p ->
     Installer.selected_packages l !! j = Some q ->
     Installer.name p ∉ Installer.package_order ->
     Installer.name q ∈ Installer.package_order ->
     j < i).
Proof.
  assert (Hsplit : forall l : list Installer.package,
     Installer.selected_packages l =
       Installer.selected_packages (filter Installer.known l)
       ++ filter Installer.unknown l).
  { intros l. unfold Installer.selected_packages.
    rewrite (sorted_split _ _ Installer.unknown l priority_le unknown_priority).
    do 2 f_equal. apply list_filter_iff. intros p.
    unfold Installer.unknown. by destruct (Installer.known p). }
  split; [|split; [exact Hsplit|]].
  - intros l Hperm.
    set (s := Installer.selected_packages l).
    assert (Hs : Installer.name <$> s ≡ₚ
              ["vnstock_news"; "vnstock_data"; "vnstock_ta"; "vnstock"]).
    { rewrite <- Hperm. unfold s, Installer.selected_packages.
      by rewrite sorted_perm. }
    assert (Hkeys : Installer.get_package_priority <$> s = [0; 1; 2; 4]).
    { apply (StronglySorted_unique Nat.le).
      - eapply StronglySorted_fmap; [|apply (sorted_ascending Installer.get_package_priority)].
        by intros ??.
      - repeat constructor; lia.
      - change Installer.get_package_priority
          with (priority_of_name ∘ Installer.name).
        rewrite list_fmap_compose, Hs.
        change (priority_of_name <$> _) with [4; 1; 2; 0].
        by apply (bool_decide_unpack _). }
    assert (Hin : Forall (fun p => Installer.name p ∈
              ["vnstock_news"; "vnstock_data"; "vnstock_ta"; "vnstock"]) s).
    { apply Forall_forall. intros p Hp. rewrite <- Hs.
      by apply list_elem_of_fmap_2. }
    destruct s as [|p0 [|p1 [|p2 [|p3 [|]]]]]; try discriminate Hkeys.
    injection Hkeys as K0 K1 K2 K3.
    rewrite priority_of_name_eq in K0, K1, K2, K3.
    repeat match goal with
           | H : Forall _ (_ :: _) |- _ => apply Forall_cons in H as [? H]
           end.
    simpl. repeat f_equal;
      repeat match goal with
             | H : _ ∈ _ :: _ |- _ => apply elem_of_cons in H as [H|H]
             | H : _ ∈ [] |- _ => by apply elem_of_nil in H
             end;
      try done;
      match goal with
      | H : Installer.name _ = _, K : priority_of_name _ = _ |- _ =>
          rewrite H in K; discriminate K
      end.
  - intros l i j p q Hi Hj Hp Hq.
    rewrite Hsplit in Hi, Hj.
    set (ks := Installer.selected_packages (filter Installer.known l)) in *.
    assert (Hks : Forall (fun x => Installer.name x ∈ Installer.package_order) ks).
    { apply Forall_forall. intros x Hx. unfold ks, Installer.selected_packages in Hx.
      rewrite sorted_perm in Hx. apply list_elem_of_filter in Hx as [Hx _].
      unfold Installer.known in Hx. by apply bool_decide_unpack in Hx. }
    assert (Hus : Forall (fun x => Installer.name x ∉ Installer.package_order)
                    (filter Installer.unknown l)).
    { apply Forall_forall. intros x [Hx _]%list_elem_of_filter.
      unfold Installer.unknown, Installer.known in Hx.
      apply negb_prop_elim in Hx. intros Hin. apply Hx. by apply bool_decide_pack. }
    destruct (decide (i < length ks)) as [Hlt|Hge].
    { rewrite lookup_app_l in Hi by done.
      apply list_elem_of_lookup_2 in Hi.
      rewrite Forall_forall in Hks. by apply Hks in Hi. }
    destruct (decide (j < length ks)) as [Hlt'|Hge']; [lia|].
    rewrite lookup_app_r in Hj by lia.
    apply list_elem_of_lookup_2 in Hj.
    rewrite Forall_forall in Hus. by apply Hus in Hj.
Qed.

(** The four packages listed as the entitlement service may list them. *)
Lemma install_order_declared_witness :
  let pk n := {| Installer.name := n; Installer.displayName := n;
                 Installer.description := ""; Installer.version := "1.0.0";
                 Installer.available := true |} in
  Installer.name <$> Installer.selected_packages
    [pk "vnstock_ta"; pk "vnstock_news"; pk "vnstock"; pk "vnstock_data"] =
  ["vnstock"; "vnstock_data"; "vnstock_ta"; "vnstock_news"].
Proof.
  intros pk. apply (proj1 install_order_declared).
  apply (bool_decide_unpack _). vm_compute. exact I.
Defined.

(** ** Bootstrap of the package manager *)

(** Unfolds the operations of the monad. *)
Ltac munfold :=
  unfold mbind, M_bind, mret, M_ret, call, modify, gets, raise, try_except,
         try_finally in *.

(** A plain installation of uv that would have succeeded is never tried
    when the installation with --break-system-packages times out. *)
Lemma ensure_uv_false_without_retry :
  let done := {| returncode := 0; proc_stdout := ""; proc_stderr := "" |} in
  let failed := {| returncode := 1; proc_stdout := ""; proc_stderr := "curl: (6)" |} in
  let env := {| Cli.uv_version := Raise (Exc FileNotFoundError "uv");
                Cli.curl_install_sh := Ok failed;
                Cli.sh_install := Ok done;
                Cli.pip_install_break := Raise (Exc TimeoutExpired "timed out after 60 seconds");
                Cli.pip_install_plain := Ok done |} in
  let w := {| Cli.stdout := []; Cli.commands := []; Cli.log_file := [] |} in
  fst (Cli.ensure_uv_installed env "python3" w) = Ok false /\
  (["python3"; "-m"; "pip"; "install"; "uv"]
     ∉ Cli.commands (snd (Cli.ensure_uv_installed env "python3" w))) /\
  checked (Cli.pip_install_plain env) = Ok done.
Proof.
  vm_compute. split; [done|]. split; [|done].
  intros H. repeat (apply elem_of_cons in H as [H|H]; [discriminate H|]).
  by apply elem_of_nil in H.
Qed.

(** C9, amended. When the probe finds uv, [ensure_uv_installed] returns True
    and starts nothing but the probe, in both scripts. The CLI returns False
    only when the probe failed, the standalone installer did not succeed and
    the installation by pip with --break-system-packages failed: after a
    non-zero exit of that installation the retry without the flag was run,
    and it ended with a non-zero exit too; after a timeout or another
    exception False is returned at once, the last command started being the
    one with the flag. The installer script has no standalone installer and
    no flag: it returns False only when the probe and its one installation
    by pip have failed. *)
Theorem ensure_uv_installed_false_only_after :
  (forall env py w c,
     checked (Cli.uv_version env) = Ok c ->
     Cli.ensure_uv_installed env py w =
       (Ok true, {| Cli.stdout := Cli.stdout w;
                    Cli.commands := Cli.commands w ++ [["uv"; "--version"]];
                    Cli.log_file := Cli.log_file w |})) /\
  (forall env py w w',
     Cli.ensure_uv_installed env py w = (Ok false, w') ->
     probe_failed (Cli.uv_version env) /\
     ~ standalone_succeeds env /\
     ((exists err e err' e',
         checked (Cli.pip_install_break env) = Raise (Exc (CalledProcessError err) e) /\
         checked (Cli.pip_install_plain env) = Raise (Exc (CalledProcessError err') e') /\
         last (Cli.commands w') = Some [py; "-m"; "pip"; "install"; "uv"]) \/
      (exists c e,
         checked (Cli.pip_install_break env) = Raise (Exc c e) /\
         (forall err, c <> CalledProcessError err) /\
         last (Cli.commands w') =
           Some [py; "-m"; "pip"; "install"; "--break-system-packages"; "uv"]))) /\
  (forall env py w c,
     checked (Installer.uv_version env) = Ok c ->
     exists w', Installer.ensure_uv_installed env py w = (Ok true, w') /\
                Installer.commands w' = Installer.commands w ++ [["uv"; "--version"]]) /\
  (forall env py w w',
     Installer.ensure_uv_installed env py w = (Ok false, w') ->
     probe_failed (Installer.uv_version env) /\
     (exists c e, checked (Installer.pip_install_uv env) = Raise (Exc c e)) /\
     last (Installer.commands w') = Some [py; "-m"; "pip"; "install"; "uv"]).
Proof.
  split; [|split; [|split]].
  - intros env py w c Hc.
    unfold Cli.ensure_uv_installed, Cli.run_checked. munfold. simpl.
    by rewrite Hc.
  - intros env py w w'.
    unfold Cli.ensure_uv_installed, Cli.run_checked, Cli.subprocess_run,
           Cli.print, probe_failed, standalone_succeeds.
    munfold. simpl. intros H.
    repeat (case_match; simplify_eq/=).
    all: split; [done|].
    all: split; [intros (?&?&?&?&?&?); simplify_eq/=; try congruence; lia|].
    all: first
      [ left; do 4 eexists; split; [done|split; [done|]]; by rewrite last_snoc
      | right; do 2 eexists; split; [done|split; [done|]]; by rewrite last_snoc ].
  - intros env py w c Hc.
    unfold Installer.ensure_uv_installed, Installer.run_checked, Installer.print.
    munfold. simpl. rewrite Hc. eauto.
  - intros env py w w'.
    unfold Installer.ensure_uv_installed, Installer.run_checked, Installer.print,
           probe_failed.
    munfold. simpl. intros H.
    repeat (case_match; simplify_eq/=).
    all: split; [done|].
    all: split; [by eauto|]; by rewrite last_snoc.
Qed.

(** uv is missing, the standalone installer cannot be fetched, and pip
    exits with an error with and without the flag. *)
Lemma ensure_uv_installed_false_only_after_witness :
  let failed := {| returncode := 1; proc_stdout := ""; proc_stderr := "error" |} in
  let env := {| Cli.uv_version := Raise (Exc FileNotFoundError "uv");
                Cli.curl_install_sh := Ok failed;
                Cli.sh_install := Ok failed;
                Cli.pip_install_break := Ok failed;
                Cli.pip_install_plain := Ok failed |} in
  let w := {| Cli.stdout := []; Cli.commands := []; Cli.log_file := [] |} in
  probe_failed (Cli.uv_version env) /\ ~ standalone_succeeds env.
Proof.
  intros failed env w.
  destruct (proj1 (proj2 ensure_uv_installed_false_only_after) env "python3" w
              (snd (Cli.ensure_uv_installed env "python3" w)) eq_refl)
    as (Hp & Hs & _).
  exact (conj Hp Hs).
Defined.

(** ** Runtime provisioning *)

(** The CLI stops with status 1 when [uv venv] exits with an error: the
    virtual environment is missing, uv is there, the creation fails, and
    [run] returns before any dependency or package is installed. *)
Lemma create_virtual_environment_failure_aborts :
  let ok := {| returncode := 0; proc_stdout := "uv 0.5.0"; proc_stderr := "" |} in
  let failed := {| returncode := 1; proc_stdout := ""; proc_stderr := "No interpreter found" |} in
  let uv := {| Cli.uv_version := Ok ok; Cli.curl_install_sh := Ok ok;
               Cli.sh_install := Ok ok; Cli.pip_install_break := Ok ok;
               Cli.pip_install_plain := Ok ok |} in
  let venv := {| Cli.venv_path_exists := Ok false; Cli.venv_python_exists := Ok false;
                 Cli.rmtree_venv := Ok tt; Cli.uv := uv; Cli.uv_command := "uv";
                 Cli.uv_venv := Ok failed |} in
  let self := {| Cli.is_vietnamese := false; Cli.language := "en";
                 Cli.lang := fun key => key; Cli.verbose := false;
                 Cli.selected_python := "/usr/bin/python3";
                 Cli.venv_path := Some "/home/user/.venv";
                 Cli.venv_type := Some "default";
                 Cli.is_colab := false; Cli.is_codespaces := false;
                 Cli.on_nt := false; Cli.log_path := "/home/user/.vnstock/cli_installer.log" |} in
  let env := {| Cli.mount_google_drive := Ok true;
                Cli.detect_python_versions := Ok true;
                Cli.select_python_version := Ok true;
                Cli.select_venv_configuration := Ok true;
                Cli.venv := venv;
                Cli.installed_packages := Ok 0;
                Cli.install_dependencies := Ok true;
                Cli.install_critical_dependencies := Ok true;
                Cli.get_api_key := Ok (Some "key");
                Cli.installer_script := "/opt/cli/vnstock-installer.py";
                Cli.installer_exists := true;
                Cli.mkdir_config := Ok tt;
                Cli.communicate := Ok ("", 0%Z);
                Cli.parse_count := fun _ _ => None;
                Cli.copy_vnstock_packages_to_drive := Ok true;
                Cli.backup_config := Ok tt;
                Cli.validate_installation := Ok true;
                Cli.show_usage_instructions := Ok tt |} in
  let w := {| Cli.stdout := []; Cli.commands := []; Cli.log_file := [] |} in
  fst (Cli.create_virtual_environment self venv w) = Ok false /\
  fst (Cli.main self env w) = Raise (SystemExit 1) /\
  Cli.commands (snd (Cli.main self env w)) =
    [["uv"; "--version"];
     ["uv"; "venv"; "/home/user/.venv"; "--python"; "/usr/bin/python3"]].
Proof. vm_compute. done. Qed.

(** C6, amended. [create_or_use_venv] of the installer script, called for
    a directory that is not there yet, runs [uv venv]: when that ends with a
    non-zero exit the function returns the ambient interpreter; when
    [subprocess.run] raises anything but [CalledProcessError] (uv is not
    installed, say) the exception leaves the function, which returns no
    interpreter. When the directory is there already or [uv venv] ends with
    status 0, the function returns the interpreter of the environment
    ([Scripts\python.exe] below it on Windows, [bin/python] elsewhere) if
    that file exists, and the ambient interpreter if it does not.
    [create_virtual_environment] of the CLI has no such fallback: when
    [uv venv] fails it returns False, and a False of this step makes [run]
    return False and the CLI end with status 1. *)
Theorem provisioning_falls_back_or_aborts :
  (* the installer script *)
  (forall m env path w c,
     Installer.venv_exists env = false ->
     Installer.uv_venv env = Ok c -> returncode c <> 0%Z ->
     fst (Installer.create_or_use_venv m env path w) = Ok (Installer.sys_executable m)) /\
  (forall m env path w r,
     Installer.venv_exists env = false ->
     checked (Installer.uv_venv env) = Raise r ->
     (forall stderr e, r <> Exc (CalledProcessError stderr) e) ->
     fst (Installer.create_or_use_venv m env path w) = Raise r) /\
  (forall m env path w,
     Installer.venv_exists env = true \/ (exists c, checked (Installer.uv_venv env) = Ok c) ->
     fst (Installer.create_or_use_venv m env path w) =
       Ok (if Installer.venv_python_exists env
           then if Installer.on_windows m
                then Installer.nt_path_join (Installer.nt_path_join path "Scripts")
                                            "python.exe"
                else Installer.path_join (Installer.path_join path "bin") "python"
           else Installer.sys_executable m)) /\
  (* the CLI *)
  (forall self env path w c0 c e,
     Cli.venv_type self <> Some "system" ->
     Cli.venv_path self = Some path ->
     Cli.venv_path_exists env = Ok false ->
     checked (Cli.uv_version (Cli.uv env)) = Ok c0 ->
     checked (Cli.uv_venv env) = Raise (Exc c e) ->
     fst (Cli.create_virtual_environment self env w) = Ok false) /\
  (forall self env w,
     Cli.is_colab self = false ->
     Cli.detect_python_versions env = Ok true ->
     Cli.select_python_version env = Ok true ->
     Cli.select_venv_configuration env = Ok true ->
     fst (Cli.create_virtual_environment self (Cli.venv env) w) = Ok false ->
     fst (Cli.run self env w) = Ok false /\
     fst (Cli.main self env w) = Raise (SystemExit 1) /\
     exit_status (fst (Cli.main self env w)) = 1%Z).
Proof.
  split; [|split; [|split; [|split]]].
  - intros m env path w c Hex Huv Hrc.
    unfold Installer.create_or_use_venv, Installer.run_checked, Installer.print.
    munfold. rewrite Hex, Huv. simpl.
    destruct (Z.eqb_spec (returncode c) 0); [done|]. done.
  - intros m env path w r Hex Huv Hother.
    unfold Installer.create_or_use_venv, Installer.run_checked, Installer.print.
    munfold. rewrite Hex. simpl. rewrite Huv.
    destruct r as [[] e| |code]; try done. by destruct (Hother stderr e).
  - intros m env path w Hcase.
    unfold Installer.create_or_use_venv, Installer.run_checked, Installer.print,
           Installer.os_path_join.
    munfold.
    destruct (Installer.venv_exists env) eqn:Hex.
    + by destruct (Installer.venv_python_exists env), (Installer.on_windows m).
    + destruct Hcase as [?|[c Hc]]; [done|]. rewrite Hc. simpl.
      by destruct (Installer.venv_python_exists env), (Installer.on_windows m).
  - intros self env path w c0 c e Hsys Hpath Hex Hprobe Hvenv.
    unfold Cli.create_virtual_environment.
    rewrite bool_decide_eq_false_2 by done. rewrite Hpath, Hex.
    unfold Cli.ensure_uv_installed, Cli.run_checked, Cli.print_info,
           Cli.print_error, Cli.print_detail, Cli.print.
    munfold. simpl. rewrite Hprobe. simpl. by rewrite Hvenv.
  - intros self env w Hcolab Hd Hs Hc Hv.
    assert (Hrun : fst (Cli.run self env w) = Ok false).
    { unfold Cli.run. rewrite Hcolab, Hd, Hs, Hc. munfold. simpl.
      destruct (Cli.create_virtual_environment self (Cli.venv env) w) as [r w'].
      simpl in Hv. by subst r. }
    split; [done|].
    unfold Cli.main, Cli.sys_exit. munfold.
    destruct (Cli.run self env w) as [r w']. simpl in Hrun. subst r. done.
Qed.

(** A new environment whose creation ends with status 1. *)
Lemma provisioning_falls_back_or_aborts_witness :
  let m := {| Installer.sys_executable := "/usr/bin/python3";
              Installer.home := "/home/user"; Installer.on_windows := false;
              Installer.path_exists := fun _ => false |} in
  let env := {| Installer.venv_exists := false;
                Installer.uv_venv :=
                  Ok {| returncode := 1; proc_stdout := ""; proc_stderr := "error" |};
                Installer.venv_python_exists := false |} in
  let w := {| Installer.stdout := []; Installer.commands := [];
              Installer.tmp_files := ∅; Installer.tmp_dirs := ∅;
              Installer.site_packages := []; Installer.saved_info := [] |} in
  fst (Installer.create_or_use_venv m env "/home/user/.venv" w) = Ok "/usr/bin/python3".
Proof.
  intros m env w.
  apply (proj1 provisioning_falls_back_or_aborts m env "/home/user/.venv" w
           {| returncode := 1; proc_stdout := ""; proc_stderr := "error" |});
    [reflexivity | reflexivity | discriminate].
Defined.

(** ** Cancellation by the user *)

(** C7. A keyboard interrupt that reaches the entry point of the installer
    script ends it with status 130; one that reaches the entry point of the
    CLI ends it with status 1, the status of a failed installation. *)
Theorem interrupt_exit_status :
  (forall env w,
     fst (Installer.main env w) = Raise KeyboardInterrupt ->
     exit_status (fst (Installer.script env w)) = 130%Z) /\
  (forall self env w,
     fst (Cli.run self env w) = Raise KeyboardInterrupt ->
     exit_status (fst (Cli.main self env w)) = 1%Z) /\
  (forall self env w,
     fst (Cli.run self env w) = Ok false ->
     exit_status (fst (Cli.main self env w)) = 1%Z).
Proof.
  split; [|split].
  - intros env w H. unfold Installer.script, Installer.sys_exit, Installer.print.
    munfold. destruct (Installer.main env w) as [r w']. simpl in H. by subst r.
  - intros self env w H. unfold Cli.main, Cli.sys_exit, Cli.print.
    munfold. destruct (Cli.run self env w) as [r w']. simpl in H. by subst r.
  - intros self env w H. unfold Cli.main, Cli.sys_exit, Cli.print.
    munfold. destruct (Cli.run self env w) as [r w']. simpl in H. by subst r.
Qed.

(** The user interrupts the CLI while it looks for the Python versions. *)
Lemma interrupt_exit_status_witness :
  let ok := {| returncode := 0; proc_stdout := ""; proc_stderr := "" |} in
  let uv := {| Cli.uv_version := Ok ok; Cli.curl_install_sh := Ok ok;
               Cli.sh_install := Ok ok; Cli.pip_install_break := Ok ok;
               Cli.pip_install_plain := Ok ok |} in
  let venv := {| Cli.venv_path_exists := Ok true; Cli.venv_python_exists := Ok true;
                 Cli.rmtree_venv := Ok tt; Cli.uv := uv; Cli.uv_command := "uv";
                 Cli.uv_venv := Ok ok |} in
  let self := {| Cli.is_vietnamese := false; Cli.language := "en";
                 Cli.lang := fun key => key; Cli.verbose := false;
                 Cli.selected_python := "/usr/bin/python3";
                 Cli.venv_path := Some "/home/user/.venv";
                 Cli.venv_type := Some "default";
                 Cli.is_colab := false; Cli.is_codespaces := false;
                 Cli.on_nt := false;
                 Cli.log_path := "/home/user/.vnstock/cli_installer.log" |} in
  let env := {| Cli.mount_google_drive := Ok true;
                Cli.detect_python_versions := Raise KeyboardInterrupt;
                Cli.select_python_version := Ok true;
                Cli.select_venv_configuration := Ok true;
                Cli.venv := venv;
                Cli.installed_packages := Ok 0;
                Cli.install_dependencies := Ok true;
                Cli.install_critical_dependencies := Ok true;
                Cli.get_api_key := Ok (Some "key");
                Cli.installer_script := "/opt/cli/vnstock-installer.py";
                Cli.installer_exists := true;
                Cli.mkdir_config := Ok tt;
                Cli.communicate := Ok ("", 0%Z);
                Cli.parse_count := fun _ _ => None;
                Cli.copy_vnstock_packages_to_drive := Ok true;
                Cli.backup_config := Ok tt;
                Cli.validate_installation := Ok true;
                Cli.show_usage_instructions := Ok tt |} in
  let w := {| Cli.stdout := []; Cli.commands := []; Cli.log_file := [] |} in
  exit_status (fst (Cli.main self env w)) = 1%Z.
Proof.
  intros ok uv venv self env w.
  apply (proj1 (proj2 interrupt_exit_status) self env w). reflexivity.
Defined.

(** ** The requirements and their fallback *)

Lemma critical_packages_spec fl r :
  r ∈ Cli.critical_packages fl <-> r ∈ fl /\ critical_requirement r = true.
Proof.
  unfold Cli.critical_packages. rewrite !list_elem_of_In, filter_In.
  unfold critical_requirement. tauto.
Qed.

(** C5. When the request for the requirements raises an exception or answers
    with a status other than 200, [fetch_requirements_from_url] returns the
    fallback list of the environment; that list is not empty and starts with
    the pin of typing_extensions, and the order in which
    [install_dependencies] installs it starts with its critical entries
    (typing_extensions, vnai, vnii). In every list that
    [install_dependencies] sorts, a critical requirement stands in front of
    every requirement that is not critical. *)
Theorem fetch_requirements_fallback :
  (forall get is_colab w,
     fetch_failed get ->
     exists fallback rest,
       fst (Cli.fetch_requirements_from_url get is_colab w) = Ok fallback /\
       fallback = (if is_colab then Cli.COLAB_REQUIREMENTS_FALLBACK
                   else Cli.REQUIRED_DEPENDENCIES_FALLBACK) /\
       fallback = "typing_extensions>=4.6.0" :: rest) /\
  Cli.sorted_requirements Cli.REQUIRED_DEPENDENCIES_FALLBACK =
    ["typing_extensions>=4.6.0"; "vnai"; "vnii"; "vnstock>=3.4.0";
     "requests"; "pandas"; "numpy"] /\
  Cli.sorted_requirements Cli.COLAB_REQUIREMENTS_FALLBACK =
    ["typing_extensions>=4.6.0"; "vnai"; "vnii"; "vnstock>=3.4.1"] /\
  (forall fl i j r1 r2,
     Cli.sorted_requirements fl !! i = Some r1 ->
     Cli.sorted_requirements fl !! j = Some r2 ->
     critical_requirement r1 = true -> critical_requirement r2 = false ->
     i < j).
Proof.
  split; [|split; [|split]].
  - intros get is_colab w Hfail.
    unfold Cli.fetch_requirements_from_url, Cli.log. munfold.
    destruct get as [response|[c e| |code]]; simpl in *; try done.
    + destruct (Z.eqb_spec (status_code response) 200); [done|].
      destruct is_colab; simpl; eauto.
    + destruct is_colab; simpl; eauto.
  - by vm_compute.
  - by vm_compute.
  - intros fl i j r1 r2 Hi Hj Hc1 Hc2.
    unfold Cli.sorted_requirements in *.
    assert (Hrest : Forall (fun r => critical_requirement r = false)
                      (Cli.core_packages fl ++ Cli.other_packages fl)).
    { apply Forall_app. split; apply Forall_forall; intros r Hr;
        apply list_elem_of_In, filter_In in Hr as [Hin Hr];
        apply list_elem_of_In in Hin;
        destruct (critical_requirement r) eqn:E; try done;
        assert (r ∈ Cli.critical_packages fl) by (by apply critical_packages_spec);
        rewrite bool_decide_eq_true_2 in Hr by done;
        simpl in Hr; by rewrite ?andb_false_r in Hr. }
    assert (Hcrit : Forall (fun r => critical_requirement r = true)
                      (Cli.critical_packages fl)).
    { apply Forall_forall. intros r Hr. by apply critical_packages_spec in Hr as [_ ?]. }
    destruct (decide (i < length (Cli.critical_packages fl))) as [Hlt|Hge].
    + destruct (decide (j < length (Cli.critical_packages fl))) as [Hlt'|]; [|lia].
      rewrite lookup_app_l in Hj by done.
      apply list_elem_of_lookup_2 in Hj. rewrite Forall_forall in Hcrit.
      apply Hcrit in Hj. congruence.
    + rewrite lookup_app_r in Hi by lia.
      apply list_elem_of_lookup_2 in Hi. rewrite Forall_forall in Hrest.
      apply Hrest in Hi. congruence.
Qed.

(** The server of the requirements answers 503. *)
Lemma fetch_requirements_fallback_witness :
  let get := Ok {| status_code := 503; json := Raise (Exc OtherException "");
                   text := "Service Unavailable" |} in
  let w := {| Cli.stdout := []; Cli.commands := []; Cli.log_file := [] |} in
  exists fallback rest,
    fst (Cli.fetch_requirements_from_url get false w) = Ok fallback /\
    fallback = Cli.REQUIRED_DEPENDENCIES_FALLBACK /\
    fallback = "typing_extensions>=4.6.0" :: rest.
Proof.
  intros get w.
  apply (proj1 fetch_requirements_fallback get false w). simpl. discriminate.
Defined.

(** ** The build descriptor *)








(** ** Verification of the import *)






(** ** Exceptions in the flow of one package *)





(** ** Registration beyond the device limit *)

(** *** Texts and lines *)

Lemma startswith_app p s : PyStr.startswith p (p ++ s)%string = true.
Proof.
  induction p as [|a p IH]; simpl; [done|].
  by rewrite Ascii.eqb_refl, IH.
Qed.

Lemma contains_startswith p s :
  PyStr.startswith p s = true -> PyStr.contains p s = true.
Proof. intros H. destruct s; simpl; by rewrite H. Qed.

Lemma contains_app p before after :
  PyStr.contains p (before ++ p ++ after)%string = true.
Proof.
  induction before as [|c before IH].
  - change ("" ++ p ++ after)%string with (p ++ after)%string.
    apply contains_startswith, startswith_app.
  - change (String c before ++ p ++ after)%string
      with (String c (before ++ p ++ after)%string).
    cbn [PyStr.contains]. rewrite IH. apply orb_true_r.
Qed.

Lemma lower_app a b : PyStr.lower (a ++ b)%string = (PyStr.lower a ++ PyStr.lower b)%string.
Proof. induction a as [|c a IH]; simpl; [done|]. by rewrite IH. Qed.

Lemma lower_ascii_newline c :
  Ascii.eqb (PyStr.lower_ascii c) "010"%char = Ascii.eqb c "010"%char.
Proof.
  destruct c as [[] [] [] [] [] [] [] []]; vm_compute; reflexivity.
Qed.

Lemma split_lines_lower s :
  PyStr.split_lines (PyStr.lower s) = PyStr.lower <$> PyStr.split_lines s.
Proof.
  induction s as [|c s IH]; simpl; [done|].
  rewrite lower_ascii_newline, IH.
  destruct (Ascii.eqb c "010"%char); [done|].
  by destruct (PyStr.split_lines s).
Qed.

Lemma startswith_first_line p s :
  one_line p = true -> PyStr.startswith p s = true ->
  exists l ls, PyStr.split_lines s = l :: ls /\ PyStr.startswith p l = true.
Proof.
  revert s. induction p as [|a p IH]; intros s Hp Hs.
  - destruct s as [|c s]; simpl; [by eauto|].
    destruct (Ascii.eqb c "010"%char); [by eauto|].
    destruct (PyStr.split_lines s); by eauto.
  - destruct s as [|c s]; [done|]. simpl in *.
    apply andb_true_iff in Hp as [Ha Hp]. apply andb_true_iff in Hs as [Hc Hs].
    apply Ascii.eqb_eq in Hc. subst c. apply negb_true_iff in Ha. rewrite Ha.
    destruct (IH s Hp Hs) as (l & ls & -> & Hl).
    exists (String a l), ls. split; [done|]. simpl. by rewrite Ascii.eqb_refl.
Qed.

Lemma contains_some_line p s :
  one_line p = true -> PyStr.contains p s = true ->
  existsb (PyStr.contains p) (PyStr.split_lines s) = true.
Proof.
  intros Hp. induction s as [|c s IH]; intros Hs.
  - simpl in *. by rewrite Hs.
  - cbn [PyStr.contains] in Hs. apply orb_true_iff in Hs as [Hs|Hs].
    + destruct (startswith_first_line p _ Hp Hs) as (l & ls & -> & Hl).
      simpl. destruct l; simpl in *; by rewrite Hl.
    + specialize (IH Hs). simpl.
      destruct (Ascii.eqb c "010"%char); simpl; [by rewrite IH, orb_true_r|].
      destruct (PyStr.split_lines s) as [|l ls]; [done|].
      simpl in *. apply orb_true_iff in IH as [Hl|Hls].
      * by rewrite Hl, orb_true_r.
      * by rewrite Hls, orb_true_r.
Qed.

(** The scan of the CLI finds the text of the failed registration wherever
    it stands in the output. *)
Lemma device_limit_detected out :
  occurs_in "Device limit exceeded" out -> Cli.device_limit_exceeded out = true.
Proof.
  intros (before & after & ->). unfold Cli.device_limit_exceeded.
  assert (H : existsb (PyStr.contains "device limit exceeded")
                (PyStr.split_lines
                   (PyStr.lower (before ++ "Device limit exceeded" ++ after))) = true).
  { apply contains_some_line; [done|].
    rewrite !lower_app. apply contains_app. }
  rewrite split_lines_lower in H.
  rewrite existsb_exists in H. destruct H as (l & Hin & Hl).
  apply in_map_iff in Hin as (line & <- & Hin).
  apply existsb_exists. eauto.
Qed.

(** *** What is printed stays printed *)

Section grows.
Import Installer.

Lemma grows_ret {A} (a : A) : grows (mret a).
Proof. by intros w. Qed.

Lemma grows_call {A} (o : result A) : grows (call o).
Proof. by intros w. Qed.

Lemma grows_raise {A} r : grows (raise (A := A) r).
Proof. by intros w. Qed.

Lemma grows_gets {A} (f : world -> A) : grows (gets f).
Proof. by intros w. Qed.

Lemma grows_read {A} (f : world -> result A) : grows (fun w => (f w, w)).
Proof. by intros w. Qed.

Lemma grows_modify (f : world -> world) :
  (forall w, stdout (f w) = stdout w) -> grows (modify f).
Proof. intros H w. simpl. by rewrite H. Qed.

Lemma grows_print line : grows (print line).
Proof. intros w. simpl. by apply prefix_app_r. Qed.

Lemma grows_bind {A B} (m : M world A) (f : A -> M world B) :
  grows m -> (forall a, grows (f a)) -> grows (m ≫= f).
Proof.
  intros Hm Hf w. specialize (Hm w). munfold.
  destruct (m w) as [[a|r] w1]; simpl in *; [|done].
  etrans; [exact Hm|apply Hf].
Qed.

Lemma grows_try_except {A} (body : M world A) handler :
  grows body -> (forall r h, handler r = Some h -> grows h) ->
  grows (try_except body handler).
Proof.
  intros Hb Hh w. specialize (Hb w). munfold.
  destruct (body w) as [[a|r] w1]; simpl in *; [done|].
  destruct (handler r) as [h|] eqn:E; [|done].
  etrans; [exact Hb|by apply (Hh r h)].
Qed.

Lemma grows_try_finally {A} (body : M world A) fin :
  grows body -> grows fin -> grows (try_finally body fin).
Proof.
  intros Hb Hf w. specialize (Hb w). specialize (Hf (snd (body w))). munfold.
  destruct (body w) as [r w1]; simpl in *.
  destruct (fin w1) as [[[]|e] w2]; simpl in *; by etrans.
Qed.

Lemma grows_for_each {A} (l : list A) body :
  (forall x, grows (body x)) -> grows (for_each l body).
Proof.
  intros Hb. induction l as [|x l IH]; simpl; [apply grows_ret|].
  apply grows_bind; [apply Hb|by intros _].
Qed.

(** After a first step that returns, the output of that step is a prefix of
    the final output. *)
Lemma grows_after {A B} (m : M world A) (f : A -> M world B) w a w1 :
  m w = (Ok a, w1) -> (forall a, grows (f a)) ->
  stdout w1 `prefix_of` stdout (snd ((m ≫= f) w)).
Proof. intros Hm Hf. munfold. rewrite Hm. apply Hf. Qed.

End grows.

(** Proves [grows] for code made of the operations of the monad, of
    [print], and of functions whose lemma is in the hint database. *)
Create HintDb grows.

Ltac grows_step :=
  first
    [ apply grows_ret | apply grows_call | apply grows_raise | apply grows_gets
    | apply grows_read | apply grows_print
    | apply grows_modify; intros; reflexivity
    | solve [auto with grows]
    | apply grows_bind; [|intros]
    | apply grows_try_except;
        [|let Hh := fresh in intros ? ? Hh; repeat case_match; simplify_eq]
    | apply grows_try_finally
    | apply grows_for_each; intros
    | case_match ].

Ltac grows_tac := repeat grows_step.

Lemma grows_subprocess_run cmd o : grows (Installer.subprocess_run cmd o).
Proof. unfold Installer.subprocess_run. grows_tac. Qed.

Lemma grows_run_checked cmd o : grows (Installer.run_checked cmd o).
Proof. unfold Installer.run_checked. grows_tac. Qed.

Lemma grows_rmtree root : grows (Installer.rmtree root).
Proof. unfold Installer.rmtree. grows_tac. Qed.

Lemma grows_save_installation_info data : grows (Installer._save_installation_info data).
Proof. unfold Installer._save_installation_info. grows_tac. Qed.

Lemma grows_sys_exit {A} code : grows (Installer.sys_exit (A := A) code).
Proof. unfold Installer.sys_exit. grows_tac. Qed.

#[local] Hint Resolve grows_subprocess_run grows_run_checked grows_rmtree
  grows_save_installation_info grows_sys_exit : grows.

Lemma grows_register_device now post : grows (Installer.register_device now post).
Proof. unfold Installer.register_device. grows_tac. Qed.

Lemma grows_ensure_uv_installed env py : grows (Installer.ensure_uv_installed env py).
Proof. unfold Installer.ensure_uv_installed. grows_tac. Qed.

Lemma grows_verify_package_import env py pkg :
  grows (Installer._verify_package_import env py pkg).
Proof. unfold Installer._verify_package_import. grows_tac. Qed.

Lemma grows_tar_extractall env path : grows (Installer.tar_extractall env path).
Proof. unfold Installer.tar_extractall. grows_tac. Qed.

#[local] Hint Resolve grows_register_device grows_ensure_uv_installed
  grows_verify_package_import grows_tar_extractall : grows.

Lemma grows_download_package m env py pkg :
  grows (Installer.download_package m env py pkg).
Proof.
  unfold Installer.download_package, Installer.download_package_with,
         Installer.download_flow.
  grows_tac.
Qed.

Lemma grows_list_available_packages get :
  grows (Installer.list_available_packages get).
Proof. unfold Installer.list_available_packages. grows_tac. Qed.

#[local] Hint Resolve grows_download_package grows_list_available_packages : grows.

Lemma grows_install_packages env py selected :
  grows (Installer.install_packages env py selected).
Proof.
  induction selected as [|pkg rest IH]; simpl; grows_tac.
Qed.

#[local] Hint Resolve grows_install_packages : grows.

(** *** The installer script goes on, the CLI reports the limit *)

Lemma register_device_429 now response info w :
  status_code response = 429%Z -> json response = Ok info ->
  Installer.register_device now (Ok response) w =
    (Ok (false, ("Device limit exceeded: "
                 ++ dict_get info "message" "Unknown error")%string), w).
Proof.
  intros Hst Hjson. unfold Installer.register_device. munfold.
  rewrite Hst. simpl. by rewrite Hjson.
Qed.

Lemma main_prints_device_limit env py w response info :
  Installer.skip_register env = false ->
  Installer.registration env = Ok response ->
  status_code response = 429%Z -> json response = Ok info ->
  exists before after,
    Installer.stdout (snd (Installer.main_from_registration env py w)) =
      Installer.stdout w ++ before
        ++ [(Installer.reg_failed (Installer.ui env) ++ ": "
             ++ "Device limit exceeded: "
             ++ dict_get info "message" "Unknown error")%string]
        ++ after.
Proof.
  intros Hskip Hreg Hst Hjson. unfold Installer.main_from_registration.
  rewrite Hskip, Hreg. cbn [negb].
  match goal with
  | |- context [@mbind _ _ _ _ ?f ?m w] =>
      assert (Hfirst : exists w1 before after, m w = (Ok tt, w1) /\
                Installer.stdout w1 = Installer.stdout w ++ before
                  ++ [(Installer.reg_failed (Installer.ui env) ++ ": "
                       ++ "Device limit exceeded: "
                       ++ dict_get info "message" "Unknown error")%string]
                  ++ after);
      [|destruct Hfirst as (w1 & before & after & Hm & Hout);
        assert (Hrest : forall a, grows (f a))
          by (intros; unfold Installer.main_after_registration; grows_tac);
        destruct (grows_after m f w tt w1 Hm Hrest) as [more Hmore]]
  end.
  - unfold Installer.print, Installer._save_installation_info. munfold.
    rewrite (register_device_429 _ _ info) by done. simpl.
    eexists _, [_], [_; _]. split; [done|]. simpl. rewrite <- !app_assoc. reflexivity.
  - rewrite Hmore, Hout.
    exists before, (after ++ more). by rewrite <- !app_assoc.
Qed.

(** After a registration that is answered with 429, [main] reports it and
    runs on with what follows the registration. *)
Lemma main_goes_on_after_device_limit env py w response info :
  Installer.skip_register env = false ->
  Installer.registration env = Ok response ->
  status_code response = 429%Z -> json response = Ok info ->
  Installer.main_from_registration env py w =
  Installer.main_after_registration env py
    (registration_failed env
       ("Device limit exceeded: " ++ dict_get info "message" "Unknown error")%string
       w).
Proof.
  intros Hskip Hreg Hst Hjson. unfold Installer.main_from_registration.
  rewrite Hskip, Hreg. cbn [negb].
  match goal with
  | |- @mbind _ _ _ _ ?f ?m w = _ ?w1 =>
      assert (Hfirst : m w = (Ok tt, w1));
      [|unfold mbind at 1, M_bind at 1; by rewrite Hfirst]
  end.
  unfold Installer.print, Installer._save_installation_info. munfold.
  rewrite (register_device_429 _ _ info) by done. simpl.
  unfold registration_failed, Installer.set_saved_info, Installer.set_stdout.
  simpl. f_equal. f_equal. by rewrite <- !app_assoc.
Qed.

Lemma run_vnstock_installer_device_limit self env w out rc :
  Cli.installer_exists env = true ->
  (Cli.is_colab self = true -> Cli.mkdir_config env = Ok tt) ->
  Cli.communicate env = Ok (out, rc) ->
  occurs_in "Device limit exceeded" out ->
  exists w', Cli.run_vnstock_installer self env w = (Ok false, w') /\
             removal_instruction self ∈ Cli.stdout w'.
Proof.
  intros Hex Hmk Hcomm Hdev. apply device_limit_detected in Hdev.
  assert (Hmk' : (if Cli.is_colab self then call (S := Cli.world) (Cli.mkdir_config env)
                  else mret tt) =
                 mret tt).
  { destruct (Cli.is_colab self); [by rewrite Hmk|done]. }
  unfold Cli.run_vnstock_installer. rewrite Hex, Hmk', Hcomm.
  unfold Cli.print_step, Cli.log, Cli.print. munfold. simpl. rewrite Hdev.
  unfold removal_instruction.
  destruct (Cli.is_vietnamese self); simpl; eexists; (split; [reflexivity|]);
    simpl;
    repeat first [ by apply elem_of_app; right; apply list_elem_of_singleton
                 | apply elem_of_app; left ].
Qed.

Lemma cli_exit_after_device_limit self env w out rc key :
  Cli.is_colab self = false ->
  Cli.detect_python_versions env = Ok true ->
  Cli.select_python_version env = Ok true ->
  Cli.select_venv_configuration env = Ok true ->
  fst (Cli.create_virtual_environment self (Cli.venv env) w) = Ok true ->
  Cli.install_dependencies env = Ok true ->
  Cli.install_critical_dependencies env = Ok true ->
  Cli.get_api_key env = Ok key ->
  Cli.installer_exists env = true ->
  Cli.communicate env = Ok (out, rc) ->
  occurs_in "Device limit exceeded" out ->
  fst (Cli.main self env w) = Raise (SystemExit 1) /\
  removal_instruction self ∈ Cli.stdout (snd (Cli.main self env w)).
Proof.
  intros Hcolab Hd Hs Hc Hv Hdep Hcrit Hkey Hex Hcomm Hocc.
  unfold Cli.main, Cli.run, Cli.sys_exit. rewrite Hcolab, Hd, Hs, Hc, Hdep, Hcrit, Hkey.
  munfold. simpl.
  destruct (Cli.create_virtual_environment self (Cli.venv env) w) as [r w1].
  simpl in Hv. subst r. simpl.
  destruct (run_vnstock_installer_device_limit self env w1 out rc Hex
              ltac:(by rewrite Hcolab) Hcomm Hocc) as (w' & Hrun & Hin).
  rewrite Hrun. simpl. done.
Qed.
(** The registration is answered with 429 and the message of the service;
    the package list and the download are served: the installer script
    installs vnstock_data after the failed registration and ends with
    status 0. *)
Lemma registration_429_installs_go_on :
  let ok := {| returncode := 0; proc_stdout := "OK"; proc_stderr := "" |} in
  let m := {| Installer.sys_executable := "/usr/bin/python3";
              Installer.home := "/home/user"; Installer.on_windows := false;
              Installer.path_exists := fun _ => false |} in
  let dl := {| Installer.post_download :=
                 Ok {| status_code := 200;
                       json := Ok [("downloadUrl", "https://vnstocks.com/dl/1")];
                       text := "" |};
               Installer.get_archive := fun _ =>
                 Ok {| status_code := 200; json := Raise (Exc OtherException "");
                       text := "" |};
               Installer.named_temporary_file := Ok "/tmp/tmpa1.tar.gz";
               Installer.write_archive := Ok tt;
               Installer.mkdtemp := Ok "/tmp/vnstock_data_x1";
               Installer.extractall :=
                 Ok [Installer.Dir "vnstock_data-1.0" [Installer.File "setup.py"]];
               Installer.extracted_before_failure := [];
               Installer.pip_install := Ok ok;
               Installer.import_check := Ok ok;
               Installer.unlink := Ok tt |} in
  let env := {| Installer.host := m;
                Installer.python_version := "3.12";
                Installer.platform_system := "Linux";
                Installer.platform_release := "6.1";
                Installer.log_file_path := "/home/user/.vnstock/vnstock_installer.log";
                Installer.now := "2026-01-01T00:00:00";
                Installer.ui := Installer.ui_en;
                Installer.gui_mode := false;
                Installer.venv_type := "system";
                Installer.venv_path := None;
                Installer.venv := {| Installer.venv_exists := true;
                                     Installer.uv_venv := Ok ok;
                                     Installer.venv_python_exists := true |};
                Installer.api_key_variable := "key";
                Installer.api_key_input := Ok "key";
                Installer.critical :=
                  {| Installer.import_vnai_vnii := Ok tt;
                     Installer.critical_uv :=
                       {| Installer.uv_version := Ok ok;
                          Installer.pip_install_uv := Ok ok |};
                     Installer.critical_install := Ok ok;
                     Installer.import_after_install := Ok tt;
                     Installer.import_second_attempt := Ok tt |};
                Installer.license_manager := Ok "device-1";
                Installer.skip_register := false;
                Installer.registration :=
                  Ok {| status_code := 429;
                        json := Ok [("message", "limit of 2 devices reached")];
                        text := "" |};
                Installer.import_vnstock := Ok tt;
                Installer.uv := {| Installer.uv_version := Ok ok;
                                   Installer.pip_install_uv := Ok ok |};
                Installer.core_install := Ok ok;
                Installer.reregistration := Raise (Exc RequestException "");
                Installer.packages_list :=
                  Ok {| Installer.list_status := 200;
                        Installer.list_json :=
                          Ok {| Installer.body_success := true;
                                Installer.body_accessible :=
                                  [{| Installer.acc_name := "vnstock_data";
                                      Installer.acc_displayName := None;
                                      Installer.acc_description := None;
                                      Installer.acc_version := None |}];
                                Installer.body_packages := [];
                                Installer.body_error := None |} |};
                Installer.download := fun _ => dl;
                Installer.summary := fun _ => [] |} in
  let w := {| Installer.stdout := []; Installer.commands := [];
              Installer.tmp_files := ∅; Installer.tmp_dirs := ∅;
              Installer.site_packages := []; Installer.saved_info := [] |} in
  fst (Installer.register_device (Installer.now env) (Installer.registration env) w)
    = Ok (false, "Device limit exceeded: limit of 2 devices reached") /\
  fst (Installer.script env w) = Ok tt /\
  exit_status (fst (Installer.script env w)) = 0%Z /\
  Installer.site_packages (snd (Installer.script env w)) = ["vnstock_data"] /\
  Installer.commands (snd (Installer.script env w)) =
    [["uv"; "pip"; "install"; "--python"; "/usr/bin/python3"; "-q";
      "/tmp/vnstock_data_x1/vnstock_data-1.0"];
     ["/usr/bin/python3"; "-c";
      ("import vnstock_data; print(" ++ Installer.double_quote ++ "OK"
         ++ Installer.double_quote ++ ")")%string]].
Proof. vm_compute. done. Qed.

(** C1, amended. When the registration is answered with status 429 and a
    JSON object, [register_device] returns False with the message "Device
    limit exceeded: " followed by the message of the service, and changes
    nothing. The installer script does not stop there: [main] prints its
    text for a failed registration with this message and two notes, calls
    [_save_installation_info] with the failure, and runs on from that state
    with all that follows the registration (the check of the vnstock core,
    the list of the packages, their download and installation); the line
    with the message stays in the output. The exit with a status that is
    not zero and the instruction to remove devices come from the CLI:
    [run_vnstock_installer], when the installer script exists (and, on
    Colab, the directory of its configuration could be made) and the script
    has ended within the time limit with an output that holds the text
    "Device limit exceeded", prints the instruction and returns False; a
    run of the CLI outside Colab whose earlier steps all succeeded then
    ends with status 1. *)
Theorem device_limit_is_reported :
  (forall now response info w,
     status_code response = 429%Z -> json response = Ok info ->
     Installer.register_device now (Ok response) w =
       (Ok (false, ("Device limit exceeded: "
                    ++ dict_get info "message" "Unknown error")%string), w)) /\
  (forall env py w response info,
     Installer.skip_register env = false ->
     Installer.registration env = Ok response ->
     status_code response = 429%Z -> json response = Ok info ->
     Installer.main_from_registration env py w =
     Installer.main_after_registration env py
       (registration_failed env
          ("Device limit exceeded: "
           ++ dict_get info "message" "Unknown error")%string w)) /\
  (forall env py w response info,
     Installer.skip_register env = false ->
     Installer.registration env = Ok response ->
     status_code response = 429%Z -> json response = Ok info ->
     exists before after,
       Installer.stdout (snd (Installer.main_from_registration env py w)) =
         Installer.stdout w ++ before
           ++ [(Installer.reg_failed (Installer.ui env) ++ ": "
                ++ "Device limit exceeded: "
                ++ dict_get info "message" "Unknown error")%string]
           ++ after) /\
  (forall self env w out rc,
     Cli.installer_exists env = true ->
     (Cli.is_colab self = true -> Cli.mkdir_config env = Ok tt) ->
     Cli.communicate env = Ok (out, rc) ->
     occurs_in "Device limit exceeded" out ->
     exists w', Cli.run_vnstock_installer self env w = (Ok false, w') /\
                removal_instruction self ∈ Cli.stdout w') /\
  (forall self env w out rc key,
     Cli.is_colab self = false ->
     Cli.detect_python_versions env = Ok true ->
     Cli.select_python_version env = Ok true ->
     Cli.select_venv_configuration env = Ok true ->
     fst (Cli.create_virtual_environment self (Cli.venv env) w) = Ok true ->
     Cli.install_dependencies env = Ok true ->
     Cli.install_critical_dependencies env = Ok true ->
     Cli.get_api_key env = Ok key ->
     Cli.installer_exists env = true ->
     Cli.communicate env = Ok (out, rc) ->
     occurs_in "Device limit exceeded" out ->
     exit_status (fst (Cli.main self env w)) = 1%Z /\
     removal_instruction self ∈ Cli.stdout (snd (Cli.main self env w))).
Proof.
  split; [exact register_device_429|].
  split; [exact main_goes_on_after_device_limit|].
  split; [exact main_prints_device_limit|].
  split; [exact run_vnstock_installer_device_limit|].
  intros self env w out rc key Hcolab Hd Hs Hc Hv Hdep Hcrit Hkey Hex Hcomm Hocc.
  destruct (cli_exit_after_device_limit self env w out rc key)
    as [Hexit Hin]; try done.
  by rewrite Hexit.
Qed.

(** The answer of the scenario: 429 with the message of the service. *)
Lemma device_limit_is_reported_witness :
  let response := {| status_code := 429;
                     json := Ok [("message", "limit of 2 devices reached")];
                     text := "" |} in
  let w := {| Installer.stdout := []; Installer.commands := [];
              Installer.tmp_files := ∅; Installer.tmp_dirs := ∅;
              Installer.site_packages := []; Installer.saved_info := [] |} in
  Installer.register_device "2026-01-01T00:00:00" (Ok response) w =
    (Ok (false, "Device limit exceeded: limit of 2 devices reached"), w).
Proof.
  intros response w.
  apply (proj1 device_limit_is_reported "2026-01-01T00:00:00" response
           [("message", "limit of 2 devices reached")] w); reflexivity.
Defined.

(* ===================================================================== *)
(** ** C10: what [sanitize_log_data] returns *)
(* ===================================================================== *)

Lemma dict_set_middle k v d1 x d2 :
  k ∉ (fst <$> d1) ->
  Installer.dict_set k v (d1 ++ (k, x) :: d2) = d1 ++ (k, v) :: d2.
Proof.
  induction d1 as [|[k' x'] d1 IH]; simpl; intros Hk.
  - by rewrite String.eqb_refl.
  - apply not_elem_of_cons in Hk as [Hne Hk].
    destruct (String.eqb_spec k' k) as [->|_]; [done|].
    by rewrite IH.
Qed.

Lemma dict_lookup_middle k d1 x d2 :
  k ∉ (fst <$> d1) ->
  Installer.dict_lookup k (d1 ++ (k, x) :: d2) = Some x.
Proof.
  induction d1 as [|[k' x'] d1 IH]; simpl; intros Hk.
  - by rewrite String.eqb_refl.
  - apply not_elem_of_cons in Hk as [Hne Hk].
    destruct (String.eqb_spec k' k) as [->|_]; [done|].
    by apply IH.
Qed.

Lemma insert_middle {A} (l1 l2 : list A) x y :
  <[length l1 := y]> (l1 ++ x :: l2) = l1 ++ y :: l2.
Proof. induction l1; simpl; [done|]. by f_equal. Qed.

Lemma setitem_middle l1 d1 k x d2 more v :
  k ∉ (fst <$> d1) ->
  Installer.setitem (l1 ++ Installer.ODict (d1 ++ (k, x) :: d2) :: more)
                    (length l1) k v
  = l1 ++ Installer.ODict (d1 ++ (k, v) :: d2) :: more.
Proof.
  intros Hk. unfold Installer.setitem, Installer.heap.
  rewrite list_lookup_middle by done.
  by rewrite insert_middle, dict_set_middle.
Qed.

Lemma getitem_middle l1 d1 k x d2 more :
  k ∉ (fst <$> d1) ->
  Installer.getitem (l1 ++ Installer.ODict (d1 ++ (k, x) :: d2) :: more)
                    (length l1) k = Some x.
Proof.
  intros Hk. unfold Installer.getitem, Installer.heap.
  rewrite list_lookup_middle by done.
  by apply dict_lookup_middle.
Qed.

Lemma keeps_app h ext : keeps h (h ++ ext).
Proof. intros a Ha. by apply lookup_app_l. Qed.

Lemma keeps_lookup h h' a o : keeps h h' -> h !! a = Some o -> h' !! a = Some o.
Proof.
  intros Hk Ha. rewrite Hk; [done|]. by eapply lookup_lt_Some.
Qed.

Lemma holds_from_behind h new : holds_from (length h) new (h ++ new).
Proof.
  unfold holds_from, Installer.heap. intros i o Hi.
  by rewrite lookup_app_r, Nat.add_comm, Nat.add_sub by lia.
Qed.

Lemma holds_from_app start new more h' :
  holds_from start (new ++ more) h' ->
  holds_from start new h' /\ holds_from (start + length new) more h'.
Proof.
  unfold holds_from, Installer.heap. intros H. split.
  - intros i o Hi. apply H. by apply lookup_app_l_Some.
  - intros i o Hi. rewrite <- Nat.add_assoc. apply H.
    by rewrite lookup_app_r, Nat.add_comm, Nat.add_sub by lia.
Qed.

Lemma holds_from_cons start o new h' :
  holds_from start (o :: new) h' ->
  h' !! start = Some o /\ holds_from (S start) new h'.
Proof.
  intros H. split.
  - rewrite <- (Nat.add_0_r start). by apply H.
  - intros i o' Hi. replace (S start + i) with (start + S i) by lia.
    by apply H.
Qed.

(** A tree read in a heap is read in every heap that keeps its objects. *)
Lemma denote_keeps n : forall h h' v t,
  keeps h h' ->
  Installer.denote n h v = Some t -> Installer.denote n h' v = Some t.
Proof.
  induction n as [|n IH]; intros h h' v t Hk; destruct v; simpl; try done.
  destruct (h !! address) as [o|] eqn:Ho; [|done].
  rewrite (keeps_lookup _ _ _ _ Hk Ho).
  destruct o as [items|elements]; intros Ht;
    apply fmap_Some in Ht as (l & Hl & ->); apply fmap_Some; exists l;
    (split; [|done]); apply mapM_Some; apply mapM_Some in Hl;
    (eapply Forall2_impl; [exact Hl|]); simpl; intros x y Hx.
  - apply fmap_Some in Hx as (tv & Hv & ->). apply fmap_Some.
    exists tv. split; [|done]. by eapply IH.
  - by eapply IH.
Qed.

(** What a reference stands for follows the object it refers to. *)
Lemma denote_ref n h d t :
  Installer.denote n h (Installer.VRef d) = Some t ->
  exists o, h !! d = Some o /\
    match o with
    | Installer.ODict _ => exists l, t = Installer.TDict l
    | Installer.OList _ => exists l, t = Installer.TList l
    end.
Proof.
  destruct n as [|n]; simpl; [done|].
  destruct (h !! d) as [o|]; [|done]. intros Ht. exists o. split; [done|].
  destruct o; apply fmap_Some in Ht as (l & _ & ->); eauto.
Qed.

Lemma denote_str n h s :
  Installer.denote n h (Installer.VStr s) = Some (Installer.TStr s).
Proof. by destruct n. Qed.

Section sanitize.

(** What stands for [str.lower]: nothing is assumed about it. *)
Variable str_lower : string -> string.

(** A value that is no dictionary stays under a key that is not sensitive. *)
Lemma entry_tree_stays n h v t k :
  Installer.denote n h v = Some t ->
  match v with
  | Installer.VRef d => exists l, h !! d = Some (Installer.OList l)
  | _ => True
  end ->
  Installer.sensitive str_lower k = false ->
  entry_tree str_lower k t = t.
Proof.
  unfold entry_tree. intros Hv Hshape ->.
  destruct v; try (destruct n; simpl in Hv; by simplify_eq).
  destruct Hshape as (l & Hl).
  destruct (denote_ref _ _ _ _ Hv) as (o & Ho & Ht).
  rewrite Hl in Ho. injection Ho as <-. by destruct Ht as (? & ->).
Qed.

Lemma sanitized_tree_dict items :
  Installer.sanitized_tree str_lower (Installer.TDict items)
  = Installer.TDict ((fun kt => (fst kt, entry_tree str_lower (fst kt) (snd kt))) <$> items).
Proof.
  simpl. f_equal. apply list_fmap_ext. by intros i [k tv] _.
Qed.

Section sanitize_loop.

Variable n : nat.
Variable h0 : Installer.heap.

(** The recursive calls do what the function is to do. *)
Hypothesis recursive_calls : forall ext data t,
  Installer.denote n h0 (Installer.VRef data) = Some t ->
  (exists items, h0 !! data = Some (Installer.ODict items)) ->
  exists new,
    Installer.sanitize_log_data str_lower n (h0 ++ ext) data
    = Some (length (h0 ++ ext), h0 ++ ext ++ new) /\
    forall h', keeps h0 h' -> holds_from (length (h0 ++ ext)) new h' ->
      Installer.denote n h' (Installer.VRef (length (h0 ++ ext)))
      = Some (Installer.sanitized_tree str_lower t).

(** The loop over the keys, from a dictionary whose first entries [done]
    are sanitized already: the copy alone is changed, where it stands, and
    the results of the recursive calls are put behind it. *)
Lemma sanitize_loop ext : forall todo ttodo done more,
  Forall2 (entry_denotes n h0) todo ttodo ->
  NoDup (fst <$> (done ++ todo)) ->
  exists new more',
    Installer.for_keys
      (Installer.sanitize_key str_lower (Installer.sanitize_log_data str_lower n) (length (h0 ++ ext)))
      (fst <$> todo)
      ((h0 ++ ext) ++ Installer.ODict (done ++ todo) :: more)
    = Some ((h0 ++ ext) ++ Installer.ODict (done ++ new) :: more ++ more') /\
    Forall2 (fun kv kt =>
               fst kv = fst kt /\
               forall h', keeps h0 h' ->
                 holds_from (S (length (h0 ++ ext))) (more ++ more') h' ->
                 Installer.denote n h' (snd kv)
                 = Some (entry_tree str_lower (fst kt) (snd kt)))
            new ttodo.
Proof.
  induction todo as [|[k v] rest IH]; intros ttodo done more Hden Hnodup.
  { apply Forall2_nil_inv_l in Hden as ->. exists [], []. simpl.
    rewrite !app_nil_r. split; [done|constructor]. }
  apply Forall2_cons_inv_l in Hden as ([k' tv] & trest & Hkv & Hrest & ->).
  unfold entry_denotes in Hkv. simpl in Hkv.
  apply fmap_Some in Hkv as (tv' & Hv & [= -> ->]).
  rewrite fmap_app in Hnodup.
  assert (forall x, NoDup (fst <$> ((done ++ [(k, x)]) ++ rest))) as Hnodup'.
  { intros x. rewrite <- app_assoc, fmap_app. exact Hnodup. }
  assert (k ∉ (fst <$> done)) as Hk.
  { apply NoDup_app in Hnodup as (_ & Hnot & _).
    intros Hin. apply (Hnot _ Hin). simpl. left. }
  (* the rest of the loop, once the entry of [k] is settled as [x] *)
  assert (forall x more1,
    (forall h', keeps h0 h' ->
       holds_from (S (length (h0 ++ ext))) (more ++ more1) h' ->
       Installer.denote n h' x = Some (entry_tree str_lower k tv')) ->
    Installer.sanitize_key str_lower (Installer.sanitize_log_data str_lower n) (length (h0 ++ ext)) k
      ((h0 ++ ext) ++ Installer.ODict (done ++ (k, v) :: rest) :: more)
    = Some ((h0 ++ ext) ++ Installer.ODict (done ++ (k, x) :: rest)
              :: more ++ more1) ->
    exists new more',
      Installer.for_keys
        (Installer.sanitize_key str_lower (Installer.sanitize_log_data str_lower n) (length (h0 ++ ext)))
        (fst <$> (k, v) :: rest)
        ((h0 ++ ext) ++ Installer.ODict (done ++ (k, v) :: rest) :: more)
      = Some ((h0 ++ ext) ++ Installer.ODict (done ++ new) :: more ++ more') /\
      Forall2 (fun kv kt =>
                 fst kv = fst kt /\
                 forall h', keeps h0 h' ->
                   holds_from (S (length (h0 ++ ext))) (more ++ more') h' ->
                   Installer.denote n h' (snd kv)
                   = Some (entry_tree str_lower (fst kt) (snd kt)))
              new ((k, tv') :: trest)) as Hstep.
  { intros x more1 Hx Hkey.
    destruct (IH trest (done ++ [(k, x)]) (more ++ more1) Hrest (Hnodup' x))
      as (new & more2 & Hloop & Hnew).
    exists ((k, x) :: new), (more1 ++ more2). split.
    - simpl. rewrite Hkey. simpl.
      rewrite <- (app_assoc done [(k, x)] rest) in Hloop.
      rewrite <- (app_assoc done [(k, x)] new) in Hloop.
      rewrite <- (app_assoc more more1 more2) in Hloop.
      exact Hloop.
    - rewrite (app_assoc more more1 more2). constructor; [|done].
      split; [done|]. simpl. intros h' Hkeep Hhold.
      apply Hx; [done|]. by apply holds_from_app in Hhold as [? _]. }
  unfold Installer.sanitize_key in Hstep.
  destruct (Installer.sensitive str_lower k) eqn:Hsens.
  { (* a sensitive key: the value is redacted *)
    apply (Hstep (Installer.VStr Installer.REDACTED) []).
    - intros h' _ _. unfold entry_tree. by rewrite Hsens, denote_str.
    - by rewrite setitem_middle, app_nil_r. }
  rewrite getitem_middle in Hstep by done.
  assert (forall h', keeps h0 h' ->
            Installer.denote n h' v = Some tv') as Hsame.
  { intros h' Hkeep. by eapply denote_keeps. }
  destruct v as [| | | |d];
    try (eapply (Hstep _ []); [|by rewrite app_nil_r];
         intros h' Hkeep _; rewrite (Hsame h' Hkeep);
         by rewrite (entry_tree_stays _ _ _ _ _ Hv)).
  destruct (denote_ref _ _ _ _ Hv) as (o & Ho & Hshape).
  assert (((h0 ++ ext) ++ Installer.ODict (done ++ (k, Installer.VRef d) :: rest)
             :: more) !! d = Some o) as Ho'.
  { rewrite <- app_assoc. exact (keeps_lookup _ _ _ _ (keeps_app h0 _) Ho). }
  unfold Installer.heap in Hstep. simpl in Hstep. rewrite Ho' in Hstep.
  destruct o as [items|elements].
  - (* a dictionary: it is sanitized in turn, the result replaces it *)
    destruct (recursive_calls
                (ext ++ Installer.ODict (done ++ (k, Installer.VRef d) :: rest) :: more)
                d tv' Hv) as (new & Hcall & Hnew); [by eauto|].
    rewrite (app_assoc h0 ext) in Hcall.
    assert (h0 ++ (ext ++ Installer.ODict (done ++ (k, Installer.VRef d) :: rest)
                     :: more) ++ new
            = (h0 ++ ext) ++ Installer.ODict (done ++ (k, Installer.VRef d) :: rest)
                :: more ++ new) as Hshift.
    { by rewrite <- !app_assoc. }
    rewrite Hshift in Hcall.
    eapply (Hstep _ new).
    + intros h' Hkeep Hhold. destruct Hshape as (l & ->).
      unfold entry_tree. rewrite Hsens.
      apply Hnew; [done|].
      apply holds_from_app in Hhold as [_ Hhold].
      rewrite (app_assoc h0 ext), length_app. simpl.
      by rewrite Nat.add_succ_r.
    + rewrite Hcall. simpl. rewrite setitem_middle by done.
      by rewrite <- !app_assoc.
  - (* a list stays as it is *)
    eapply (Hstep _ []); [|by rewrite app_nil_r].
    intros h' Hkeep _. rewrite (Hsame h' Hkeep).
    rewrite (entry_tree_stays _ _ _ _ _ Hv); by eauto.
Qed.

End sanitize_loop.

(** The call at any depth: the old objects stay, the result is a new
    dictionary behind them, and it reads as the sanitized tree in every
    heap that keeps the old objects and holds the new ones. *)
Lemma sanitize_log_data_frame n : forall h0,
  keys_unique h0 ->
  forall ext data t,
  Installer.denote n h0 (Installer.VRef data) = Some t ->
  (exists items, h0 !! data = Some (Installer.ODict items)) ->
  exists new,
    Installer.sanitize_log_data str_lower n (h0 ++ ext) data
    = Some (length (h0 ++ ext), h0 ++ ext ++ new) /\
    forall h', keeps h0 h' -> holds_from (length (h0 ++ ext)) new h' ->
      Installer.denote n h' (Installer.VRef (length (h0 ++ ext)))
      = Some (Installer.sanitized_tree str_lower t).
Proof.
  induction n as [|n IH]; intros h0 Hunique ext data t Ht (items & Hdata);
    simpl in Ht; [done|].
  rewrite Hdata in Ht.
  apply fmap_Some in Ht as (titems & Hitems & ->).
  apply mapM_Some in Hitems.
  assert (NoDup (fst <$> ([] ++ items))) as Hnodup.
  { unfold keys_unique in Hunique. rewrite Forall_lookup in Hunique.
    exact (Hunique _ _ Hdata). }
  destruct (sanitize_loop n h0 (IH h0 Hunique) ext items titems [] []
              Hitems Hnodup) as (new & more & Hloop & Hnew).
  exists (Installer.ODict new :: more). split.
  - cbn [Installer.sanitize_log_data].
    pose proof (keeps_lookup _ _ _ _ (keeps_app h0 ext) Hdata) as Hdata'.
    unfold Installer.heap in *. rewrite Hdata'.
    simpl in Hloop. rewrite Hloop. simpl. by rewrite <- app_assoc.
  - intros h' Hkeep Hhold. apply holds_from_cons in Hhold as [Hnew' Hmore].
    rewrite sanitized_tree_dict. cbn [Installer.denote]. rewrite Hnew'.
    apply fmap_Some. eexists. split; [|done].
    apply mapM_Some. apply Forall2_fmap_r.
    eapply Forall2_impl; [exact Hnew|].
    intros [k v] [k' tv] [Hk Hv]. simpl in *. subst k'.
    by rewrite (Hv h' Hkeep Hmore).
Qed.

(** C10. [sanitize_log_data(data)], for a dictionary [data] that reads as
    the tree [t], and whatever [str.lower] does to the keys: the call
    returns a new dictionary that reads as the sanitized tree of [t] (the
    value of every key whose lowercased name contains a sensitive word is
    ['***REDACTED***'], a dictionary under another key is sanitized in turn,
    every other value stays, a list with the dictionaries in it included),
    every object that was there stays as it was, and [data] still reads as
    [t]. *)
Theorem sanitize_log_data_redacts fuel h data items t :
  keys_unique h ->
  h !! data = Some (Installer.ODict items) ->
  Installer.denote fuel h (Installer.VRef data) = Some t ->
  exists new,
    Installer.sanitize_log_data str_lower fuel h data = Some (length h, h ++ new) /\
    Installer.denote fuel (h ++ new) (Installer.VRef (length h))
    = Some (Installer.sanitized_tree str_lower t) /\
    Installer.denote fuel (h ++ new) (Installer.VRef data) = Some t.
Proof.
  intros Hunique Hdata Ht.
  destruct (sanitize_log_data_frame fuel h Hunique [] data t Ht)
    as (new & Hcall & Hnew); [by eauto|].
  rewrite app_nil_r in Hcall, Hnew. simpl in Hcall.
  exists new. split; [done|]. split.
  - apply Hnew; [apply keeps_app|apply holds_from_behind].
  - eapply denote_keeps; [apply keeps_app|done].
Qed.

End sanitize.

(** A payload with ASCII keys, on which the ASCII lower-casing is what
    [str.lower] does: a sensitive key at the top, one in mixed case in a
    nested dictionary, and one in a dictionary inside a list. *)
Lemma sanitize_log_data_redacts_witness :
  let h := [ Installer.ODict [ ("api_key", Installer.VStr "k-123");
                               ("machine_info", Installer.VRef 1);
                               ("devices", Installer.VRef 2);
                               ("attempts", Installer.VInt 3) ];
             Installer.ODict [ ("User_Password", Installer.VStr "hunter2");
                               ("os", Installer.VStr "linux") ];
             Installer.OList [ Installer.VRef 3 ];
             Installer.ODict [ ("token", Installer.VStr "t-456") ] ] in
  exists new,
    Installer.sanitize_log_data PyStr.lower 3 h 0 = Some (4, h ++ new) /\
    Installer.denote 3 (h ++ new) (Installer.VRef 4)
    = Some (Installer.TDict
              [ ("api_key", Installer.TStr "***REDACTED***");
                ("machine_info",
                 Installer.TDict
                   [ ("User_Password", Installer.TStr "***REDACTED***");
                     ("os", Installer.TStr "linux") ]);
                ("devices",
                 Installer.TList
                   [ Installer.TDict [ ("token", Installer.TStr "t-456") ] ]);
                ("attempts", Installer.TInt 3) ]) /\
    Installer.denote 3 (h ++ new) (Installer.VRef 0)
    = Some (Installer.TDict
              [ ("api_key", Installer.TStr "k-123");
                ("machine_info",
                 Installer.TDict
                   [ ("User_Password", Installer.TStr "hunter2");
                     ("os", Installer.TStr "linux") ]);
                ("devices",
                 Installer.TList
                   [ Installer.TDict [ ("token", Installer.TStr "t-456") ] ]);
                ("attempts", Installer.TInt 3) ]).
Proof.
  intros h.
  refine (sanitize_log_data_redacts PyStr.lower 3 h 0 _ _ _ eq_refl eq_refl).
  unfold keys_unique, h.
  repeat (apply Forall_cons; split); try apply Forall_nil; try exact I;
    apply (bool_decide_unpack _); vm_compute; exact I.
Defined.

(* ===================================================================== *)
(** * Further properties of the two scripts *)
(* ===================================================================== *)

(** ** The entitlement client *)


(** X2. [list_available_packages] never raises an [Exception] and changes
    nothing. The flag it returns is True exactly when it returns a list, and
    that only for an answer with status 200 whose body is JSON; the
    packages made from the entries the service calls accessible are all
    marked available and keep the names and the order of the entries. *)
Theorem list_available_packages_outcome get w :
  match Installer.list_available_packages get w with
  | (Ok (true, inl packages), w') =>
      w' = w /\
      exists response data,
        get = Ok response /\ Installer.list_status response = 200%Z /\
        Installer.list_json response = Ok data /\
        (Installer.body_success data = true ->
         Installer.name <$> packages
           = Installer.acc_name <$> Installer.body_accessible data /\
         Forall (fun pkg => Installer.available pkg = true) packages) /\
        (Installer.body_success data = false ->
         packages = Installer.body_packages data)
  | (Ok (false, inr error), w') => w' = w
  | (Ok (true, inr _), _) | (Ok (false, inl _), _) => False
  | (Raise r, w') => is_Exception r = false /\ w' = w
  end.
Proof.
  unfold Installer.list_available_packages. munfold.
  destruct get as [response|[c e| |code]]; simpl; [|done..].
  destruct (Installer.list_status response =? 200)%Z eqn:Hst; simpl.
  - apply Z.eqb_eq in Hst.
    destruct (Installer.list_json response) as [data|[c e| |code]] eqn:Hjson;
      simpl; [|done..].
    destruct (Installer.body_success data) eqn:Hsucc; simpl.
    + split; [done|]. exists response, data.
      split; [done|]. split; [done|]. split; [done|]. split; [|congruence].
      intros _. split.
      * rewrite <- list_fmap_compose. by apply list_fmap_ext.
      * apply Forall_fmap. by apply Forall_true.
    + split; [done|]. exists response, data.
      split; [done|]. split; [done|]. split; [done|]. split; [congruence|done].
  - destruct (Installer.list_json response) as [data|[c e| |code]]; by simpl.
Qed.

(** X3. [verify_license] never raises an [Exception] and changes nothing;
    a license counts as valid only for an answer with status 200 whose body
    is JSON. *)
Theorem verify_license_outcome post pkg w :
  match Installer.verify_license post pkg w with
  | (Ok (true, msg), w') =>
      w' = w /\
      exists response data,
        post = Ok response /\ status_code response = 200%Z /\
        json response = Ok data /\
        msg = ("License valid until " ++ dict_get data "cacheUntil" "unknown")%string
  | (Ok (false, msg), w') => w' = w
  | (Raise r, w') => is_Exception r = false /\ w' = w
  end.
Proof.
  unfold Installer.verify_license. munfold.
  destruct post as [response|[c e| |code]]; simpl; [|done..].
  destruct (status_code response =? 200)%Z eqn:Hst; simpl.
  - apply Z.eqb_eq in Hst.
    destruct (json response) as [data|[c e| |code]] eqn:Hjson; simpl; [|done..].
    split; [done|]. by exists response, data.
  - destruct (json response) as [data|[c e| |code]]; by simpl.
Qed.

(** ** The package manager's command *)

(** X4. [get_uv_command] returns a path that exists or the bare name
    [uv], and the place where the standalone installer puts the tool wins
    over the others whenever it exists. *)
Theorem get_uv_command_found m :
  (Installer.path_exists m (Installer.get_uv_command m) = true \/
   Installer.get_uv_command m = "uv") /\
  (Installer.path_exists m
     (Installer.os_path_join m
        (Installer.os_path_join m
           (Installer.os_path_join m (Installer.home m) ".local") "bin")
        "uv") = true ->
   Installer.get_uv_command m =
     Installer.os_path_join m
       (Installer.os_path_join m
          (Installer.os_path_join m (Installer.home m) ".local") "bin")
       "uv").
Proof.
  unfold Installer.get_uv_command. split.
  - destruct (List.find _ _) as [path|] eqn:Hfind; [|by right].
    left. by apply List.find_some in Hfind as [_ ?].
  - intros H. cbn [List.find]. by rewrite H.
Qed.

Lemma get_uv_command_found_witness :
  let m := {| Installer.sys_executable := "/usr/bin/python3";
              Installer.home := "/home/user"; Installer.on_windows := false;
              Installer.path_exists := fun p => String.eqb p "/home/user/.local/bin/uv" |} in
  Installer.get_uv_command m = "/home/user/.local/bin/uv".
Proof.
  intros m. apply (proj2 (get_uv_command_found m)). reflexivity.
Defined.

(** ** Relations that the steps of the installer respect *)

Section respects.
Import Installer.
Context (R : relation world) `{!PreOrder R}.

Lemma respects_ret {A} (a : A) : respects R (mret a).
Proof. by intros w. Qed.

Lemma respects_call {A} (o : result A) : respects R (call o).
Proof. by intros w. Qed.

Lemma respects_raise {A} r : respects R (raise (A := A) r).
Proof. by intros w. Qed.

Lemma respects_gets {A} (f : world -> A) : respects R (gets f).
Proof. by intros w. Qed.

Lemma respects_read {A} (f : world -> result A) : respects R (fun w => (f w, w)).
Proof. by intros w. Qed.

Lemma respects_modify (f : world -> world) :
  (forall w, R w (f w)) -> respects R (modify f).
Proof. intros H w. apply H. Qed.

Lemma respects_bind {A B} (m : M world A) (f : A -> M world B) :
  respects R m -> (forall a, respects R (f a)) -> respects R (m ≫= f).
Proof.
  intros Hm Hf w. specialize (Hm w). munfold.
  destruct (m w) as [[a|r] w1]; simpl in *; [|done].
  etrans; [exact Hm|apply Hf].
Qed.

(** What is bound to the outcome of an external call is that outcome. *)
Lemma respects_call_bind {A B} (o : result A) (f : A -> M world B) :
  (forall a, o = Ok a -> respects R (f a)) -> respects R (call o ≫= f).
Proof.
  intros Hf w. munfold. destruct o as [a|r]; simpl; [|done]. by apply Hf.
Qed.

Lemma respects_try_except {A} (body : M world A) handler :
  respects R body -> (forall r h, handler r = Some h -> respects R h) ->
  respects R (try_except body handler).
Proof.
  intros Hb Hh w. specialize (Hb w). munfold.
  destruct (body w) as [[a|r] w1]; simpl in *; [done|].
  destruct (handler r) as [h|] eqn:E; [|done].
  etrans; [exact Hb|by apply (Hh r h)].
Qed.

Lemma respects_try_finally {A} (body : M world A) fin :
  respects R body -> respects R fin -> respects R (try_finally body fin).
Proof.
  intros Hb Hf w. specialize (Hb w). specialize (Hf (snd (body w))). munfold.
  destruct (body w) as [r w1]; simpl in *.
  destruct (fin w1) as [[[]|e] w2]; simpl in *; by etrans.
Qed.

Lemma respects_for_each {A} (l : list A) body :
  (forall x, respects R (body x)) -> respects R (for_each l body).
Proof.
  intros Hb. induction l as [|x l IH]; simpl; [apply respects_ret|].
  apply respects_bind; [apply Hb|by intros _].
Qed.

End respects.

Local Instance same_tmp_files_preorder : PreOrder same_tmp_files.
Proof.
  split; [by intros w; unfold same_tmp_files|]. intros w1 w2 w3 H12 H23.
  unfold same_tmp_files in *. congruence.
Qed.

Local Instance no_new_tmp_files_preorder : PreOrder no_new_tmp_files.
Proof.
  split; [by intros w; unfold no_new_tmp_files|]. intros w1 w2 w3 H12 H23.
  unfold no_new_tmp_files in *. set_solver.
Qed.

(** Proves [respects] for code made of the operations of the monad and of
    functions whose lemma is in the hint database. *)
Create HintDb respects.

(** What a change of the state has to show. *)
Ltac respects_side :=
  intros;
  first
    [ reflexivity
    | by unfold no_new_tmp_files ].

Ltac respects_step :=
  first
    [ apply respects_ret; apply _ | apply respects_call; apply _
    | apply respects_raise; apply _ | apply respects_gets; apply _
    | apply respects_read; apply _
    | solve [auto with respects]
    | apply respects_modify; solve [respects_side]
    | apply respects_call_bind; [apply _|intros]
    | apply respects_bind; [apply _| |intros]
    | apply respects_try_except;
        [apply _| |let Hh := fresh in intros ? ? Hh; repeat case_match; simplify_eq]
    | apply respects_try_finally; [apply _| |]
    | apply respects_for_each; [apply _|intros]
    | case_match ].

Ltac respects_tac := repeat respects_step.

Lemma same_tmp_files_no_new {A} (m : M Installer.world A) :
  respects same_tmp_files m -> respects no_new_tmp_files m.
Proof. intros H w. unfold no_new_tmp_files. by rewrite (H w). Qed.

Lemma same_tmp_files_print line : respects same_tmp_files (Installer.print line).
Proof. unfold Installer.print. respects_tac. Qed.

Lemma same_tmp_files_subprocess_run cmd o :
  respects same_tmp_files (Installer.subprocess_run cmd o).
Proof. unfold Installer.subprocess_run. respects_tac. Qed.

Lemma same_tmp_files_rmtree root : respects same_tmp_files (Installer.rmtree root).
Proof. unfold Installer.rmtree. respects_tac. Qed.

#[local] Hint Resolve same_tmp_files_print same_tmp_files_subprocess_run
  same_tmp_files_rmtree : respects.

Lemma same_tmp_files_verify_package_import env py pkg :
  respects same_tmp_files (Installer._verify_package_import env py pkg).
Proof. unfold Installer._verify_package_import. respects_tac. Qed.

#[local] Hint Resolve same_tmp_files_verify_package_import : respects.

(** A file that is made and written before a block and removed in its
    [finally] is not there afterwards. *)
Lemma respects_guarded {A} (tar : string) (body : M Installer.world A) fin :
  respects same_tmp_files body ->
  (forall w, Installer.tmp_files (snd (fin w)) ⊆ Installer.tmp_files w ∖ {[tar]}) ->
  respects no_new_tmp_files
    (modify (Installer.set_tmp_files (fun fs => fs ∪ {[tar]})) ;;
     call (Ok tt) ;;
     try_finally body fin).
Proof.
  intros Hbody Hfin w. unfold no_new_tmp_files. munfold. simpl.
  match goal with
  | |- context [body ?w0] =>
      specialize (Hbody w0); specialize (Hfin (snd (body w0)));
      destruct (body w0) as [r w1]
  end.
  unfold same_tmp_files in Hbody. simpl in *.
  assert (Installer.tmp_files (snd (fin w1)) ⊆ Installer.tmp_files w) as Hsub.
  { intros x Hx. apply Hfin in Hx. rewrite Hbody in Hx.
    apply elem_of_difference in Hx as [Hx Hne].
    by apply elem_of_union in Hx as [Hx|Hx]. }
  by destruct (fin w1) as [[[]|e] w2].
Qed.

(** ** The temporary files of a download *)

Lemma same_tmp_files_tar_extractall env path :
  respects same_tmp_files (Installer.tar_extractall env path).
Proof. unfold Installer.tar_extractall. respects_tac. Qed.

#[local] Hint Resolve same_tmp_files_tar_extractall : respects.

Lemma download_package_no_new_tmp_files m env py pkg :
  Installer.write_archive env = Ok tt ->
  Installer.unlink env = Ok tt ->
  respects no_new_tmp_files (Installer.download_package m env py pkg).
Proof.
  intros Hwrite Hunlink.
  unfold Installer.download_package, Installer.download_package_with,
         Installer.download_flow.
  rewrite Hwrite.
  repeat first
    [ apply respects_guarded; [respects_tac|]
    | apply same_tmp_files_no_new; solve [auto with respects]
    | respects_step ].
  intros w. munfold. simpl. rewrite Hunlink.
  case_bool_decide; simpl; [done|].
  intros x Hx. apply elem_of_difference. split; [done|].
  intros ->%elem_of_singleton. done.
Qed.

(** X5. When neither the write of the downloaded archive to its temporary
    file nor the removal of that file raises, [download_package] leaves no
    temporary file behind that was not there before, however the download,
    the extraction or the installation end. *)
Theorem download_package_removes_archive m env py pkg w :
  Installer.write_archive env = Ok tt ->
  Installer.unlink env = Ok tt ->
  Installer.tmp_files (snd (Installer.download_package m env py pkg w))
    ⊆ Installer.tmp_files w.
Proof. intros Hwrite Hunlink. by apply download_package_no_new_tmp_files. Qed.

Lemma download_package_removes_archive_witness :
  let env := {| Installer.post_download :=
                  Ok {| status_code := 200;
                        json := Ok [("downloadUrl", "https://vnstocks.com/dl/1")];
                        text := "" |};
                Installer.get_archive := fun _ =>
                  Ok {| status_code := 200; json := Raise (Exc OtherException "");
                        text := "" |};
                Installer.named_temporary_file := Ok "/tmp/tmpa1.tar.gz";
                Installer.write_archive := Ok tt;
                Installer.mkdtemp := Ok "/tmp/vnstock_data_x1";
                Installer.extractall := Raise (Exc TarError "not a gzip file");
                Installer.extracted_before_failure := [];
                Installer.pip_install :=
                  Ok {| returncode := 0; proc_stdout := ""; proc_stderr := "" |};
                Installer.import_check :=
                  Ok {| returncode := 0; proc_stdout := "OK"; proc_stderr := "" |};
                Installer.unlink := Ok tt |} in
  let m := {| Installer.sys_executable := "/usr/bin/python3";
              Installer.home := "/home/user"; Installer.on_windows := false;
              Installer.path_exists := fun _ => false |} in
  let w := {| Installer.stdout := []; Installer.commands := [];
              Installer.tmp_files := {["/tmp/other.tmp"]}; Installer.tmp_dirs := ∅;
              Installer.site_packages := []; Installer.saved_info := [] |} in
  Installer.tmp_files
    (snd (Installer.download_package m env "/usr/bin/python3" "vnstock_data" w))
    ⊆ {["/tmp/other.tmp"]}.
Proof.
  intros env m w.
  apply (download_package_removes_archive m env "/usr/bin/python3" "vnstock_data" w);
    reflexivity.
Defined.

(** X30. The temporary archive is made and written before the block
    whose [finally] removes it. When the write of the downloaded archive
    raises an [Exception], the file that was made stays behind, no process
    is started, and unless the exception is a tar error the package is
    reported with success True. *)
Theorem failed_write_leaves_archive m env py pkg w response info url
    download_response tar c e :
  Installer.post_download env = Ok response ->
  status_code response = 200%Z ->
  json response = Ok info ->
  dict_item info "downloadUrl" = Ok url ->
  Installer.get_archive env url = Ok download_response ->
  status_code download_response = 200%Z ->
  Installer.named_temporary_file env = Ok tar ->
  Installer.write_archive env = Raise (Exc c e) ->
  tar ∈ Installer.tmp_files (snd (Installer.download_package m env py pkg w)) /\
  Installer.commands (snd (Installer.download_package m env py pkg w))
    = Installer.commands w /\
  (c <> TarError ->
   exists msg, fst (Installer.download_package m env py pkg w) = Ok (true, msg)).
Proof.
  intros Hpost Hst Hjson Hurl Hget Hst' Htar Hwrite.
  unfold Installer.download_package, Installer.download_package_with,
         Installer.download_flow, Installer.print.
  munfold. rewrite Hpost, Hst. simpl. rewrite Hjson, Hurl, Hget, Hst'. simpl.
  rewrite Htar, Hwrite. simpl.
  assert (tar ∈ Installer.tmp_files w ∪ {[tar]}) as Hthere.
  { apply elem_of_union. right. by apply elem_of_singleton. }
  destruct c; simpl; (split; [done|]); (split; [done|]); try by eauto.
Qed.

Lemma failed_write_leaves_archive_witness :
  let response := {| status_code := 200;
                     json := Ok [("downloadUrl", "https://vnstocks.com/dl/1")];
                     text := "" |} in
  let archive := {| status_code := 200; json := Raise (Exc OtherException "");
                    text := "" |} in
  let env := {| Installer.post_download := Ok response;
                Installer.get_archive := fun _ => Ok archive;
                Installer.named_temporary_file := Ok "/tmp/tmpa1.tar.gz";
                Installer.write_archive :=
                  Raise (Exc OtherException "[Errno 28] No space left on device");
                Installer.mkdtemp := Ok "/tmp/vnstock_data_x1";
                Installer.extractall := Ok [Installer.File "setup.py"];
                Installer.extracted_before_failure := [];
                Installer.pip_install :=
                  Ok {| returncode := 0; proc_stdout := ""; proc_stderr := "" |};
                Installer.import_check :=
                  Ok {| returncode := 0; proc_stdout := "OK"; proc_stderr := "" |};
                Installer.unlink := Ok tt |} in
  let m := {| Installer.sys_executable := "/usr/bin/python3";
              Installer.home := "/home/user"; Installer.on_windows := false;
              Installer.path_exists := fun _ => false |} in
  let w := {| Installer.stdout := []; Installer.commands := [];
              Installer.tmp_files := ∅; Installer.tmp_dirs := ∅;
              Installer.site_packages := []; Installer.saved_info := [] |} in
  "/tmp/tmpa1.tar.gz"
    ∈ Installer.tmp_files
        (snd (Installer.download_package m env "/usr/bin/python3" "vnstock_data" w)) /\
  Installer.commands
    (snd (Installer.download_package m env "/usr/bin/python3" "vnstock_data" w)) = [] /\
  (OtherException <> TarError ->
   exists msg,
     fst (Installer.download_package m env "/usr/bin/python3" "vnstock_data" w)
       = Ok (true, msg)).
Proof.
  intros response archive env m w.
  apply (failed_write_leaves_archive m env "/usr/bin/python3" "vnstock_data" w
           response [("downloadUrl", "https://vnstocks.com/dl/1")]
           "https://vnstocks.com/dl/1" archive "/tmp/tmpa1.tar.gz" OtherException
           "[Errno 28] No space left on device"); reflexivity.
Defined.

(** ** The packages that identify the device *)

(** X7. [ensure_critical_packages] returns True only when [vnai] and
    [vnii] were imported: at once, or after an installation that ended
    with status 0, at the first or at the second attempt. *)
Theorem ensure_critical_packages_true m env w w' :
  Installer.ensure_critical_packages m env w = (Ok true, w') ->
  Installer.import_vnai_vnii env = Ok tt \/
  exists c,
    Installer.critical_install env = Ok c /\ returncode c = 0%Z /\
    (Installer.import_after_install env = Ok tt \/
     Installer.import_second_attempt env = Ok tt).
Proof.
  unfold Installer.ensure_critical_packages, Installer.print,
         Installer.subprocess_run.
  munfold. simpl.
  destruct (Installer.import_vnai_vnii env) as [[]|[c e| |code]] eqn:Himp;
    simpl; [by left|..]; try done.
  destruct c; simpl; try done.
  destruct (Installer.ensure_uv_installed _ _ _) as [[b|r] w1]; simpl; [|done].
  destruct (Installer.critical_install env) as [c|[c e'| |code]] eqn:Hinst;
    simpl; try done.
  destruct (returncode c =? 0)%Z eqn:Hrc; simpl; [|done].
  apply Z.eqb_eq in Hrc. intros H. right. exists c. split; [done|]. split; [done|].
  destruct (Installer.import_after_install env) as [[]|[c1 e1| |code]];
    simpl in H; [by left|..]; try done.
  destruct c1; simpl in H; try done.
  destruct (Installer.import_second_attempt env) as [[]|[c2 e2| |code]];
    simpl in H; [by right|..]; try done.
  by destruct c2.
Qed.

Lemma ensure_critical_packages_true_witness :
  let ok := {| returncode := 0; proc_stdout := ""; proc_stderr := "" |} in
  let env := {| Installer.import_vnai_vnii := Raise (Exc ImportError "No module named 'vnai'");
                Installer.critical_uv :=
                  {| Installer.uv_version := Ok ok; Installer.pip_install_uv := Ok ok |};
                Installer.critical_install := Ok ok;
                Installer.import_after_install := Ok tt;
                Installer.import_second_attempt := Ok tt |} in
  let m := {| Installer.sys_executable := "/usr/bin/python3";
              Installer.home := "/home/user"; Installer.on_windows := false;
              Installer.path_exists := fun _ => false |} in
  let w := {| Installer.stdout := []; Installer.commands := [];
              Installer.tmp_files := ∅; Installer.tmp_dirs := ∅;
              Installer.site_packages := []; Installer.saved_info := [] |} in
  Installer.import_vnai_vnii env = Ok tt \/
  exists c,
    Installer.critical_install env = Ok c /\ returncode c = 0%Z /\
    (Installer.import_after_install env = Ok tt \/
     Installer.import_second_attempt env = Ok tt).
Proof.
  intros ok env m w.
  apply (ensure_critical_packages_true m env w
           (snd (Installer.ensure_critical_packages m env w))).
  reflexivity.
Defined.

(** X8. [ensure_critical_packages] does not look at what
    [ensure_uv_installed] returns: when the two packages cannot be
    imported, the tool is not there and its installation fails, the
    installation of the two packages is started all the same, with the
    command that [get_uv_command] gives. *)
Theorem ensure_critical_packages_ignores_uv m env w e e1 c2 e2 :
  Installer.import_vnai_vnii env = Raise (Exc ImportError e) ->
  Installer.uv_version (Installer.critical_uv env) = Raise (Exc FileNotFoundError e1) ->
  checked (Installer.pip_install_uv (Installer.critical_uv env)) = Raise (Exc c2 e2) ->
  fst (Installer.ensure_uv_installed (Installer.critical_uv env)
         (Installer.sys_executable m) w) = Ok false /\
  Installer.commands (snd (Installer.ensure_critical_packages m env w)) =
    Installer.commands w ++
    [ ["uv"; "--version"];
      [Installer.sys_executable m; "-m"; "pip"; "install"; "uv"];
      [Installer.get_uv_command m; "pip"; "install"; "--python";
       Installer.sys_executable m; "--extra-index-url";
       "https://vnstocks.com/api/simple"; "-c";
       "https://vnstocks.com/files/requirements.txt"; "vnai"; "vnii"] ].
Proof.
  intros Himp Hprobe Hpip.
  unfold Installer.ensure_critical_packages, Installer.ensure_uv_installed,
         Installer.print, Installer.subprocess_run, Installer.run_checked.
  munfold. simpl. rewrite Himp, Hprobe. simpl. rewrite Hpip. simpl.
  split; [done|].
  repeat (case_match; simplify_eq/=); by rewrite <- !app_assoc.
Qed.

Lemma ensure_critical_packages_ignores_uv_witness :
  let failed := {| returncode := 1; proc_stdout := ""; proc_stderr := "No module named pip" |} in
  let env := {| Installer.import_vnai_vnii := Raise (Exc ImportError "No module named 'vnai'");
                Installer.critical_uv :=
                  {| Installer.uv_version := Raise (Exc FileNotFoundError "uv");
                     Installer.pip_install_uv := Ok failed |};
                Installer.critical_install := Raise (Exc FileNotFoundError "uv");
                Installer.import_after_install := Ok tt;
                Installer.import_second_attempt := Ok tt |} in
  let m := {| Installer.sys_executable := "/usr/bin/python3";
              Installer.home := "/home/user"; Installer.on_windows := false;
              Installer.path_exists := fun _ => false |} in
  let w := {| Installer.stdout := []; Installer.commands := [];
              Installer.tmp_files := ∅; Installer.tmp_dirs := ∅;
              Installer.site_packages := []; Installer.saved_info := [] |} in
  fst (Installer.ensure_uv_installed (Installer.critical_uv env)
         (Installer.sys_executable m) w) = Ok false /\
  Installer.commands (snd (Installer.ensure_critical_packages m env w)) =
    [ ["uv"; "--version"];
      ["/usr/bin/python3"; "-m"; "pip"; "install"; "uv"];
      ["uv"; "pip"; "install"; "--python"; "/usr/bin/python3"; "--extra-index-url";
       "https://vnstocks.com/api/simple"; "-c";
       "https://vnstocks.com/files/requirements.txt"; "vnai"; "vnii"] ].
Proof.
  intros failed env m w.
  exact (ensure_critical_packages_ignores_uv m env w _ _ _ _
           eq_refl eq_refl eq_refl).
Defined.

(** ** The search for the build descriptor *)

(** X9. The directory that the search of [download_package] finds does
    hold a build descriptor, and it is the extraction directory itself or a
    directory among the entries listed. *)
Theorem locate_setup_dir_sound w dir files rel :
  Installer.locate_setup_dir w dir files = Some rel ->
  Installer.tmp_exists w dir (rel ++ ["setup.py"])
    || Installer.tmp_exists w dir (rel ++ ["pyproject.toml"]) = true /\
  (rel = [] \/
   exists item, rel = [item] /\ item ∈ files /\
                Installer.tmp_isdir w dir [item] = true).
Proof.
  unfold Installer.locate_setup_dir.
  destruct (Installer.tmp_exists w dir ["setup.py"]
            || Installer.tmp_exists w dir ["pyproject.toml"]) eqn:Hroot.
  - intros [= <-]. split; [done|by left].
  - intros H. apply fmap_Some in H as (item & Hfind & ->).
    apply List.find_some in Hfind as [Hin Hitem].
    apply andb_true_iff in Hitem as [Hdir Hdesc].
    split; [done|]. right. exists item. split; [done|]. split; [|done].
    by apply list_elem_of_In.
Qed.

Lemma locate_setup_dir_sound_witness :
  let tree := [Installer.File "README.md";
               Installer.Dir "vnstock_data-1.0" [Installer.File "pyproject.toml"]] in
  let w := {| Installer.stdout := []; Installer.commands := [];
              Installer.tmp_files := ∅;
              Installer.tmp_dirs := {["/tmp/x1" := tree]};
              Installer.site_packages := []; Installer.saved_info := [] |} in
  Installer.tmp_exists w "/tmp/x1" (["vnstock_data-1.0"] ++ ["setup.py"])
    || Installer.tmp_exists w "/tmp/x1" (["vnstock_data-1.0"] ++ ["pyproject.toml"])
    = true /\
  (["vnstock_data-1.0"] = [] \/
   exists item, ["vnstock_data-1.0"] = [item] /\
                item ∈ ["README.md"; "vnstock_data-1.0"] /\
                Installer.tmp_isdir w "/tmp/x1" [item] = true).
Proof.
  intros tree w.
  apply (locate_setup_dir_sound w "/tmp/x1" ["README.md"; "vnstock_data-1.0"]).
  vm_compute. reflexivity.
Defined.

(** ** The order of installation *)

(** X10. Ordering the packages loses none and adds none: the selected
    packages are the available ones, each as often as it was listed, in
    ascending priority. *)
Theorem selected_packages_permutation l :
  Installer.selected_packages l ≡ₚ l /\
  length (Installer.selected_packages l) = length l /\
  StronglySorted
    (fun p q => Installer.get_package_priority p <= Installer.get_package_priority q)
    (Installer.selected_packages l).
Proof.
  unfold Installer.selected_packages. split; [apply sorted_perm|]. split.
  - by rewrite sorted_perm.
  - apply sorted_ascending.
Qed.

(** ** Runtime provisioning by the installer script *)

(** X11. [create_or_use_venv] runs no command for a directory that
    exists, and otherwise the one command that creates the environment,
    with the bare name [uv], whatever comes of it. *)
Theorem create_or_use_venv_commands m env path w :
  Installer.commands (snd (Installer.create_or_use_venv m env path w)) =
    Installer.commands w ++
    (if Installer.venv_exists env then []
     else [["uv"; "venv"; path; "--python"; Installer.sys_executable m]]).
Proof.
  unfold Installer.create_or_use_venv, Installer.print, Installer.run_checked.
  munfold. simpl.
  repeat (case_match; simplify_eq/=); by rewrite ?app_nil_r.
Qed.

(** X12. The script creates the environment before it makes sure that the
    package manager is there: outside the GUI mode, with an environment of
    its own to create and no [uv] on the machine, the script ends with
    status 1 after this one command, before it asks for the API key. *)
Theorem missing_uv_aborts_script env w e :
  Installer.python_version env ∈ Installer.SUPPORTED_PYTHON_VERSIONS ->
  Installer.gui_mode env = false ->
  Installer.venv_type env <> "system" ->
  Installer.venv_exists (Installer.venv env) = false ->
  Installer.uv_venv (Installer.venv env) = Raise (Exc FileNotFoundError e) ->
  fst (Installer.script env w) = Raise (SystemExit 1) /\
  (exists path,
     Installer.commands (snd (Installer.script env w)) =
       Installer.commands w ++
       [["uv"; "venv"; path; "--python";
         Installer.sys_executable (Installer.host env)]]) /\
  Installer.site_packages (snd (Installer.script env w)) = Installer.site_packages w /\
  Installer.saved_info (snd (Installer.script env w)) = Installer.saved_info w.
Proof.
  intros Hver Hgui Htype Hexists Huv.
  apply String.eqb_neq in Htype.
  unfold Installer.script, Installer.main, Installer.check_python_version,
         Installer.setup_virtual_environment, Installer.create_or_use_venv,
         Installer.sys_exit, Installer.print, Installer.run_checked.
  munfold. rewrite (bool_decide_eq_true_2 _ Hver), Hgui, Htype. simpl.
  destruct (Installer.venv_path env) as [path|]; simpl;
    [destruct (_ && _); simpl|];
    rewrite Hexists, Huv; simpl; eauto 10.
Qed.

Lemma missing_uv_aborts_script_witness :
  let ok := {| returncode := 0; proc_stdout := ""; proc_stderr := "" |} in
  let none := Raise (Exc RequestException "unreachable") in
  let env := {| Installer.host :=
                  {| Installer.sys_executable := "/usr/bin/python3";
                     Installer.home := "/home/user"; Installer.on_windows := false;
                     Installer.path_exists := fun _ => false |};
                Installer.python_version := "3.12";
                Installer.platform_system := "Linux";
                Installer.platform_release := "6.8";
                Installer.log_file_path := "/home/user/.vnstock/installer.log";
                Installer.now := "2026-01-01T00:00:00";
                Installer.ui := Installer.ui_en;
                Installer.gui_mode := false;
                Installer.venv_type := "default";
                Installer.venv_path := None;
                Installer.venv :=
                  {| Installer.venv_exists := false;
                     Installer.uv_venv := Raise (Exc FileNotFoundError "uv");
                     Installer.venv_python_exists := false |};
                Installer.api_key_variable := "key";
                Installer.api_key_input := Ok "key";
                Installer.critical :=
                  {| Installer.import_vnai_vnii := Ok tt;
                     Installer.critical_uv :=
                       {| Installer.uv_version := Ok ok;
                          Installer.pip_install_uv := Ok ok |};
                     Installer.critical_install := Ok ok;
                     Installer.import_after_install := Ok tt;
                     Installer.import_second_attempt := Ok tt |};
                Installer.license_manager := Ok "device-1";
                Installer.skip_register := false;
                Installer.registration := none;
                Installer.import_vnstock := Ok tt;
                Installer.uv :=
                  {| Installer.uv_version := Ok ok; Installer.pip_install_uv := Ok ok |};
                Installer.core_install := Ok ok;
                Installer.reregistration := none;
                Installer.packages_list := Raise (Exc RequestException "unreachable");
                Installer.download := fun _ =>
                  {| Installer.post_download := none;
                     Installer.get_archive := fun _ => none;
                     Installer.named_temporary_file := Ok "/tmp/tmpa1.tar.gz";
                     Installer.write_archive := Ok tt;
                     Installer.mkdtemp := Ok "/tmp/x1";
                     Installer.extractall := Ok [];
                     Installer.extracted_before_failure := [];
                     Installer.pip_install := Ok ok;
                     Installer.import_check := Ok ok;
                     Installer.unlink := Ok tt |};
                Installer.summary := fun _ => [] |} in
  let w := {| Installer.stdout := []; Installer.commands := [];
              Installer.tmp_files := ∅; Installer.tmp_dirs := ∅;
              Installer.site_packages := []; Installer.saved_info := [] |} in
  fst (Installer.script env w) = Raise (SystemExit 1).
Proof.
  intros ok none env w.
  apply (missing_uv_aborts_script env w "uv").
  - apply (bool_decide_unpack _). vm_compute. exact I.
  - reflexivity.
  - discriminate.
  - reflexivity.
  - reflexivity.
Defined.

(** ** The requirements of the CLI *)

(** The operations on texts stay folded under [simpl]. *)
#[local] Arguments PyStr.startswith : simpl never.
#[local] Arguments PyStr.contains : simpl never.
#[local] Arguments PyStr.lower : simpl never.
#[local] Arguments PyStr.strip : simpl never.
#[local] Arguments PyStr.split_lines : simpl never.

Lemma filter_split_perm {A} (f : A -> bool) l :
  List.filter f l ++ List.filter (fun x => negb (f x)) l ≡ₚ l.
Proof.
  induction l as [|a l IH]; simpl; [done|].
  destruct (f a); simpl.
  - by constructor.
  - rewrite <- Permutation_middle. by constructor.
Qed.

Lemma filter_none {A} (f : A -> bool) l :
  List.filter f l = [] -> List.filter (fun x => negb (f x)) l = l.
Proof.
  induction l as [|a l IH]; simpl; [done|].
  destruct (f a); simpl; [done|]. intros H. f_equal. by apply IH.
Qed.

Lemma filter_not_in_filter (f : string -> bool) l :
  List.filter (fun r => negb (bool_decide (r ∈ List.filter f l))) l
  = List.filter (fun r => negb (f r)) l.
Proof.
  apply List.filter_ext_in. intros r Hin. f_equal.
  destruct (f r) eqn:Hf.
  - apply bool_decide_eq_true_2, list_elem_of_In, List.filter_In. by split.
  - apply bool_decide_eq_false_2. intros Hr%list_elem_of_In%List.filter_In.
    destruct Hr. congruence.
Qed.

(** X14. From an answer with status 200 every requirement line of the
    fetched file (stripped, and neither empty nor a comment nor an option)
    is returned, as often as it occurs there. When no line holds both the
    word "typing" and the word "extensions", the lines are returned in
    their order behind the pin "typing_extensions>=4.6.0"; otherwise no pin
    is added, and the lines that hold both words come first, in their
    order, before the other lines in theirs. *)
Theorem fetch_requirements_keeps_lines response is_colab w :
  status_code response = 200%Z ->
  exists reqs,
    fst (Cli.fetch_requirements_from_url (Ok response) is_colab w) = Ok reqs /\
    if bool_decide (List.filter holds_typing_and_extensions
                      (requirement_lines (text response)) = [])
    then reqs = "typing_extensions>=4.6.0" :: requirement_lines (text response)
    else reqs = List.filter holds_typing_and_extensions
                  (requirement_lines (text response))
                ++ List.filter (fun r => negb (holds_typing_and_extensions r))
                     (requirement_lines (text response)) /\
         reqs ≡ₚ requirement_lines (text response).
Proof.
  intros Hst.
  unfold Cli.fetch_requirements_from_url, Cli.log. munfold. simpl.
  rewrite Hst. simpl.
  fold (requirement_lines (text response)).
  change (fun r : string => PyStr.contains "typing" (PyStr.lower r)
                            && PyStr.contains "extensions" (PyStr.lower r))
    with holds_typing_and_extensions.
  rewrite filter_not_in_filter.
  eexists. split; [reflexivity|].
  case_bool_decide as Hnone.
  - simpl. f_equal. by apply filter_none.
  - split; [done|]. apply filter_split_perm.
Qed.

Lemma fetch_requirements_keeps_lines_witness :
  let response := {| status_code := 200; json := Raise (Exc OtherException "");
                     text := "pandas " ++ nl ++ "# pinned" ++ nl
                             ++ "sphinx-extensions-typing-stubs" |} in
  let w := {| Cli.stdout := []; Cli.commands := []; Cli.log_file := [] |} in
  exists reqs,
    fst (Cli.fetch_requirements_from_url (Ok response) false w) = Ok reqs /\
    if bool_decide (List.filter holds_typing_and_extensions
                      (requirement_lines (text response)) = [])
    then reqs = "typing_extensions>=4.6.0" :: requirement_lines (text response)
    else reqs = List.filter holds_typing_and_extensions
                  (requirement_lines (text response))
                ++ List.filter (fun r => negb (holds_typing_and_extensions r))
                     (requirement_lines (text response)) /\
         reqs ≡ₚ requirement_lines (text response).
Proof.
  intros response w.
  apply (fetch_requirements_keeps_lines response false w). reflexivity.
Defined.

Lemma filter_three_way {A} (c v : A -> bool) l :
  List.filter c l
    ++ List.filter (fun r => v r && negb (c r)) l
    ++ List.filter (fun r => negb (c r) && negb (v r)) l ≡ₚ l.
Proof.
  induction l as [|a l IH]; simpl; [done|].
  destruct (c a), (v a); simpl.
  - by constructor.
  - by constructor.
  - rewrite <- Permutation_middle. by constructor.
  - rewrite app_assoc, <- Permutation_middle, <- app_assoc. by constructor.
Qed.

(** X15. The three groups that [install_dependencies] makes lose nothing
    and repeat nothing: the sorted requirements are the requirements to
    install, each as often as it was listed. *)
Theorem sorted_requirements_permutation fl :
  Cli.sorted_requirements fl ≡ₚ fl.
Proof.
  unfold Cli.sorted_requirements.
  assert (forall r, In r fl ->
            bool_decide (r ∈ Cli.critical_packages fl) = critical_requirement r)
    as Hcritical.
  { intros r Hin. destruct (critical_requirement r) eqn:Hc.
    - apply bool_decide_eq_true_2, critical_packages_spec.
      split; [by apply list_elem_of_In|done].
    - apply bool_decide_eq_false_2. intros Hr%critical_packages_spec.
      destruct Hr. congruence. }
  assert (Cli.core_packages fl
          = List.filter (fun r => PyStr.contains "vnstock" (PyStr.lower r)
                                  && negb (critical_requirement r)) fl) as Hcore.
  { apply List.filter_ext_in. intros r Hin. by rewrite Hcritical. }
  assert (Cli.other_packages fl
          = List.filter (fun r => negb (critical_requirement r)
                                  && negb (PyStr.contains "vnstock" (PyStr.lower r))) fl)
    as Hother.
  { apply List.filter_ext_in. intros r Hin. rewrite Hcritical by done.
    destruct (critical_requirement r) eqn:Hc; [done|]. simpl. f_equal.
    rewrite Hcore.
    destruct (PyStr.contains "vnstock" (PyStr.lower r)) eqn:Hv.
    - apply bool_decide_eq_true_2, list_elem_of_In, List.filter_In.
      split; [done|]. by rewrite Hv, Hc.
    - apply bool_decide_eq_false_2. intros Hr%list_elem_of_In%List.filter_In.
      destruct Hr as [_ Hr]. by rewrite Hv in Hr. }
  rewrite Hcore, Hother.
  apply (filter_three_way critical_requirement
           (fun r => PyStr.contains "vnstock" (PyStr.lower r))).
Qed.

(** ** How the two programs end *)

(** X16. The CLI always ends through [sys.exit]: whatever [run] returns
    or raises, [main] leaves with an exit status, and with status 0 only
    when [run] returned True or something inside [run] asked for it. *)
Theorem cli_main_always_exits self env w :
  exists code,
    fst (Cli.main self env w) = Raise (SystemExit code) /\
    (code = 0%Z ->
     fst (Cli.run self env w) = Ok true \/
     fst (Cli.run self env w) = Raise (SystemExit 0)).
Proof.
  unfold Cli.main, Cli.sys_exit, Cli.print. munfold.
  destruct (Cli.run self env w) as [[[]|[c e| |code]] w1]; simpl; eauto.
  - exists 1%Z. split; [done|]. discriminate.
  - exists 1%Z. split; [done|]. discriminate.
  - exists 1%Z. split; [done|]. discriminate.
  - exists code. split; [done|]. intros ->. by right.
Qed.

(** X17. The installer script ends in order: it returns, or it leaves
    with an exit status, and no exception of [main] leaves the script: an
    interrupt becomes status 130 and an [Exception] status 1. *)
Theorem script_ends_in_order env w :
  match fst (Installer.main env w) with
  | Ok _ => fst (Installer.script env w) = Ok tt
  | Raise KeyboardInterrupt => fst (Installer.script env w) = Raise (SystemExit 130)
  | Raise (Exc _ _) => fst (Installer.script env w) = Raise (SystemExit 1)
  | Raise (SystemExit code) => fst (Installer.script env w) = Raise (SystemExit code)
  end.
Proof.
  unfold Installer.script, Installer.sys_exit, Installer.print. munfold.
  by destruct (Installer.main env w) as [[[]|[c e| |code]] w1].
Qed.

(** ** The output of the installer script, as the CLI reads it *)

#[local] Arguments Cli.show_output _ !_ _ _ /.

Lemma append_empty_r (s : string) : (s ++ "")%string = s.
Proof.
  induction s as [|c s IH]; [done|].
  change (String c (s ++ "")%string = String c s). by rewrite IH.
Qed.

(** The loop never raises, prints and changes nothing else, and leaves the
    count of failures alone unless a line carries the marker. *)
Lemma show_output_spec env lines : forall failed succeeded w,
  exists failed' succeeded' shown,
    Cli.show_output env lines failed succeeded w =
      (Ok (failed', succeeded'),
       {| Cli.stdout := Cli.stdout w ++ shown;
          Cli.commands := Cli.commands w;
          Cli.log_file := Cli.log_file w |}) /\
    Forall2 (fun out line => exists before after,
                 out = (before ++ line ++ after)%string)
            shown (List.filter nonblank lines) /\
    ((forall line, line ∈ lines -> PyStr.contains "‚ùå Failed:" line = false) ->
     failed' = failed).
Proof.
  induction lines as [|line rest IH]; intros failed succeeded w.
  { exists failed, succeeded, []. simpl. rewrite app_nil_r.
    split; [by destruct w|]. split; [constructor|done]. }
  simpl. fold (nonblank line). unfold Cli.print. munfold.
  destruct (nonblank line) eqn:Hblank; simpl.
  2:{ destruct (IH failed succeeded w) as (f' & s' & shown & Hrun & Hshown & Hcount).
      exists f', s', shown. split; [done|]. split; [done|].
      intros Hmark. apply Hcount. intros l Hl. apply Hmark. by right. }
  assert (forall out f s,
            (exists before after, out = (before ++ line ++ after)%string) ->
            ((forall l, l ∈ line :: rest ->
                PyStr.contains "‚ùå Failed:" l = false) -> f = failed) ->
            exists failed' succeeded' shown,
              Cli.show_output env rest f s
                {| Cli.stdout := Cli.stdout w ++ [out];
                   Cli.commands := Cli.commands w;
                   Cli.log_file := Cli.log_file w |} =
                (Ok (failed', succeeded'),
                 {| Cli.stdout := Cli.stdout w ++ shown;
                    Cli.commands := Cli.commands w;
                    Cli.log_file := Cli.log_file w |}) /\
              Forall2 (fun out line => exists before after,
                           out = (before ++ line ++ after)%string)
                      shown (line :: List.filter nonblank rest) /\
              ((forall l, l ∈ line :: rest ->
                  PyStr.contains "‚ùå Failed:" l = false) ->
               failed' = failed)) as Hstep.
  { intros out f s Hout Hf.
    destruct (IH f s {| Cli.stdout := Cli.stdout w ++ [out];
                        Cli.commands := Cli.commands w;
                        Cli.log_file := Cli.log_file w |})
      as (f' & s' & shown & Hrun & Hshown & Hcount).
    exists f', s', (out :: shown). simpl in Hrun. rewrite <- app_assoc in Hrun.
    split; [done|]. split; [by constructor|].
    intros Hmark. rewrite Hcount; [by apply Hf|].
    intros l Hl. apply Hmark. by right. }
  destruct (_ || _); [|destruct (_ || _)]; apply Hstep.
  - by exists Cli.Colors.FAIL, Cli.Colors.ENDC.
  - intros Hmark. rewrite (Hmark line) by left. by rewrite andb_false_r.
  - by exists Cli.Colors.OKGREEN, Cli.Colors.ENDC.
  - done.
  - exists "", "". by rewrite append_empty_r.
  - done.
Qed.

(** X18. The loop that shows the output of the installer script prints
    every line that is not blank, once and in order, as it is or between two
    colour codes, and it changes nothing else. *)
Theorem show_output_shows_each_line env lines failed succeeded w :
  exists counts shown,
    fst (Cli.show_output env lines failed succeeded w) = Ok counts /\
    Cli.stdout (snd (Cli.show_output env lines failed succeeded w))
      = Cli.stdout w ++ shown /\
    Forall2 (fun out line => exists before after,
                 out = (before ++ line ++ after)%string)
            shown (List.filter nonblank lines) /\
    Cli.commands (snd (Cli.show_output env lines failed succeeded w))
      = Cli.commands w /\
    Cli.log_file (snd (Cli.show_output env lines failed succeeded w))
      = Cli.log_file w.
Proof.
  destruct (show_output_spec env lines failed succeeded w)
    as (f' & s' & shown & -> & Hshown & _).
  by exists (f', s'), shown.
Qed.

(** X19. The CLI sees a failed package only through a line that holds
    its marker of the count of failures: when the script has ended with
    status 0, its output does not tell of the device limit, and no line
    holds that marker, [run_vnstock_installer] reports success, whatever
    else the output says. *)
Theorem no_marker_means_success self env w out :
  Cli.installer_exists env = true ->
  (Cli.is_colab self = true -> Cli.mkdir_config env = Ok tt) ->
  Cli.communicate env = Ok (out, 0%Z) ->
  Cli.device_limit_exceeded out = false ->
  (forall line, line ∈ PyStr.split_lines out ->
     PyStr.contains "‚ùå Failed:" line = false) ->
  fst (Cli.run_vnstock_installer self env w) = Ok true.
Proof.
  intros Hex Hmk Hcomm Hdev Hmark.
  assert (Hmk' : (if Cli.is_colab self then call (S := Cli.world) (Cli.mkdir_config env)
                  else mret tt) =
                 mret tt).
  { destruct (Cli.is_colab self); [by rewrite Hmk|done]. }
  unfold Cli.run_vnstock_installer. rewrite Hex, Hmk', Hcomm.
  unfold Cli.print_step, Cli.print_success, Cli.log, Cli.print. munfold. simpl.
  rewrite Hdev.
  match goal with
  | |- context [Cli.show_output env ?ls ?f ?s ?w0] =>
      destruct (show_output_spec env ls f s w0)
        as (f' & s' & shown & -> & _ & Hcount)
  end.
  rewrite (Hcount Hmark). by simpl.
Qed.

Lemma no_marker_means_success_witness :
  let ok := {| returncode := 0; proc_stdout := ""; proc_stderr := "" |} in
  let uv := {| Cli.uv_version := Ok ok; Cli.curl_install_sh := Ok ok;
               Cli.sh_install := Ok ok; Cli.pip_install_break := Ok ok;
               Cli.pip_install_plain := Ok ok |} in
  let venv := {| Cli.venv_path_exists := Ok true; Cli.venv_python_exists := Ok true;
                 Cli.rmtree_venv := Ok tt; Cli.uv := uv; Cli.uv_command := "uv";
                 Cli.uv_venv := Ok ok |} in
  let self := {| Cli.is_vietnamese := true; Cli.language := "vi";
                 Cli.lang := fun key => key; Cli.verbose := false;
                 Cli.selected_python := "/usr/bin/python3";
                 Cli.venv_path := Some "/home/user/.venv";
                 Cli.venv_type := Some "default";
                 Cli.is_colab := false; Cli.is_codespaces := false;
                 Cli.on_nt := false;
                 Cli.log_path := "/home/user/.vnstock/cli_installer.log" |} in
  let env := {| Cli.mount_google_drive := Ok true;
                Cli.detect_python_versions := Ok true;
                Cli.select_python_version := Ok true;
                Cli.select_venv_configuration := Ok true;
                Cli.venv := venv;
                Cli.installed_packages := Ok 0;
                Cli.install_dependencies := Ok true;
                Cli.install_critical_dependencies := Ok true;
                Cli.get_api_key := Ok (Some "key");
                Cli.installer_script := "/opt/cli/vnstock-installer.py";
                Cli.installer_exists := true;
                Cli.mkdir_config := Ok tt;
                Cli.communicate := Ok ("âŒ Tháº¥t báº¡i: 1", 0%Z);
                Cli.parse_count := fun _ _ => None;
                Cli.copy_vnstock_packages_to_drive := Ok true;
                Cli.backup_config := Ok tt;
                Cli.validate_installation := Ok true;
                Cli.show_usage_instructions := Ok tt |} in
  let w := {| Cli.stdout := []; Cli.commands := []; Cli.log_file := [] |} in
  fst (Cli.run_vnstock_installer self env w) = Ok true.
Proof.
  intros ok uv venv self env w.
  apply (no_marker_means_success self env w "âŒ Tháº¥t báº¡i: 1").
  - reflexivity.
  - reflexivity.
  - reflexivity.
  - vm_compute. reflexivity.
  - intros line Hline. vm_compute in Hline.
    apply list_elem_of_singleton in Hline as ->. vm_compute. reflexivity.
Defined.

(** ** Runtime provisioning by the CLI *)

(** X20. [create_virtual_environment] lets an [Exception] out only when
    one of the two tests [exists()] raises it, which stand outside every
    [try]: whatever else goes wrong makes it return False. With the system
    interpreter chosen it returns True and runs no command, and so it does
    for an environment that is there with its interpreter. *)
Theorem create_virtual_environment_contained self env w :
  (forall r, fst (Cli.create_virtual_environment self env w) = Raise r ->
             is_Exception r = true ->
             Cli.venv_path_exists env = Raise r \/
             Cli.venv_python_exists env = Raise r) /\
  (Cli.venv_type self = Some "system" \/
   (Cli.venv_path self <> None /\ Cli.venv_path_exists env = Ok true /\
    Cli.venv_python_exists env = Ok true) ->
   fst (Cli.create_virtual_environment self env w) = Ok true /\
   Cli.commands (snd (Cli.create_virtual_environment self env w)) = Cli.commands w).
Proof.
  unfold Cli.create_virtual_environment, Cli._is_venv_healthy,
         Cli.print_success, Cli.print_error, Cli.print_warning, Cli.print_info,
         Cli.print_detail, Cli.print, Cli.run_checked.
  split.
  - munfold. simpl. intros r.
    repeat (case_match; simplify_eq/=); try done;
      intros [= <-]; try done; intros _; by eauto.
  - intros [Hsys|(Hpath & Hex & Hpy)].
    + by rewrite (bool_decide_eq_true_2 _ Hsys).
    + case_bool_decide; [done|].
      destruct (Cli.venv_path self) as [path|]; [|done].
      munfold. by rewrite Hex, Hpy.
Qed.

Lemma create_virtual_environment_contained_witness :
  let ok := {| returncode := 0; proc_stdout := ""; proc_stderr := "" |} in
  let uv := {| Cli.uv_version := Ok ok; Cli.curl_install_sh := Ok ok;
               Cli.sh_install := Ok ok; Cli.pip_install_break := Ok ok;
               Cli.pip_install_plain := Ok ok |} in
  let env := {| Cli.venv_path_exists := Ok true; Cli.venv_python_exists := Ok true;
                Cli.rmtree_venv := Ok tt; Cli.uv := uv; Cli.uv_command := "uv";
                Cli.uv_venv := Ok ok |} in
  let self := {| Cli.is_vietnamese := false; Cli.language := "en";
                 Cli.lang := fun key => key; Cli.verbose := false;
                 Cli.selected_python := "/usr/bin/python3";
                 Cli.venv_path := Some "/home/user/.venv";
                 Cli.venv_type := Some "default";
                 Cli.is_colab := false; Cli.is_codespaces := false;
                 Cli.on_nt := false;
                 Cli.log_path := "/home/user/.vnstock/cli_installer.log" |} in
  let w := {| Cli.stdout := []; Cli.commands := [["uv"; "--version"]];
              Cli.log_file := [] |} in
  fst (Cli.create_virtual_environment self env w) = Ok true /\
  Cli.commands (snd (Cli.create_virtual_environment self env w))
    = [["uv"; "--version"]].
Proof.
  intros ok uv env self w.
  apply (proj2 (create_virtual_environment_contained self env w)).
  right. split; [discriminate|]. split; reflexivity.
Defined.

(** ** The bootstrap of the package manager by the CLI *)

(** X21. [ensure_uv_installed] of the CLI returns True only when one of
    its steps ended well: the probe, the standalone installer, or one of
    the two installations with pip. *)
Theorem ensure_uv_installed_true env py w w' :
  Cli.ensure_uv_installed env py w = (Ok true, w') ->
  (exists c, checked (Cli.uv_version env) = Ok c) \/
  standalone_succeeds env \/
  (exists c, checked (Cli.pip_install_break env) = Ok c) \/
  (exists c, checked (Cli.pip_install_plain env) = Ok c).
Proof.
  unfold Cli.ensure_uv_installed, Cli.print, Cli.subprocess_run, Cli.run_checked,
         standalone_succeeds.
  munfold. simpl.
  destruct (checked (Cli.uv_version env)) as [c|r] eqn:Hprobe; [by eauto|].
  destruct (checked (Cli.pip_install_break env)) as [c1|r1] eqn:Hbreak;
    [by eauto 6|].
  destruct (checked (Cli.pip_install_plain env)) as [c2|r2] eqn:Hplain;
    [by eauto 6|].
  intros H. right. left.
  repeat (case_match; simplify_eq/=);
    repeat match goal with
           | H : (_ =? _)%Z = true |- _ => apply Z.eqb_eq in H
           end;
    eauto 10.
Qed.

Lemma ensure_uv_installed_true_witness :
  let ok := {| returncode := 0; proc_stdout := "sh"; proc_stderr := "" |} in
  let env := {| Cli.uv_version := Raise (Exc FileNotFoundError "uv");
                Cli.curl_install_sh := Ok ok;
                Cli.sh_install := Ok ok;
                Cli.pip_install_break := Raise (Exc FileNotFoundError "pip");
                Cli.pip_install_plain := Raise (Exc FileNotFoundError "pip") |} in
  let w := {| Cli.stdout := []; Cli.commands := []; Cli.log_file := [] |} in
  (exists c, checked (Cli.uv_version env) = Ok c) \/
  standalone_succeeds env \/
  (exists c, checked (Cli.pip_install_break env) = Ok c) \/
  (exists c, checked (Cli.pip_install_plain env) = Ok c).
Proof.
  intros ok env w.
  apply (ensure_uv_installed_true env "python3" w
           (snd (Cli.ensure_uv_installed env "python3" w))).
  reflexivity.
Defined.

(** ** The two checks of the interpreter's version *)

(** X22. The two scripts do not agree on the interpreters they take: the
    CLI takes every Python 3 from 3.10 on, the installer script only the
    five versions of its list; from Python 3.15 on the check of the CLI
    passes and the check of the installer script fails. *)
Theorem version_checks_disagree minor micro w w' :
  (15 <= minor)%Z ->
  fst (Cli.check_python_version 3 minor micro w) = Ok true /\
  fst (Installer.check_python_version (pretty 3%Z ++ "." ++ pretty minor)%string w')
    = Ok false.
Proof.
  intros Hminor. split.
  - unfold Cli.check_python_version, Cli.print_error, Cli.print_success, Cli.print.
    munfold. simpl.
    replace (minor <? 10)%Z with false by (symmetry; apply Z.ltb_ge; lia).
    done.
  - unfold Installer.check_python_version, Installer.print. munfold.
    rewrite bool_decide_eq_false_2; [done|].
    unfold Installer.SUPPORTED_PYTHON_VERSIONS.
    replace (pretty 3%Z) with "3" by (by vm_compute).
    change ("3" ++ "." ++ pretty minor)%string with ("3." ++ pretty minor)%string.
    intros Hin.
    assert (forall k : Z, ("3." ++ pretty minor)%string = ("3." ++ pretty k)%string ->
                          minor = k) as Hinj.
    { intros k Hk. apply (inj (String.append "3.")) in Hk.
      by apply (inj pretty) in Hk. }
    repeat (apply elem_of_cons in Hin as [Hin|Hin]);
      [apply (Hinj 10%Z) in Hin|apply (Hinj 11%Z) in Hin|apply (Hinj 12%Z) in Hin
      |apply (Hinj 13%Z) in Hin|apply (Hinj 14%Z) in Hin|by apply elem_of_nil in Hin];
      lia.
Qed.

Lemma version_checks_disagree_witness :
  let w := {| Cli.stdout := []; Cli.commands := []; Cli.log_file := [] |} in
  let w' := {| Installer.stdout := []; Installer.commands := [];
               Installer.tmp_files := ∅; Installer.tmp_dirs := ∅;
               Installer.site_packages := []; Installer.saved_info := [] |} in
  fst (Cli.check_python_version 3 15 0 w) = Ok true /\
  fst (Installer.check_python_version (pretty 3%Z ++ "." ++ pretty 15%Z)%string w')
    = Ok false.
Proof.
  intros w w'. apply (version_checks_disagree 15 0 w w'). lia.
Defined.

(** ** The copy that [sanitize_log_data] makes is shallow *)

Lemma dict_lookup_set_ne k k' v d :
  k <> k' ->
  Installer.dict_lookup k (Installer.dict_set k' v d) = Installer.dict_lookup k d.
Proof.
  intros Hne. induction d as [|[k0 x] d IH]; simpl.
  - destruct (String.eqb_spec k' k); [congruence|done].
  - destruct (String.eqb_spec k0 k') as [->|Hk0]; simpl.
    + destruct (String.eqb_spec k' k); [congruence|done].
    + destruct (String.eqb_spec k0 k); [done|apply IH].
Qed.

(** An assignment to another key, or at another address, is not seen. *)
Lemma getitem_setitem_ne (h : list Installer.object) s s' k k' v :
  s <> s' \/ k <> k' ->
  Installer.getitem (Installer.setitem h s' k' v) s k = Installer.getitem h s k.
Proof.
  unfold Installer.getitem, Installer.setitem, Installer.heap. intros Hne.
  destruct (h !! s') as [[d|l]|] eqn:Hs'; try done.
  destruct (decide (s = s')) as [->|Hs].
  - rewrite list_lookup_insert_eq by (by eapply lookup_lt_Some).
    rewrite Hs'. apply dict_lookup_set_ne. by destruct Hne.
  - by rewrite list_lookup_insert_ne.
Qed.

Lemma lookup_setitem_list (h : list Installer.object) s k v a l :
  h !! a = Some (Installer.OList l) ->
  Installer.setitem h s k v !! a = Some (Installer.OList l).
Proof.
  unfold Installer.setitem, Installer.heap. intros Ha.
  destruct (h !! s) as [[d|l']|] eqn:Hs; try done.
  rewrite list_lookup_insert_ne; [done|]. intros ->. congruence.
Qed.

Lemma setitem_behind (h0 ext : list Installer.object) k v :
  exists ext', Installer.setitem (h0 ++ ext) (length h0) k v = h0 ++ ext'.
Proof.
  unfold Installer.setitem, Installer.heap.
  destruct ((h0 ++ ext) !! length h0) as [[d|l]|]; eauto.
  exists (<[0 := Installer.ODict (Installer.dict_set k v d)]> ext).
  rewrite <- (Nat.add_0_r (length h0)) at 1. by rewrite insert_app_r.
Qed.

Section shallow_copy.

(** What stands for [str.lower]: nothing is assumed about it. *)
Variable str_lower : string -> string.

(** A call only allocates: the heap it leaves begins with the heap it was
    given, the changed objects are new ones. *)
Lemma sanitize_log_data_allocates n : forall (h : list Installer.object) data result h',
  Installer.sanitize_log_data str_lower n h data = Some (result, h') ->
  result = length h /\ exists new, h' = h ++ new.
Proof.
  induction n as [|n IH]; intros h data result h'; simpl; [done|].
  unfold Installer.heap in *.
  destruct (h !! data) as [[items|l]|]; try done.
  intros H. apply bind_Some in H as (h1 & Hloop & [= <- <-]).
  split; [done|].
  assert (forall keys ext h2,
            Installer.for_keys
              (Installer.sanitize_key str_lower (Installer.sanitize_log_data str_lower n) (length h))
              keys (h ++ ext) = Some h2 ->
            exists new, h2 = h ++ new) as Hkeys.
  { clear Hloop. induction keys as [|key keys IHkeys]; intros ext h2; simpl.
    - intros [= <-]. eauto.
    - intros H. apply bind_Some in H as (h3 & Hkey & Hrest).
      cut (exists ext3, h3 = h ++ ext3).
      { intros (ext3 & ->). by eapply IHkeys. }
      unfold Installer.sanitize_key, Installer.heap in Hkey.
      destruct (Installer.sensitive str_lower key).
      { injection Hkey as <-. apply setitem_behind. }
      destruct (Installer.getitem (h ++ ext) (length h) key) as [[| | | |d]|];
        try (injection Hkey as <-; by eauto).
      destruct ((h ++ ext) !! d) as [[items'|l]|];
        try (injection Hkey as <-; by eauto).
      apply bind_Some in Hkey as ([d' h4] & Hcall & [= <-]).
      apply IH in Hcall as (_ & new & ->).
      rewrite <- app_assoc. apply setitem_behind. }
  by eapply Hkeys.
Qed.

(** The loop leaves alone an entry whose key is not sensitive and whose
    value is a list. *)
Lemma sanitize_loop_keeps_list n s k a l : forall keys (h h' : list Installer.object),
  Installer.sensitive str_lower k = false ->
  Installer.for_keys (Installer.sanitize_key str_lower (Installer.sanitize_log_data str_lower n) s)
    keys h = Some h' ->
  Installer.getitem h s k = Some (Installer.VRef a) ->
  h !! a = Some (Installer.OList l) ->
  Installer.getitem h' s k = Some (Installer.VRef a) /\
  h' !! a = Some (Installer.OList l).
Proof.
  induction keys as [|key keys IH]; intros h h' Hk; simpl.
  { by intros [= <-]. }
  intros H Hget Ha. apply bind_Some in H as (h1 & Hkey & Hrest).
  cut (Installer.getitem h1 s k = Some (Installer.VRef a) /\
       h1 !! a = Some (Installer.OList l)).
  { intros [? ?]. by eapply IH. }
  unfold Installer.sanitize_key, Installer.heap in Hkey.
  destruct (Installer.sensitive str_lower key) eqn:Hkey_sens.
  { injection Hkey as <-. split; [|by apply lookup_setitem_list].
    rewrite getitem_setitem_ne; [done|]. right. congruence. }
  destruct (Installer.getitem h s key) as [[| | | |d]|] eqn:Hkey_get;
    try (by injection Hkey as <-).
  destruct (h !! d) as [[items'|l']|] eqn:Hd;
    try (by injection Hkey as <-).
  apply bind_Some in Hkey as ([d' h2] & Hcall & [= <-]).
  apply sanitize_log_data_allocates in Hcall as (_ & new & ->).
  assert (k <> key) as Hne.
  { intros ->. rewrite Hget in Hkey_get. injection Hkey_get as <-. congruence. }
  split.
  - rewrite getitem_setitem_ne by (by right).
    unfold Installer.getitem, Installer.heap in *.
    destruct (h !! s) as [o|] eqn:Hs; [|done].
    by rewrite (lookup_app_l_Some _ _ _ _ Hs).
  - apply lookup_setitem_list. by apply lookup_app_l_Some.
Qed.

(** X23. The copy is shallow, whatever [str.lower] does to the keys. A
    list under a key that is not sensitive is not copied: the sanitized
    dictionary refers to the very list that the input refers to, so that a
    later change of the list shows in both. *)
Theorem sanitize_log_data_shares_lists fuel h data items t k a l :
  keys_unique h ->
  h !! data = Some (Installer.ODict items) ->
  Installer.denote fuel h (Installer.VRef data) = Some t ->
  Installer.sensitive str_lower k = false ->
  Installer.getitem h data k = Some (Installer.VRef a) ->
  h !! a = Some (Installer.OList l) ->
  exists new,
    Installer.sanitize_log_data str_lower fuel h data = Some (length h, h ++ new) /\
    Installer.getitem (h ++ new) (length h) k = Some (Installer.VRef a) /\
    (h ++ new) !! a = Some (Installer.OList l) /\
    length h <> data.
Proof.
  intros Hunique Hdata Ht Hk Hget Ha.
  destruct (sanitize_log_data_frame str_lower fuel h Hunique [] data t Ht)
    as (new & Hcall & _); [by eauto|].
  rewrite app_nil_r in Hcall. simpl in Hcall.
  exists new. split; [done|].
  assert (length h <> data) as Hfresh.
  { apply lookup_lt_Some in Hdata. lia. }
  destruct fuel as [|n]; [done|]. simpl in Hcall. rewrite Hdata in Hcall.
  apply bind_Some in Hcall as (h1 & Hloop & [= ->]).
  eapply sanitize_loop_keeps_list in Hloop as [? ?]; [done..| |].
  - unfold Installer.getitem, Installer.heap in *.
    rewrite list_lookup_middle by done. by rewrite Hdata in Hget.
  - by apply lookup_app_l_Some.
Qed.

End shallow_copy.

(** A payload with ASCII keys, on which the ASCII lower-casing is what
    [str.lower] does. *)
Lemma sanitize_log_data_shares_lists_witness :
  let h := [ Installer.ODict [ ("api_key", Installer.VStr "k-123");
                               ("devices", Installer.VRef 1) ];
             Installer.OList [ Installer.VStr "laptop" ] ] in
  exists new,
    Installer.sanitize_log_data PyStr.lower 2 h 0 = Some (2, h ++ new) /\
    Installer.getitem (h ++ new) 2 "devices" = Some (Installer.VRef 1) /\
    (h ++ new) !! 1 = Some (Installer.OList [ Installer.VStr "laptop" ]) /\
    2 <> 0.
Proof.
  intros h.
  refine (sanitize_log_data_shares_lists PyStr.lower 2 h 0 _ _ "devices" 1 _ _ eq_refl eq_refl
            eq_refl eq_refl eq_refl).
  unfold keys_unique, h.
  repeat (apply Forall_cons; split); try apply Forall_nil; try exact I;
    apply (bool_decide_unpack _); vm_compute; exact I.
Defined.

(** ** What a failed or a noisy installation leaves *)






(** ** The flow of the CLI *)

(** X26. [run] returns True only when every step it depends on did: the
    Drive on Colab, the selection of the interpreter and of the
    environment, the two installations of dependencies, the installer
    script and the validation. What [get_api_key] returns is not looked
    at. *)
Theorem run_true_only_if_every_step self env w :
  fst (Cli.run self env w) = Ok true ->
  (Cli.is_colab self = true -> Cli.mount_google_drive env = Ok true) /\
  Cli.detect_python_versions env = Ok true /\
  Cli.select_python_version env = Ok true /\
  Cli.select_venv_configuration env = Ok true /\
  (Cli.is_colab self = false ->
   fst (Cli.create_virtual_environment self (Cli.venv env) w) = Ok true) /\
  Cli.install_dependencies env = Ok true /\
  Cli.install_critical_dependencies env = Ok true /\
  (exists key, Cli.get_api_key env = Ok key) /\
  (exists w0, fst (Cli.run_vnstock_installer self env w0) = Ok true) /\
  Cli.validate_installation env = Ok true.
Proof.
  unfold Cli.run, Cli.print_info, Cli.print_error, Cli.print_warning, Cli.log,
         Cli.print.
  munfold. simpl.
  destruct (Cli.is_colab self) eqn:Hcolab; simpl.
  - destruct (Cli.mount_google_drive env) as [[]|]; simpl; try done.
    destruct (Cli.detect_python_versions env) as [[]|]; simpl; try done.
    destruct (Cli.select_python_version env) as [[]|]; simpl; try done.
    destruct (Cli.select_venv_configuration env) as [[]|]; simpl; try done.
    destruct (Cli.installed_packages env) as [n|]; simpl; try done.
    destruct (Cli.install_dependencies env) as [[]|]; simpl; try done.
    destruct (Cli.install_critical_dependencies env) as [[]|]; simpl; try done.
    destruct (Cli.get_api_key env) as [key|]; simpl; try done.
    match goal with
    | |- context [Cli.run_vnstock_installer self env ?w0] =>
        destruct (Cli.run_vnstock_installer self env w0) as [[[]|] w1] eqn:Hrun
    end; simpl; try done.
    destruct (Cli.copy_vnstock_packages_to_drive env) as [[]|]; simpl; try done.
    all: destruct (Cli.backup_config env) as [[]|[]]; simpl; try done.
    all: destruct (Cli.validate_installation env) as [[]|]; simpl; try done.
    all: intros _; repeat split; try done; eauto.
    all: eexists; by rewrite Hrun.
  - destruct (Cli.detect_python_versions env) as [[]|]; simpl; try done.
    destruct (Cli.select_python_version env) as [[]|]; simpl; try done.
    destruct (Cli.select_venv_configuration env) as [[]|]; simpl; try done.
    destruct (Cli.create_virtual_environment self (Cli.venv env) w)
      as [[[]|] w1] eqn:Hvenv; simpl; try done.
    destruct (Cli.install_dependencies env) as [[]|]; simpl; try done.
    destruct (Cli.install_critical_dependencies env) as [[]|]; simpl; try done.
    destruct (Cli.get_api_key env) as [key|]; simpl; try done.
    destruct (Cli.run_vnstock_installer self env w1) as [[[]|] w2] eqn:Hrun;
      simpl; try done.
    destruct (Cli.validate_installation env) as [[]|]; simpl; try done.
    intros _. repeat split; try done; eauto.
    eexists. by rewrite Hrun.
Qed.

Lemma run_true_only_if_every_step_witness :
  let ok := {| returncode := 0; proc_stdout := ""; proc_stderr := "" |} in
  let uv := {| Cli.uv_version := Ok ok; Cli.curl_install_sh := Ok ok;
               Cli.sh_install := Ok ok; Cli.pip_install_break := Ok ok;
               Cli.pip_install_plain := Ok ok |} in
  let venv := {| Cli.venv_path_exists := Ok true; Cli.venv_python_exists := Ok true;
                 Cli.rmtree_venv := Ok tt; Cli.uv := uv; Cli.uv_command := "uv";
                 Cli.uv_venv := Ok ok |} in
  let self := {| Cli.is_vietnamese := false; Cli.language := "en";
                 Cli.lang := fun key => key; Cli.verbose := false;
                 Cli.selected_python := "/usr/bin/python3";
                 Cli.venv_path := Some "/home/user/.venv";
                 Cli.venv_type := Some "default";
                 Cli.is_colab := false; Cli.is_codespaces := false;
                 Cli.on_nt := false;
                 Cli.log_path := "/home/user/.vnstock/cli_installer.log" |} in
  let env := {| Cli.mount_google_drive := Ok true;
                Cli.detect_python_versions := Ok true;
                Cli.select_python_version := Ok true;
                Cli.select_venv_configuration := Ok true;
                Cli.venv := venv;
                Cli.installed_packages := Ok 0;
                Cli.install_dependencies := Ok true;
                Cli.install_critical_dependencies := Ok true;
                Cli.get_api_key := Ok None;
                Cli.installer_script := "/opt/cli/vnstock-installer.py";
                Cli.installer_exists := true;
                Cli.mkdir_config := Ok tt;
                Cli.communicate := Ok ("Installation complete", 0%Z);
                Cli.parse_count := fun _ _ => None;
                Cli.copy_vnstock_packages_to_drive := Ok true;
                Cli.backup_config := Ok tt;
                Cli.validate_installation := Ok true;
                Cli.show_usage_instructions := Ok tt |} in
  let w := {| Cli.stdout := []; Cli.commands := []; Cli.log_file := [] |} in
  (Cli.is_colab self = true -> Cli.mount_google_drive env = Ok true) /\
  Cli.detect_python_versions env = Ok true /\
  Cli.select_python_version env = Ok true /\
  Cli.select_venv_configuration env = Ok true /\
  (Cli.is_colab self = false ->
   fst (Cli.create_virtual_environment self (Cli.venv env) w) = Ok true) /\
  Cli.install_dependencies env = Ok true /\
  Cli.install_critical_dependencies env = Ok true /\
  (exists key, Cli.get_api_key env = Ok key) /\
  (exists w0, fst (Cli.run_vnstock_installer self env w0) = Ok true) /\
  Cli.validate_installation env = Ok true.
Proof.
  intros ok uv venv self env w.
  apply (run_true_only_if_every_step self env w). vm_compute. reflexivity.
Defined.

(** ** The interpreter of an environment *)

(** X27. For a directory that exists, [create_or_use_venv] gives the
    interpreter that [get_venv_python] gives, when the two look at the
    same file system. *)
Theorem create_or_use_venv_agrees m env path w :
  Installer.venv_exists env = true ->
  Installer.venv_python_exists env =
    Installer.path_exists m
      (if Installer.on_windows m
       then Installer.nt_path_join (Installer.nt_path_join path "Scripts")
                                   "python.exe"
       else Installer.path_join (Installer.path_join path "bin") "python") ->
  fst (Installer.create_or_use_venv m env path w)
    = Ok (Installer.get_venv_python m path).
Proof.
  intros Hexists Hpython.
  unfold Installer.create_or_use_venv, Installer.get_venv_python, Installer.print,
         Installer.os_path_join.
  munfold. rewrite Hexists, Hpython.
  destruct (Installer.on_windows m); by destruct (Installer.path_exists m _).
Qed.

Lemma create_or_use_venv_agrees_witness :
  let m := {| Installer.sys_executable := "/usr/bin/python3";
              Installer.home := "/home/user"; Installer.on_windows := false;
              Installer.path_exists := fun p => String.eqb p "/home/user/.venv/bin/python" |} in
  let env := {| Installer.venv_exists := true;
                Installer.uv_venv :=
                  Ok {| returncode := 0; proc_stdout := ""; proc_stderr := "" |};
                Installer.venv_python_exists := true |} in
  let w := {| Installer.stdout := []; Installer.commands := [];
              Installer.tmp_files := ∅; Installer.tmp_dirs := ∅;
              Installer.site_packages := []; Installer.saved_info := [] |} in
  fst (Installer.create_or_use_venv m env "/home/user/.venv" w)
    = Ok (Installer.get_venv_python m "/home/user/.venv").
Proof.
  intros m env w.
  apply (create_or_use_venv_agrees m env "/home/user/.venv" w); reflexivity.
Defined.

(** ** The summary of the installation *)

Lemma for_each_print {A} (f : A -> string) (l : list A) w :
  for_each l (fun p => Installer.print (f p)) w =
    (Ok tt,
     {| Installer.stdout := Installer.stdout w ++ (f <$> l);
        Installer.commands := Installer.commands w;
        Installer.tmp_files := Installer.tmp_files w;
        Installer.tmp_dirs := Installer.tmp_dirs w;
        Installer.site_packages := Installer.site_packages w;
        Installer.saved_info := Installer.saved_info w |}).
Proof.
  revert w. induction l as [|p l IH]; intros w; simpl.
  - rewrite app_nil_r. by destruct w.
  - unfold Installer.print at 1. munfold. simpl. rewrite IH.
    simpl. by rewrite <- app_assoc.
Qed.

Lemma set_stdout_record f out cmds files dirs pkgs infos :
  Installer.set_stdout f
    {| Installer.stdout := out; Installer.commands := cmds;
       Installer.tmp_files := files; Installer.tmp_dirs := dirs;
       Installer.site_packages := pkgs; Installer.saved_info := infos |} =
    {| Installer.stdout := f out; Installer.commands := cmds;
       Installer.tmp_files := files; Installer.tmp_dirs := dirs;
       Installer.site_packages := pkgs; Installer.saved_info := infos |}.
Proof. reflexivity. Qed.

(** Finds a line in a list that is written out. *)
Ltac find_line :=
  repeat first
    [ apply list_elem_of_here
    | apply list_elem_of_further
    | apply elem_of_app; right ].

(** The summary never raises; the texts it prints come behind what was
    printed before. *)
Lemma summary_prints env results py vi w :
  exists shown,
    Installer.print_installation_summary env results py vi w =
      (Ok tt, Installer.set_stdout (fun out => out ++ shown) w) /\
    (forall name msg,
       (name, false, msg) ∈ results ->
       let t := if vi then Installer.summary_vi else Installer.summary_en in
       (nl ++ Installer.failed_label t ++ ": "
          ++ pretty (length (List.filter (fun p => negb (snd (fst p))) results)))%string
         ∈ shown /\
       (Installer.pip_error (name, false, msg) = true ->
        ("   " ++ py ++ " -m pip install --upgrade pip")%string ∈ shown)).
Proof.
  unfold Installer.print_installation_summary.
  set (t := if vi then Installer.summary_vi else Installer.summary_en).
  set (successful := List.filter (fun p => snd (fst p)) results).
  set (failed := List.filter (fun p => negb (snd (fst p))) results).
  set (pip_errors := List.filter Installer.pip_error failed).
  assert (forall name msg, (name, false, msg) ∈ results -> failed <> []) as Hfailed.
  { intros name msg Hin Hnil.
    assert (In (name, false, msg) failed) as Hin'.
    { apply List.filter_In. split; [by apply list_elem_of_In|done]. }
    rewrite Hnil in Hin'. destruct Hin'. }
  assert (forall name msg, (name, false, msg) ∈ results ->
            Installer.pip_error (name, false, msg) = true -> pip_errors <> [])
    as Hpip.
  { intros name msg Hin Herr Hnil.
    assert (In (name, false, msg) pip_errors) as Hin'.
    { apply List.filter_In. split; [|done].
      apply List.filter_In. split; [by apply list_elem_of_In|done]. }
    rewrite Hnil in Hin'. destruct Hin'. }
  pose proof (@for_each_print (string * bool * string)) as Heach.
  unfold Installer.print in *. munfold. cbn beta.
  rewrite !Heach. simpl.
  destruct (bool_decide (failed = [])) eqn:Hf; simpl; rewrite ?Heach; simpl;
    [|destruct (bool_decide (pip_errors = [])) eqn:Hp; simpl];
    destruct (Installer.info_is_virtual_env env); simpl;
    destruct (bool_decide (successful = [])); simpl.
  all: repeat (rewrite set_stdout_record; cbn beta).
  all: rewrite <- ?app_assoc.
  all: eexists; split; [reflexivity|].
  all: intros name msg Hin.
  all: try (apply bool_decide_eq_true_1 in Hf; by destruct (Hfailed name msg Hin)).
  all: split; [solve [find_line]|]; intros Herr.
  all: try (apply bool_decide_eq_true_1 in Hp; by destruct (Hpip name msg Hin Herr)).
  all: solve [find_line].
Qed.

Lemma lacks_app c a b : lacks c (a ++ b)%string = lacks c a && lacks c b.
Proof.
  induction a as [|x a IH]; [done|].
  change (lacks c (String x (a ++ b)%string)
          = negb (Ascii.eqb x c) && lacks c a && lacks c b).
  cbn [lacks]. by rewrite IH, andb_assoc.
Qed.

(** A text that lacks the first character of another does not hold it. *)
Lemma lacks_contains c p s :
  lacks c s = true -> PyStr.contains (String c p) s = false.
Proof.
  induction s as [|x s IH]; [done|].
  cbn [lacks]. intros [Hx Hs]%andb_true_iff.
  change (PyStr.contains (String c p) (String x s))
    with (Ascii.eqb c x && PyStr.startswith p s || PyStr.contains (String c p) s).
  rewrite (IH Hs), Ascii.eqb_sym. apply negb_true_iff in Hx. by rewrite Hx.
Qed.

(** The text of a number holds digits only. *)
Lemma lacks_pretty_N_go c x : forall s,
  (forall d, pretty_N_char d <> c) -> lacks c s = true ->
  lacks c (pretty_N_go x s) = true.
Proof.
  induction (N.lt_wf_0 x) as [x _ IH]; intros s Hdigit Hs.
  destruct (decide (x = 0)%N) as [->|Hx]; [by rewrite pretty_N_go_0|].
  rewrite pretty_N_go_step by lia.
  apply IH; [apply N.div_lt; lia|done|].
  cbn [lacks]. rewrite Hs, andb_true_r. apply negb_true_iff, Ascii.eqb_neq, Hdigit.
Qed.

Lemma lacks_pretty_nat c (n : nat) :
  (forall d, pretty_N_char d <> c) -> lacks c (pretty n) = true.
Proof.
  intros Hdigit. unfold pretty, pretty_nat, pretty, pretty_N.
  case_decide.
  - cbn [lacks]. rewrite andb_true_r.
    apply negb_true_iff, Ascii.eqb_neq, (Hdigit 0%N).
  - by apply lacks_pretty_N_go.
Qed.

(** X28. A package that [download_package] reports with its message for
    a failed installation brings the advice on pip into the summary: the
    summary returns, and among the lines it prints is the command that
    upgrades pip for the interpreter in use, in either language. *)
Theorem summary_tells_to_upgrade_pip env results py vi w name :
  (name, false, "Installation failed - pip error (check logs)") ∈ results ->
  fst (Installer.print_installation_summary env results py vi w) = Ok tt /\
  ("   " ++ py ++ " -m pip install --upgrade pip")%string
    ∈ Installer.stdout (snd (Installer.print_installation_summary env results py vi w)).
Proof.
  intros Hin.
  destruct (summary_prints env results py vi w) as (shown & -> & Hshown).
  split; [done|]. simpl. apply elem_of_app. right.
  apply (Hshown _ _ Hin). by vm_compute.
Qed.

Lemma summary_tells_to_upgrade_pip_witness :
  let env := {| Installer.duration := "12.5"; Installer.info_version := "3.12.1";
                Installer.info_is_virtual_env := false;
                Installer.info_virtual_env_path := "None";
                Installer.summary_log_file_path := "/home/user/.vnstock/installer.log" |} in
  let w := {| Installer.stdout := []; Installer.commands := [];
              Installer.tmp_files := ∅; Installer.tmp_dirs := ∅;
              Installer.site_packages := []; Installer.saved_info := [] |} in
  let results := [("vnstock_data", true, "vnstock_data installed successfully");
                  ("vnstock_ta", false, "Installation failed - pip error (check logs)")] in
  fst (Installer.print_installation_summary env results "/usr/bin/python3" true w) = Ok tt /\
  "   /usr/bin/python3 -m pip install --upgrade pip"
    ∈ Installer.stdout
        (snd (Installer.print_installation_summary env results "/usr/bin/python3" true w)).
Proof.
  intros env w results.
  apply (summary_tells_to_upgrade_pip env results "/usr/bin/python3" true w "vnstock_ta").
  apply (bool_decide_unpack _). vm_compute. exact I.
Defined.

(** X29. The two scripts do not spell the marker of the count of
    failures alike: the line with which the English summary gives the
    number of failed packages is printed whenever a package has failed, and
    it does not hold the marker by which the CLI looks for that number. *)
Theorem failure_count_line_misses_marker env results py w name msg :
  (name, false, msg) ∈ results ->
  let line :=
    (nl ++ Installer.failed_label Installer.summary_en ++ ": "
       ++ pretty (length (List.filter (fun p => negb (snd (fst p))) results)))%string in
  line ∈ Installer.stdout
           (snd (Installer.print_installation_summary env results py false w)) /\
  PyStr.contains "‚ùå Failed:" line = false.
Proof.
  intros Hin line. split.
  - destruct (summary_prints env results py false w) as (shown & -> & Hshown).
    simpl. apply elem_of_app. right. by apply (Hshown _ _ Hin).
  - apply lacks_contains. unfold line.
    rewrite !lacks_app, lacks_pretty_nat.
    + by vm_compute.
    + intros d. unfold pretty_N_char. by repeat case_match.
Qed.

Lemma failure_count_line_misses_marker_witness :
  let env := {| Installer.duration := "12.5"; Installer.info_version := "3.12.1";
                Installer.info_is_virtual_env := false;
                Installer.info_virtual_env_path := "None";
                Installer.summary_log_file_path := "/home/user/.vnstock/installer.log" |} in
  let w := {| Installer.stdout := []; Installer.commands := [];
              Installer.tmp_files := ∅; Installer.tmp_dirs := ∅;
              Installer.site_packages := []; Installer.saved_info := [] |} in
  let results := [("vnstock_data", false, "Package structure invalid")] in
  let line :=
    (nl ++ Installer.failed_label Installer.summary_en ++ ": "
       ++ pretty (length (List.filter (fun p => negb (snd (fst p))) results)))%string in
  line ∈ Installer.stdout
           (snd (Installer.print_installation_summary env results
                   "/usr/bin/python3" false w)) /\
  PyStr.contains "‚ùå Failed:" line = false.
Proof.
  intros env w results.
  apply (failure_count_line_misses_marker env results "/usr/bin/python3" w
           "vnstock_data" "Package structure invalid").
  apply (bool_decide_unpack _). vm_compute. exact I.
Defined.
